(** * Snow evolution pipeline: band stacking, composite rendering, viewer

    A shallow embedding of [RGB-NDSI.py] (three script cells: band stacking,
    true-color rendering, false-color rendering) and of [App.py] (the
    Streamlit viewer), with the properties the specification states about
    them.

    Modelling conventions.
    - A raster has a number type, one of the integer types of 8, 16 or 32
      bits, signed or not, or float64 (the 64-bit integers and float32 are
      left out).  NumPy subtracts inside the number type of its operands: an
      integer difference wraps around.  A division is always made in
      float64.
    - A float64 value is an [npfloat]: a real number, a signed infinity or
      NaN.  A result whose magnitude reaches the overflow bound of binary64
      is an infinity; below that bound rounding to the nearest binary64
      number is not modelled, and signed zeros are not distinguished.
      NumPy's true division does not raise on a zero divisor; it yields NaN
      or an infinity.
    - An n-dimensional array is its shape together with its samples in
      row-major order.
    - An uncaught Python exception ends the script: a computation returns
      [Ok] with its value or [Raise] with the exception.  What a run that
      raises has written or drawn before it raised, such as the raster that
      the stacking loop had opened for writing, is not modelled.
    - Directories are finite maps from entry names to entries;
      [os.listdir] returns the names in an unspecified order.
    - What GDAL and Matplotlib do where this depends on their version or on
      the format written (resampling and conversion of a written buffer,
      lossy compression, side-car files, bytes stored for NaN or for a value
      outside [0, 1], the byte that a value of [0, 1] rounds to) is taken
      from the environment of the run.
    - The interactive [plt.show] is outside the model. *)

From Stdlib Require Import Reals Lra Lia ZArith List String Ascii.
From stdpp Require Import base option list gmap strings sorting.

(** ** Exceptions *)

Inductive exn : Set :=
  | ValueError
  | IndexError
  | ZeroDivisionError
  | RasterioIOError
  | DriverCapabilityError
  | FileNotFoundError.

Inductive result (A : Type) : Type :=
  | Ok (a : A)
  | Raise (e : exn).

Arguments Ok {A} a.
Arguments Raise {A} e.

#[global] Instance result_ret : MRet result := fun A a => Ok a.
#[global] Instance result_fmap : FMap result := fun A B f m =>
  match m with
  | Ok a => Ok (f a)
  | Raise e => Raise e
  end.
#[global] Instance result_bind : MBind result := fun A B f m =>
  match m with
  | Ok a => f a
  | Raise e => Raise e
  end.

(** ** NumPy scalars and arrays *)

Module Np.

Local Open Scope R_scope.

(** float64; [Inf true] is minus infinity. *)
Inductive npfloat : Type :=
  | Fin (x : R)
  | Inf (neg : bool)
  | NaN.

Definition Rneg (x : R) : bool := if Rlt_dec x 0 then true else false.

(** The largest finite number of binary64, and the bound from which on
    rounding to nearest gives an infinity. *)
Definition max_float : R := (2 - / 2 ^ 52) * 2 ^ 1023.
Definition overflow_bound : R := (2 - / 2 ^ 53) * 2 ^ 1023.

(** The float64 that an operation with the exact result [x] returns. *)
Definition of_real (x : R) : npfloat :=
  if Rlt_dec (Rabs x) overflow_bound then Fin x else Inf (Rneg x).

(** [a - b] *)
Definition sub (a b : npfloat) : npfloat :=
  match a, b with
  | NaN, _ | _, NaN => NaN
  | Fin x, Fin y => of_real (x - y)
  | Fin _, Inf s => Inf (negb s)
  | Inf s, Fin _ => Inf s
  | Inf s, Inf t => if Bool.eqb s t then NaN else Inf s
  end.

(** [a * b] *)
Definition mul (a b : npfloat) : npfloat :=
  match a, b with
  | NaN, _ | _, NaN => NaN
  | Fin x, Fin y => of_real (x * y)
  | Fin x, Inf s | Inf s, Fin x =>
      if Req_dec_T x 0 then NaN else Inf (xorb s (Rneg x))
  | Inf s, Inf t => Inf (xorb s t)
  end.

(** [a / b] of [np.true_divide]: a zero divisor gives NaN for [0 / 0] and
    an infinity otherwise, never an exception. *)
Definition true_divide (a b : npfloat) : npfloat :=
  match a, b with
  | NaN, _ | _, NaN => NaN
  | Fin x, Fin y =>
      if Req_dec_T y 0
      then (if Req_dec_T x 0 then NaN else Inf (Rneg x))
      else of_real (x / y)
  | Fin _, Inf _ => Fin 0
  | Inf s, Fin y => Inf (xorb s (Rneg y))
  | Inf _, Inf _ => NaN
  end.

(** [np.minimum] and [np.maximum]: NaN propagates. *)
Definition minimum (a b : npfloat) : npfloat :=
  match a, b with
  | NaN, _ | _, NaN => NaN
  | Inf true, _ | _, Inf true => Inf true
  | Inf false, c | c, Inf false => c
  | Fin x, Fin y => Fin (Rmin x y)
  end.

Definition maximum (a b : npfloat) : npfloat :=
  match a, b with
  | NaN, _ | _, NaN => NaN
  | Inf false, _ | _, Inf false => Inf false
  | Inf true, c | c, Inf true => c
  | Fin x, Fin y => Fin (Rmax x y)
  end.

(** [np.clip(a, lo, hi)] is [np.minimum(hi, np.maximum(a, lo))]. *)
Definition clip1 (lo hi : R) (a : npfloat) : npfloat :=
  minimum (Fin hi) (maximum a (Fin lo)).

Definition is_integer (p : R) : bool :=
  if Req_dec_T p (IZR (Int_part p)) then true else false.

(** [np.power(a, p)] for a finite Python float exponent [p]. *)
Definition power1 (p : R) (a : npfloat) : npfloat :=
  if Req_dec_T p 0 then Fin 1 else
  match a with
  | NaN => NaN
  | Fin x =>
      if Rlt_dec 0 x then of_real (Rpower x p)
      else if Req_dec_T x 0 then (if Rlt_dec 0 p then Fin 0 else Inf false)
      else if is_integer p then of_real (powerRZ x (Int_part p))
      else NaN
  | Inf s =>
      if Rlt_dec 0 p
      then Inf (s && is_integer p && Z.odd (Int_part p))
      else Fin 0
  end.

(** The integer number types of a raster. *)
Inductive int_kind : Set :=
  | UInt8 | Int8 | UInt16 | Int16 | UInt32 | Int32.

Definition bits (k : int_kind) : Z :=
  match k with
  | UInt8 | Int8 => 8
  | UInt16 | Int16 => 16
  | UInt32 | Int32 => 32
  end%Z.

Definition signed (k : int_kind) : bool :=
  match k with
  | Int8 | Int16 | Int32 => true
  | UInt8 | UInt16 | UInt32 => false
  end.

Definition int_lo (k : int_kind) : Z :=
  (if signed k then - 2 ^ (bits k - 1) else 0)%Z.

Definition int_hi (k : int_kind) : Z :=
  (if signed k then 2 ^ (bits k - 1) - 1 else 2 ^ bits k - 1)%Z.

(** The value of the type that the exact integer [z] wraps around to. *)
Definition wrap (k : int_kind) (z : Z) : Z :=
  ((z - int_lo k) mod 2 ^ bits k + int_lo k)%Z.

#[global] Instance int_kind_eq_dec : EqDecision int_kind.
Proof. solve_decision. Defined.

(** The element type of an array: the operations [normalize_band] applies to
    its argument.  NumPy subtracts within the dtype and always divides into
    float64. *)
Class Dtype (A : Type) := {
  dt_min : A -> A -> A;
  dt_max : A -> A -> A;
  dt_sub : A -> A -> A;
  dt_div : A -> A -> npfloat;
}.

(** An integer type: an integer of at most 32 bits is a float64 exactly. *)
Definition int_dtype (k : int_kind) : Dtype Z := {|
  dt_min := Z.min;
  dt_max := Z.max;
  dt_sub := fun x y => wrap k (x - y);
  dt_div := fun x y => true_divide (Fin (IZR x)) (Fin (IZR y));
|}.

#[global] Instance float_dtype : Dtype npfloat := {|
  dt_min := minimum;
  dt_max := maximum;
  dt_sub := sub;
  dt_div := true_divide;
|}.

(** The number type of a raster and of the arrays read from it. *)
Inductive numtype : Set :=
  | Int (k : int_kind)
  | Float64.

#[global] Instance numtype_eq_dec : EqDecision numtype.
Proof. solve_decision. Defined.

Definition sample (d : numtype) : Type :=
  match d with
  | Int _ => Z
  | Float64 => npfloat
  end.

#[global] Instance numtype_ops (d : numtype) : Dtype (sample d) | 10 :=
  match d with
  | Int k => int_dtype k
  | Float64 => float_dtype
  end.

Definition zero (d : numtype) : sample d :=
  match d with
  | Int _ => 0%Z
  | Float64 => Fin 0
  end.

(** The float64 a sample is converted to. *)
Definition to_float {d : numtype} : sample d -> npfloat :=
  match d with
  | Int _ => fun z => Fin (IZR z)
  | Float64 => fun a => a
  end.

(** The samples of an array of type [d] seen as samples of type [d'], when
    the two types are the same. *)
Definition same_dtype (d d' : numtype) : list (sample d) -> option (list (sample d')) :=
  match d, d' with
  | Int k, Int k' => fun l => if decide (k = k') then Some l else None
  | Float64, Float64 => fun l => Some l
  | _, _ => fun _ => None
  end.

Record ndarray (A : Type) : Type := mk_ndarray {
  shape : list nat;
  data : list A;
}.

Arguments mk_ndarray {A} shape data.
Arguments shape {A} n.
Arguments data {A} n.

(** An elementwise operation keeps the shape. *)
Definition elementwise {A B : Type} (f : A -> B) (a : ndarray A) : ndarray B :=
  {| shape := shape a; data := f <$> data a |}.

(** [a.min()] and [a.max()]: a zero-size array has no minimum. *)
Definition amin {A : Type} `{Dtype A} (a : ndarray A) : result A :=
  match data a with
  | [] => Raise ValueError
  | x :: xs => Ok (foldl dt_min x xs)
  end.

Definition amax {A : Type} `{Dtype A} (a : ndarray A) : result A :=
  match data a with
  | [] => Raise ValueError
  | x :: xs => Ok (foldl dt_max x xs)
  end.

Definition clip (a : ndarray npfloat) (lo hi : R) : ndarray npfloat :=
  elementwise (clip1 lo hi) a.

Definition power (a : ndarray npfloat) (p : R) : ndarray npfloat :=
  elementwise (power1 p) a.

Fixpoint interleave3 {A : Type} (a b c : list A) : list A :=
  match a, b, c with
  | x :: a', y :: b', z :: c' => x :: y :: z :: interleave3 a' b' c'
  | _, _, _ => []
  end.

(** [np.stack([a, b, c], axis=-1)]: the three arrays must have one shape;
    the new axis is the last one, so the three values of a position are
    adjacent in row-major order. *)
Definition stack3 {A : Type} (a b c : ndarray A) : result (ndarray A) :=
  if decide (shape a = shape b /\ shape b = shape c)
  then Ok {| shape := shape a ++ [3%nat];
             data := interleave3 (data a) (data b) (data c) |}
  else Raise ValueError.

End Np.
(** ** Python strings and lists *)

Module Py.

(** [s.endswith(suffix)] *)
Fixpoint endswith (s suffix : string) : bool :=
  String.eqb s suffix ||
  match s with
  | EmptyString => false
  | String _ s' => endswith s' suffix
  end.

(** [old in s] *)
Fixpoint occurs (old s : string) : bool :=
  String.prefix old s ||
  match s with
  | EmptyString => false
  | String _ s' => occurs old s'
  end.

(** [s.replace(old, new)] for a non-empty [old]: every occurrence, found
    from the left and not overlapping, is replaced.  [skip] counts the
    characters of the occurrence just replaced that are still to be passed
    over. *)
Fixpoint replace_from (old new s : string) (skip : nat) : string :=
  match s with
  | EmptyString => EmptyString
  | String c s' =>
      match skip with
      | S k => replace_from old new s' k
      | O =>
          if String.prefix old s
          then new +:+ replace_from old new s' (String.length old - 1)
          else String c (replace_from old new s' 0)
      end
  end.

(** With an empty [old], Python inserts [new] before every character and at
    the end. *)
Fixpoint intersperse (new s : string) : string :=
  match s with
  | EmptyString => new
  | String c s' => new +:+ String c (intersperse new s')
  end.

Definition replace (s old new : string) : string :=
  match old with
  | EmptyString => intersperse new s
  | _ => replace_from old new s 0
  end.

(** [l[i]]: a negative index counts from the end, an index out of range
    raises [IndexError]. *)
Definition getitem {A : Type} (l : list A) (i : Z) : result A :=
  let n := Z.of_nat (length l) in
  let j := (if (i <? 0)%Z then i + n else i)%Z in
  if ((0 <=? j) && (j <? n))%Z
  then match l !! Z.to_nat j with Some x => Ok x | None => Raise IndexError end
  else Raise IndexError.

(** [sorted] on strings: ascending by code point, character by character. *)
Definition str_le (a b : string) : Prop := String.leb a b = true.

#[global] Instance str_le_dec : RelDecision str_le.
Proof. intros a b; unfold str_le; apply _. Defined.

Definition sorted (l : list string) : list string := merge_sort str_le l.

(** [for x in l: body], the body threading a state and possibly raising. *)
Fixpoint for_each {S : Type} (body : string -> S -> result S)
    (l : list string) (s : S) : result S :=
  match l with
  | [] => Ok s
  | x :: l' => s' ← body x s; for_each body l' s'
  end.

End Py.

(** ** Files, rasters and the state of a run *)

(** A raster dataset: its size, the spatial metadata that travels with it
    (coordinate reference, transform, nodata value), the name of the GDAL
    driver of its format, its number type and its bands, each in row-major
    order. *)
Record raster : Type := mk_raster {
  height : nat;
  width : nat;
  georef : string;
  driver : string;
  dtype : Np.numtype;
  bands_of : list (list (Np.sample dtype));
}.

(** What a path can name besides a directory of the input tree. *)
Inductive file : Type :=
  | RasterFile (r : raster)
  | OtherFile.

(** An entry of the input root: a plain file or a month directory. *)
Inductive entry : Type :=
  | PlainFile
  | Directory (content : gmap string file).

(** The array a rendering path computes, and what the PNG file written from
    it holds: four bytes, red, green, blue and alpha, for every pixel. *)
Definition image : Type := Np.ndarray Np.npfloat.
Definition png : Type := Np.ndarray Z.

(** The directories the script writes and what it prints.  [results] is
    what the directory Results holds: the stacked rasters and whatever else
    is found there.  The two image directories lie inside it and are kept
    apart here; the loops over Results pass over them, since their names do
    not end with [".tif"]. *)
Record world : Type := mk_world {
  results : gmap string file;
  rgb_dir : gmap string png;
  false_color_dir : gmap string png;
  stdout : list string;
}.

(** The environment of one run: the path separator, the directory of the
    script, the order in which [os.listdir] happens to return names, and the
    behaviour of the installed GDAL and Matplotlib where the script relies
    on it:
    - [gdal_writable]: whether a driver can create a dataset;
    - [gdal_rasterio]: the band that GDAL stores when it is handed a buffer
      whose size or number type is not that of the dataset, for the number
      type, height and width of the dataset;
    - [gdal_stored]: the dataset that is read back from the file written on
      closing a dataset (the same dataset for a lossless format);
    - [gdal_aux_xml]: whether closing writes the side-car file [.aux.xml];
    - [to_byte]: the byte stored for a value of [0, 1], nominally the
      integer part of 255 times the value;
    - [imsave_irregular]: what [plt.imsave] stores, or raises, for an array
      that is not a height x width x 3 array of values of [0, 1]. *)
Record env : Type := mk_env {
  sep : string;
  script_dir : string;
  listdir_order : list string -> list string;
  gdal_writable : string -> bool;
  gdal_rasterio : forall d d' : Np.numtype,
    nat -> nat -> Np.ndarray (Np.sample d) -> result (list (Np.sample d'));
  gdal_stored : raster -> raster;
  gdal_aux_xml : raster -> bool;
  to_byte : R -> Z;
  imsave_irregular : image -> result png;
}.

Definition print (line : string) (w : world) : world :=
  {| results := results w; rgb_dir := rgb_dir w;
     false_color_dir := false_color_dir w; stdout := stdout w ++ [line] |}.

(** The separators of a path: on Windows the slash is one, too. *)
Definition seps (e : env) : list string :=
  if decide (sep e = "\") then ["\"; "/"] else [sep e].

(** [os.path.join(dir, name)]: an absolute [name] replaces [dir], and no
    separator is added to a [dir] that is empty or ends with one.  Drive
    letters are not modelled. *)
Definition path_join (e : env) (dir name : string) : string :=
  if existsb (fun s => String.prefix s name) (seps e) then name
  else if String.eqb dir "" || existsb (Py.endswith dir) (seps e) then dir +:+ name
  else dir +:+ sep e +:+ name.

Definition listdir {A : Type} (e : env) (dir : gmap string A) : list string :=
  listdir_order e (elements (dom dir)).

Module Rasterio.

(** [rasterio.open(path)] for reading, [path] being [name] in [dir]. *)
Definition open (dir : gmap string file) (name : string) : result raster :=
  match dir !! name with
  | Some (RasterFile r) => Ok r
  | _ => Raise RasterioIOError
  end.

(** [src.read(i)]: band [i], counted from 1, as a [height] by [width]
    array of the number type of the dataset. *)
Definition read (src : raster) (i : nat) : result (Np.ndarray (Np.sample (dtype src))) :=
  match i with
  | O => Raise IndexError
  | S k =>
      match bands_of src !! k with
      | Some samples => Ok (Np.mk_ndarray [height src; width src] samples)
      | None => Raise IndexError
      end
  end.

(** [rasterio.open(path, 'w', **meta)], the metadata being the size, the
    spatial metadata, the driver and the number type, with [count] bands. *)
Definition create (e : env) (h w : nat) (geo drv : string) (d : Np.numtype) (count : nat)
    : result raster :=
  if gdal_writable e drv
  then Ok {| height := h; width := w; georef := geo; driver := drv; dtype := d;
             bands_of := replicate count (replicate (h * w) (Np.zero d)) |}
  else Raise DriverCapabilityError.

(** [dst.write(arr, idx)]: an array of the size and number type of the
    dataset is stored as it is; any other is handed to GDAL, which resamples
    and converts it. *)
Definition write (e : env) {d : Np.numtype} (dst : raster)
    (arr : Np.ndarray (Np.sample d)) (idx : nat) : result raster :=
  match idx with
  | O => Raise IndexError
  | S k =>
      if decide (length (bands_of dst) <= k)%nat then Raise IndexError
      else
        layer ← (if decide (Np.shape arr = [height dst; width dst])
                 then match Np.same_dtype d (dtype dst) (Np.data arr) with
                      | Some samples => Ok samples
                      | None => gdal_rasterio e d (dtype dst) (height dst) (width dst) arr
                      end
                 else gdal_rasterio e d (dtype dst) (height dst) (width dst) arr);
        Ok {| height := height dst; width := width dst; georef := georef dst;
              driver := driver dst; dtype := dtype dst;
              bands_of := <[k := layer]> (bands_of dst) |}
  end.

(** Leaving the [with] block of a dataset opened for writing as [name] in
    [dir]: the file is written, with its side-car file if GDAL makes one. *)
Definition close (e : env) (dst : raster) (name : string) (dir : gmap string file)
    : gmap string file :=
  <[name := RasterFile (gdal_stored e dst)]>
    (if gdal_aux_xml e dst then <[name +:+ ".aux.xml" := OtherFile]> dir else dir).

End Rasterio.

Module Plt.

Import Np.
Local Open Scope R_scope.

Definition unit_value (v : npfloat) : bool :=
  match v with
  | Fin x => if Rle_dec 0 x then (if Rle_dec x 1 then true else false) else false
  | _ => false
  end.

(** The bytes of the pixels of a height x width x 3 array of values of
    [0, 1]: an opaque alpha follows the three colours. *)
Fixpoint rgba (e : env) (values : list npfloat) : list Z :=
  match values with
  | Fin r :: Fin g :: Fin b :: rest =>
      to_byte e r :: to_byte e g :: to_byte e b :: 255%Z :: rgba e rest
  | _ => []
  end.

(** [plt.imsave(fname, arr)], as the file it writes. *)
Definition imsave (e : env) (arr : image) : result png :=
  match shape arr with
  | [h; w; 3%nat] =>
      if forallb unit_value (data arr)
      then Ok {| shape := [h; w; 4%nat]; data := rgba e (data arr) |}
      else imsave_irregular e arr
  | _ => imsave_irregular e arr
  end.

End Plt.

(** ** Cell 1: stacking the Sentinel bands of each month *)

Module Stacking.

Definition bands : list string :=
  ["B2.jp2"; "B3.jp2"; "B4.jp2"; "B8.jp2"; "B11.jp2"].

Definition output_dir (e : env) : string := path_join e (script_dir e) "Results".

(** The inner loop over [bands].  A band path is kept as the name of the band
    file inside the month directory. *)
Fixpoint find_bands (month : gmap string file) (month_folder : string)
    (todo band_paths : list string) (w : world) : list string * world :=
  match todo with
  | [] => (band_paths, w)
  | band_file :: todo' =>
      if decide (is_Some (month !! band_file))
      then find_bands month month_folder todo' (band_paths ++ [band_file]) w
      else find_bands month month_folder todo' band_paths
             (print ("Warning: " +:+ band_file +:+ " not found in " +:+ month_folder) w)
  end.

(** [for idx, band_path in enumerate(band_paths, start=1)] *)
Fixpoint write_bands (e : env) (month : gmap string file) (band_paths : list string)
    (idx : nat) (dst : raster) : result raster :=
  match band_paths with
  | [] => Ok dst
  | band_path :: rest =>
      src ← Rasterio.open month band_path;
      arr ← Rasterio.read src 1;
      dst' ← Rasterio.write e dst arr idx;
      write_bands e month rest (S idx) dst'
  end.

(** The body of the loop over the month folders.  [meta] is the metadata of
    the first band file with [count] set to the number of bands: the stack
    gets the size, the spatial metadata, the number type and also the driver
    of [B2.jp2]. *)
Definition stack_month (e : env) (base_dir : gmap string entry)
    (month_folder : string) (w : world) : result world :=
  match base_dir !! month_folder with
  | Some (Directory month) =>
      let '(band_paths, w1) := find_bands month month_folder bands [] w in
      if decide (length band_paths ≠ length bands)
      then Ok (print ("Skipping " +:+ month_folder +:+ " due to missing bands") w1)
      else
        let output_tiff := month_folder +:+ ".tif" in
        src0 ← (first ← Py.getitem band_paths 0; Rasterio.open month first);
        dst0 ← Rasterio.create e (height src0) (width src0) (georef src0)
                 (driver src0) (dtype src0) (length bands);
        dst ← write_bands e month band_paths 1 dst0;
        Ok (print ("Created " +:+ path_join e (output_dir e) output_tiff)
              {| results := Rasterio.close e dst output_tiff (results w1);
                 rgb_dir := rgb_dir w1;
                 false_color_dir := false_color_dir w1;
                 stdout := stdout w1 |})
  | _ => Ok w
  end.

Definition run (e : env) (base_dir : gmap string entry) (w : world) : result world :=
  w' ← Py.for_each (stack_month e base_dir) (Py.sorted (listdir e base_dir)) w;
  Ok (print "Processing complete!" w').

End Stacking.

(** ** Cell 2: true-color images *)

Module TrueColor.

Import Np.
Local Open Scope R_scope.

Definition input_dir : string := "./Results".
Definition output_dir : string := "./Results/RGB".

Definition normalize_band {A : Type} `{Dtype A} (band : ndarray A)
    : result (ndarray npfloat) :=
  band_min ← amin band;
  band_max ← amax band;
  Ok (elementwise (fun x => dt_div (dt_sub x band_min) (dt_sub band_max band_min)) band).

(** [def apply_brightness_gamma(rgb_image, brightness_factor=1, gamma=2)]:
    an argument left out is [None] here.  [1 / gamma] is a division of Python
    numbers and raises on zero. *)
Definition apply_brightness_gamma (rgb_image : ndarray npfloat)
    (brightness_factor gamma : option R) : result (ndarray npfloat) :=
  let brightness_factor := default 1 brightness_factor in
  let gamma := default 2 gamma in
  let brightened :=
    clip (elementwise (fun x => mul x (Fin brightness_factor)) rgb_image) 0 1 in
  if Req_dec_T gamma 0 then Raise ZeroDivisionError
  else Ok (power brightened (1 / gamma)).

(** From [src.read(3)] to [rgb_image_corrected]. *)
Definition true_color_image (src : raster) : result image :=
  red ← Rasterio.read src 3;
  green ← Rasterio.read src 2;
  blue ← Rasterio.read src 1;
  red_normalized ← normalize_band red;
  green_normalized ← normalize_band green;
  blue_normalized ← normalize_band blue;
  rgb_image ← stack3 red_normalized green_normalized blue_normalized;
  let brightness_factor := 1.2 in
  let gamma := 2.2 in
  apply_brightness_gamma rgb_image (Some brightness_factor) (Some gamma).

(** The file name of [output_image] inside [output_dir]. *)
Definition output_name (tiff_file : string) : string :=
  Py.replace tiff_file ".tif" "_RGB.png".

Definition render (e : env) (tiff_file : string) (w : world) : result world :=
  if Py.endswith tiff_file ".tif" then
    let output_image := path_join e output_dir (output_name tiff_file) in
    src ← Rasterio.open (results w) tiff_file;
    rgb_image_corrected ← true_color_image src;
    saved ← Plt.imsave e rgb_image_corrected;
    Ok (print ("Saved SatMapper-like RGB image: " +:+ output_image)
          {| results := results w;
             rgb_dir := <[output_name tiff_file := saved]> (rgb_dir w);
             false_color_dir := false_color_dir w;
             stdout := stdout w |})
  else Ok w.

Definition run (e : env) (w : world) : result world :=
  w' ← Py.for_each (render e) (Py.sorted (listdir e (results w))) w;
  Ok (print "Processing complete!" w').

End TrueColor.

(** ** Cell 3: false-color images *)

Module FalseColor.

Import Np.

Definition input_dir : string := "./Results".
Definition output_dir : string := "./Results/FalseColor".

(** The second definition of [normalize_band], the same text as the first. *)
Definition normalize_band {A : Type} `{Dtype A} (band : ndarray A)
    : result (ndarray npfloat) :=
  band_min ← amin band;
  band_max ← amax band;
  Ok (elementwise (fun x => dt_div (dt_sub x band_min) (dt_sub band_max band_min)) band).

(** From [src.read(4)] to [false_color_image]. *)
Definition false_color_image (src : raster) : result image :=
  nir ← Rasterio.read src 4;
  red ← Rasterio.read src 3;
  green ← Rasterio.read src 2;
  nir_normalized ← normalize_band nir;
  red_normalized ← normalize_band red;
  green_normalized ← normalize_band green;
  stack3 nir_normalized red_normalized green_normalized.

Definition output_name (tiff_file : string) : string :=
  Py.replace tiff_file ".tif" "_FalseColor.png".

Definition render (e : env) (tiff_file : string) (w : world) : result world :=
  if Py.endswith tiff_file ".tif" then
    let output_image := path_join e output_dir (output_name tiff_file) in
    src ← Rasterio.open (results w) tiff_file;
    false_color_image ← false_color_image src;
    saved ← Plt.imsave e false_color_image;
    Ok (print ("Saved SatMapper-like RGB image: " +:+ output_image)
          {| results := results w;
             rgb_dir := rgb_dir w;
             false_color_dir := <[output_name tiff_file := saved]> (false_color_dir w);
             stdout := stdout w |})
  else Ok w.

Definition run (e : env) (w : world) : result world :=
  w' ← Py.for_each (render e) (Py.sorted (listdir e (results w))) w;
  Ok (print "Processing complete!" w').

End FalseColor.

(** ** The whole script, run from the directory that holds it, so that
    [./Results] is the directory cell 1 wrote. *)

Definition script (e : env) (base_dir : gmap string entry) (w : world) : result world :=
  w1 ← Stacking.run e base_dir w;
  w2 ← TrueColor.run e w1;
  FalseColor.run e w2.

(** ** The viewer ([App.py]) *)

Module Viewer.

(** What [main] asks Streamlit to draw.  An image is named by its path;
    [st.image] opens the file and draws what it holds.  The cached
    [load_image] is defined in the source and never called. *)
Inductive element : Type :=
  | Title (body : string)
  | Write (body : string)
  | Slider (label : string) (min_value max_value value : Z) (format : string)
  | Image (path : string) (content : png) (use_column_width : bool).

(** Where an element is drawn; [Column i n] is column [i] of [st.columns(n)]. *)
Inductive container : Type :=
  | Sidebar
  | Page
  | Column (i n : nat).

Definition month_names : list string :=
  ["January"; "February"; "March"; "April"; "May"; "June"; "July"; "August";
   "September"; "October"; "November"; "December"].

(** The components of a path: the text between two separators. *)
Fixpoint split_on (c : ascii) (s : string) : list string :=
  match s with
  | EmptyString => [EmptyString]
  | String a s' =>
      if Ascii.eqb a c then EmptyString :: split_on c s'
      else match split_on c s' with
           | part :: parts => String a part :: parts
           | [] => [String a EmptyString]
           end
  end.

Definition path_parts (e : env) (path : string) : list string :=
  match sep e with
  | String c EmptyString => split_on c path
  | _ => [path]
  end.

(** The components of a directory that a rendering cell writes to, which
    the script spells with slashes, the components [.] left out. *)
Definition dir_parts (dir : string) : list string :=
  filter (fun part => part <> "." /\ part <> "") (split_on "/" dir).

(** The image file that a relative path names.  The viewer is started in
    the directory the script was run in: a path names an image when its
    components but the last are those of the directory one of the rendering
    cells writes to, and the last is the name of a file of that
    directory. *)
Definition lookup_image (e : env) (w : world) (path : string) : option png :=
  match path_parts e path with
  | [top; kind; name] =>
      if decide ([top; kind] = dir_parts TrueColor.output_dir) then rgb_dir w !! name
      else if decide ([top; kind] = dir_parts FalseColor.output_dir)
           then false_color_dir w !! name
      else None
  | _ => None
  end.

(** [st.image(path, use_column_width=...)]: a file that cannot be opened
    raises (as [FileNotFoundError] or, in later versions of Streamlit, as
    [MediaFileStorageError]). *)
Definition st_image (e : env) (w : world) (path : string) (use_column_width : bool)
    : result element :=
  match lookup_image e w path with
  | Some content => Ok (Image path content use_column_width)
  | None => Raise FileNotFoundError
  end.

(** [main], as a function of the value [month] the slider returns. *)
Definition main (e : env) (w : world) (month : Z) : result (list (container * element)) :=
  month_name ← Py.getitem month_names (month - 1);
  rgb ← st_image e w ("Results\RGB\" +:+ month_name +:+ "_RGB.png") true;
  false_color ← st_image e w ("Results\FalseColor\" +:+ month_name +:+ "_FalseColor.png") true;
  Ok [ (Sidebar, Title "Evolution of snow in 2024 in the South-West Alps: Piedmont, Italy");
       (Sidebar, Write "This program visualizes the evolution of snow in the South-West Alps near Piedmont Italy during 2024 using Sentinel-2 satellite imagery. It consists of an image per month of the year");
       (Sidebar, Slider "Choose a month" 1 12 1 "%d");
       (Page, Write ("You selected: " +:+ month_name));
       (Column 0 2, Write "RGB or True Color Image");
       (Column 0 2, rgb);
       (Column 1 2, Write "False Color Image");
       (Column 1 2, false_color) ].

End Viewer.

(** ** Vocabulary of the statements *)

Section Vocabulary.

Import Np.
Local Open Scope R_scope.

(** A float64 value that is a number of the unit interval. *)
Definition in_unit (a : npfloat) : Prop :=
  match a with
  | Fin v => 0 <= v <= 1
  | _ => False
  end.

Definition above_minus_inf (a : npfloat) : Prop :=
  match a with Fin _ | Inf false => True | _ => False end.

Definition below_plus_inf (a : npfloat) : Prop :=
  match a with Fin _ | Inf true => True | _ => False end.

(** Below a finite minimum there is nothing, and no NaN beside it. *)
Definition not_below (m : R) (y : npfloat) : Prop :=
  match y with
  | Fin v => m <= v
  | Inf false => True
  | _ => False
  end.

Definition not_above (m : R) (y : npfloat) : Prop :=
  match y with
  | Fin v => v <= m
  | Inf true => True
  | _ => False
  end.

(** The sample [x] is the number [v]: an integer, or a float64 that is
    neither an infinity nor NaN. *)
Definition number {d : numtype} (x : sample d) (v : R) : Prop := to_float x = Fin v.

(** The number a sample is, and 0 for an infinity or NaN. *)
Definition real_of {d : numtype} (x : sample d) : R :=
  match to_float x with
  | Fin v => v
  | _ => 0
  end.

(** The largest number of a type.  A span, a maximum minus a minimum, that
    is not above it is the difference the subtraction of the type returns. *)
Definition largest (d : numtype) : R :=
  match d with
  | Int k => IZR (int_hi k)
  | Float64 => max_float
  end.

Definition representable (d : numtype) (span : R) : Prop := span <= largest d.

(** Band [i], counted from 1, of a raster has a maximum strictly above its
    minimum and a span that is representable in the number type. *)
Definition regular_band (src : raster) (i : nat) : Prop :=
  exists (B : ndarray (sample (dtype src))) (mn mx : sample (dtype src)) (a b : R),
    Rasterio.read src i = Ok B /\ amin B = Ok mn /\ amax B = Ok mx /\
    number mn a /\ number mx b /\ a < b /\ representable (dtype src) (b - a).

(** Min-max scaling of one sample, as the specification writes it. *)
Definition min_max_scaled (mn mx x : R) : R := (x - mn) / (mx - mn).

(** Tone mapping of one value, as the specification writes it:
    [clip(v * brightness_factor, 0, 1) ^ (1 / gamma)]. *)
Definition tone_mapped (brightness_factor gamma : R) (v : npfloat) : npfloat :=
  power1 (1 / gamma) (clip1 0 1 (mul v (Fin brightness_factor))).

(** The calendar, as the specification counts the months. *)
Definition calendar (month : Z) : option string :=
  match month with
  | 1 => Some "January" | 2 => Some "February" | 3 => Some "March"
  | 4 => Some "April" | 5 => Some "May" | 6 => Some "June"
  | 7 => Some "July" | 8 => Some "August" | 9 => Some "September"
  | 10 => Some "October" | 11 => Some "November" | 12 => Some "December"
  | _ => None
  end%Z.

(** The environment [e] with another order of the directory listings. *)
Definition with_order (e : env) (order : list string -> list string) : env :=
  {| sep := sep e; script_dir := script_dir e; listdir_order := order;
     gdal_writable := gdal_writable e; gdal_rasterio := gdal_rasterio e;
     gdal_stored := gdal_stored e; gdal_aux_xml := gdal_aux_xml e;
     to_byte := to_byte e; imsave_irregular := imsave_irregular e |}.

(** The state after printing [lines], in order. *)
Definition emit (lines : list string) (w : world) : world :=
  {| results := results w; rgb_dir := rgb_dir w;
     false_color_dir := false_color_dir w; stdout := stdout w ++ lines |}.

(** The band files of [Stacking.bands] that a month directory lacks, and the
    warnings that name them. *)
Definition missing_bands (month : gmap string file) : list string :=
  filter (fun band_file => ~ is_Some (month !! band_file)) Stacking.bands.

Definition warning (month_folder band_file : string) : string :=
  "Warning: " +:+ band_file +:+ " not found in " +:+ month_folder.

(** The state after storing the rasters [L] and the images [G] and [F] over
    what the three directories held, and printing [lines]. *)
Definition store (L : gmap string file) (G F : gmap string png)
    (lines : list string) (w : world) : world :=
  {| results := L ∪ results w; rgb_dir := G ∪ rgb_dir w;
     false_color_dir := F ∪ false_color_dir w; stdout := stdout w ++ lines |}.

(** The band file [band_path] of a month directory is a raster of [h] by
    [w] pixels and of the number type [d] whose first band is [layer]. *)
Definition band_layer (month : gmap string file) (h w : nat) (d : numtype)
    (band_path : string) (layer : list (sample d)) : Prop :=
  exists (r : raster) (samples : list (sample (dtype r))),
    month !! band_path = Some (RasterFile r) /\
    bands_of r !! 0%nat = Some samples /\
    same_dtype (dtype r) d samples = Some layer /\
    height r = h /\ width r = w.

(** The band file [band_path] of a month directory is a raster of another
    size than [h] by [w], or of another number type than [d], and [layer] is
    what GDAL makes of its first band when it is written to a dataset of
    that size and type. *)
Definition resampled_layer (e : env) (month : gmap string file) (h w : nat) (d : numtype)
    (band_path : string) (layer : list (sample d)) : Prop :=
  exists (r : raster) (samples : list (sample (dtype r))),
    month !! band_path = Some (RasterFile r) /\
    bands_of r !! 0%nat = Some samples /\
    (height r <> h \/ width r <> w \/ same_dtype (dtype r) d samples = None) /\
    gdal_rasterio e (dtype r) d h w (mk_ndarray [height r; width r] samples) = Ok layer.

(** The band that [dst.write] stores for a band file. *)
Definition written_layer (e : env) (month : gmap string file) (h w : nat) (d : numtype)
    (band_path : string) (layer : list (sample d)) : Prop :=
  band_layer month h w d band_path layer \/
  resampled_layer e month h w d band_path layer.

(** [dst] is the stack of the month directory [month_folder]: it has the
    size, the spatial metadata, the driver and the number type of the raster
    in [B2.jp2], and its bands 1 to 5 are what [dst.write] stores for
    [B2.jp2], [B3.jp2], [B4.jp2], [B8.jp2], [B11.jp2]. *)
Definition stacked_from (e : env) (base_dir : gmap string entry) (month_folder : string)
    (dst : raster) : Prop :=
  exists (month : gmap string file) (src0 : raster),
    base_dir !! month_folder = Some (Directory month) /\
    month !! "B2.jp2" = Some (RasterFile src0) /\
    height dst = height src0 /\ width dst = width src0 /\
    georef dst = georef src0 /\ driver dst = driver src0 /\
    dtype dst = dtype src0 /\
    Forall2 (written_layer e month (height dst) (width dst) (dtype dst))
      Stacking.bands (bands_of dst).

(** A month directory that holds all five band files. *)
Definition complete_month (base_dir : gmap string entry) (month_folder : string) : Prop :=
  exists month : gmap string file,
    base_dir !! month_folder = Some (Directory month) /\ missing_bands month = [].

(** The array the true-color path hands to [apply_brightness_gamma]: the
    stack of the normalised bands 3, 2 and 1. *)
Definition true_color_stack (src : raster) : result image :=
  red ← Rasterio.read src 3;
  green ← Rasterio.read src 2;
  blue ← Rasterio.read src 1;
  red_normalized ← TrueColor.normalize_band red;
  green_normalized ← TrueColor.normalize_band green;
  blue_normalized ← TrueColor.normalize_band blue;
  stack3 red_normalized green_normalized blue_normalized.

(** What the two rendering paths write for a raster: the array they compute,
    saved by [plt.imsave]. *)
Definition true_color_png (e : env) (src : raster) : result png :=
  img ← TrueColor.true_color_image src; Plt.imsave e img.

Definition false_color_png (e : env) (src : raster) : result png :=
  img ← FalseColor.false_color_image src; Plt.imsave e img.

(** [saved] is the file that a rendering path, given by what it writes for
    a raster and by how it names its output, stores under the name [k] for
    some raster file of the results directory [R]. *)
Definition rendered_as (png_of : raster -> result png) (name_of : string -> string)
    (R : gmap string file) (k : string) (saved : png) : Prop :=
  exists (tiff_file : string) (src : raster),
    R !! tiff_file = Some (RasterFile src) /\
    Py.endswith tiff_file ".tif" = true /\
    name_of tiff_file = k /\
    png_of src = Ok saved.

(** Every raster file name of [R] is a stem without [".tif"] followed by the
    extension. *)
Definition plain_names (R : gmap string file) : Prop :=
  forall tiff_file, is_Some (R !! tiff_file) -> Py.endswith tiff_file ".tif" = true ->
    exists stem, tiff_file = stem +:+ ".tif" /\ Py.occurs ".tif" stem = false.

End Vocabulary.

(** ** Inputs used as examples *)

Section Examples.

Import Np.
Local Open Scope Z_scope.

(** A raster of unsigned 16-bit samples, as Sentinel-2 delivers them, in a
    lossless format. *)
Definition uint16_raster (h w : nat) (layers : list (list Z)) : raster :=
  {| height := h; width := w; georef := "EPSG:32632"; driver := "GTiff";
     dtype := Int UInt16; bands_of := layers |}.

(** A 1 x 2 raster whose bands 3, 2, 1 are not constant. *)
Definition varied_raster : raster :=
  uint16_raster 1 2 [[1; 3]; [2; 6]; [0; 4]; [5; 9]; [8; 7]].

Definition varied_world : world :=
  {| results := {[ "April.tif" := RasterFile varied_raster ]};
     rgb_dir := ∅; false_color_dir := ∅; stdout := [] |}.

(** Nearest-neighbour resampling of a buffer to [h] by [w] samples; a
    buffer of another number type gives zeros. *)
Definition nearest (d d' : numtype) (h w : nat) (arr : ndarray (sample d))
    : result (list (sample d')) :=
  match shape arr, same_dtype d d' (data arr) with
  | [h0; w0], Some samples =>
      Ok (flat_map (fun i => (fun j =>
            default (zero d') (samples !! (i * h0 / h * w0 + j * w0 / w)%nat))
            <$> seq 0 w) (seq 0 h))
  | _, _ => Ok (replicate (h * w) (zero d'))
  end.

(** A lossy format: every integer sample comes back even. *)
Definition evened (r : raster) : raster :=
  let '(mk_raster h w geo drv d layers) := r in
  mk_raster h w geo drv d
    (match d return list (list (sample d)) -> list (list (sample d)) with
     | Int _ => fun layers => (fun layer : list Z => (fun z => 2 * (z / 2)) <$> layer) <$> layers
     | Float64 => fun layers => layers
     end layers).

(** What Matplotlib 3.8 does with an array that is not a height x width x 3
    array of values of [0, 1]: a value outside [0, 1] is refused, and a
    pixel that holds NaN is stored as four zero bytes, transparent black. *)
Definition nan_value (v : npfloat) : bool :=
  match v with NaN => true | _ => false end.

Fixpoint rgba_nan (byte_of : R -> Z) (values : list npfloat) : list Z :=
  match values with
  | Fin r :: Fin g :: Fin b :: rest =>
      byte_of r :: byte_of g :: byte_of b :: 255 :: rgba_nan byte_of rest
  | _ :: _ :: _ :: rest => 0 :: 0 :: 0 :: 0 :: rgba_nan byte_of rest
  | _ => []
  end.

Definition imsave_nan (byte_of : R -> Z) (arr : image) : result png :=
  match shape arr with
  | [h; w; 3%nat] =>
      if forallb (fun v => Plt.unit_value v || nan_value v) (data arr)
      then Ok {| shape := [h; w; 4%nat]; data := rgba_nan byte_of (data arr) |}
      else Raise ValueError
  | _ => Raise ValueError
  end.

(** An environment: a POSIX system whose GDAL writes JPEG 2000 lossily and
    with a side-car file, and whose Matplotlib truncates a value of [0, 1]
    to its byte. *)
Definition posix : env :=
  {| sep := "/"; script_dir := "/home/user/project";
     listdir_order := fun names => names;
     gdal_writable := fun drv => negb (String.eqb drv "VRT");
     gdal_rasterio := nearest;
     gdal_stored := fun r => if String.eqb (driver r) "JP2OpenJPEG" then evened r else r;
     gdal_aux_xml := fun r => String.eqb (driver r) "JP2OpenJPEG";
     to_byte := fun x => Int_part (x * 255);
     imsave_irregular := imsave_nan (fun x => Int_part (x * 255)) |}.

(** The same on Windows. *)
Definition windows : env :=
  {| sep := "\"; script_dir := "C:\Users\user\project";
     listdir_order := listdir_order posix;
     gdal_writable := gdal_writable posix;
     gdal_rasterio := gdal_rasterio posix;
     gdal_stored := gdal_stored posix;
     gdal_aux_xml := gdal_aux_xml posix;
     to_byte := to_byte posix;
     imsave_irregular := imsave_irregular posix |}.

(** A 1 x 3 raster whose middle pixel tells the bands apart. *)
Definition graded_raster : raster :=
  uint16_raster 1 3 [[0; 1; 4]; [0; 2; 4]; [0; 3; 4]; [0; 1; 8]; [8; 7; 0]].






(** An input tree whose only month directory holds one band file. *)
Definition march_only : gmap string entry :=
  {[ "March" := Directory {[ "B2.jp2" := RasterFile varied_raster ]} ]}.

(** An input tree with a stray file and one month directory holding the
    five band files, whose stack is [varied_raster]. *)
Definition band_file (a b : Z) : file :=
  RasterFile (uint16_raster 1 2 [[a; b]]).

Definition five_bands : gmap string file :=
  <["B2.jp2" := band_file 1 3]> (<["B3.jp2" := band_file 2 6]>
    (<["B4.jp2" := band_file 0 4]> (<["B8.jp2" := band_file 5 9]>
       {[ "B11.jp2" := band_file 8 7 ]}))).

Definition july_tree : gmap string entry :=
  {[ "July" := Directory five_bands; "notes.txt" := PlainFile ]}.

(** The same bands in a month directory named [April.tif]. *)
Definition april_tif_tree : gmap string entry :=
  {[ "April.tif" := Directory five_bands ]}.

Definition empty_world : world :=
  {| results := ∅; rgb_dir := ∅; false_color_dir := ∅; stdout := [] |}.

(** The same bands as JPEG 2000 files. *)
Definition jp2_file (a b : Z) : file :=
  RasterFile {| height := 1; width := 2; georef := "EPSG:32632";
                driver := "JP2OpenJPEG"; dtype := Int UInt16; bands_of := [[a; b]] |}.

Definition five_jp2_bands : gmap string file :=
  <["B2.jp2" := jp2_file 1 3]> (<["B3.jp2" := jp2_file 2 6]>
    (<["B4.jp2" := jp2_file 0 4]> (<["B8.jp2" := jp2_file 5 9]>
       {[ "B11.jp2" := jp2_file 8 7 ]}))).

Definition august_tree : gmap string entry :=
  {[ "August" := Directory five_jp2_bands ]}.

(** A month directory whose [B4.jp2] is one pixel wider than the others. *)
Definition wide_band_file : file := RasterFile (uint16_raster 1 3 [[0; 4; 5]]).

Definition mismatched_tree : gmap string entry :=
  {[ "May" := Directory (<["B4.jp2" := wide_band_file]> five_bands) ]}.

(** A month directory whose [B8.jp2] is not a raster. *)
Definition corrupt_tree : gmap string entry :=
  {[ "June" := Directory (<["B8.jp2" := OtherFile]> five_bands) ]}.

(** A results directory that holds a file named like a raster that is
    none. *)
Definition junk_world : world :=
  {| results := {[ "notes.tif" := OtherFile ]};
     rgb_dir := ∅; false_color_dir := ∅; stdout := [] |}.

(** The image directories after a run that rendered April. *)
Definition april_images : world :=
  {| results := ∅;
     rgb_dir := {[ "April_RGB.png" := mk_ndarray [1; 1; 4]%nat [10; 20; 30; 255] ]};
     false_color_dir :=
       {[ "April_FalseColor.png" := mk_ndarray [1; 1; 4]%nat [40; 50; 60; 255] ]};
     stdout := [] |}.

(** Rasters with two and with three bands. *)
Definition two_band_raster : raster := uint16_raster 1 2 [[1; 3]; [2; 6]].

Definition three_band_raster : raster := uint16_raster 1 2 [[1; 3]; [2; 6]; [0; 4]].

End Examples.

(** * Properties *)

(** Evaluates [a.min()] and [a.max()] on a literal array. *)
Ltac extreme :=
  unfold Np.amin, Np.amax; simpl; try f_equal; simpl; unfold Rmin, Rmax;
  repeat (destruct (Rle_dec _ _); try lra); try reflexivity.

(** ** The ranges of the number types *)

Section Ranges.

Import Np.
Local Open Scope R_scope.

Lemma pow2_1023_ge_1 : 1 <= 2 ^ 1023.
Proof. apply pow_R1_Rle. lra. Qed.

Lemma inv_pow2_unit (n : nat) : 0 < / 2 ^ n <= 1.
Proof.
  assert (H : 1 <= 2 ^ n) by (apply pow_R1_Rle; lra).
  split; [apply Rinv_0_lt_compat; lra|].
  rewrite <- Rinv_1. apply Rinv_le_contravar; lra.
Qed.

Lemma max_float_lt_overflow : max_float < overflow_bound.
Proof.
  unfold max_float, overflow_bound.
  pose proof pow2_1023_ge_1 as HP. pose proof (inv_pow2_unit 52) as H52.
  assert (H53 : / 2 ^ 53 = / 2 ^ 52 / 2).
  { change (2 ^ 53) with (2 * 2 ^ 52). field; try (apply pow_nonzero; lra). }
  rewrite H53. set (P := 2 ^ 1023) in *. set (u := / 2 ^ 52) in *. nra.
Qed.

Lemma max_float_ge_1 : 1 <= max_float.
Proof.
  unfold max_float. pose proof pow2_1023_ge_1. pose proof (inv_pow2_unit 52).
  set (P := 2 ^ 1023) in *. set (u := / 2 ^ 52) in *. nra.
Qed.



Lemma of_real_Fin (x : R) : Rabs x < overflow_bound -> of_real x = Fin x.
Proof. intros H. unfold of_real. by destruct (Rlt_dec _ _). Qed.

Lemma of_real_span (x : R) : 0 <= x <= max_float -> of_real x = Fin x.
Proof.
  intros [H0 H1]. apply of_real_Fin. rewrite Rabs_pos_eq by exact H0.
  pose proof max_float_lt_overflow. lra.
Qed.

Lemma of_real_unit (x : R) : 0 <= x <= 1 -> of_real x = Fin x.
Proof. intros H. apply of_real_span. pose proof max_float_ge_1. lra. Qed.



Local Open Scope Z_scope.

Lemma int_range (k : int_kind) : int_lo k <= 0 <= int_hi k.
Proof. destruct k; vm_compute; split; discriminate. Qed.

Lemma wrap_in_range (k : int_kind) (z : Z) :
  int_lo k <= z <= int_hi k -> wrap k z = z.
Proof.
  intros H. unfold wrap.
  rewrite Z.mod_small; [lia|].
  destruct k; cbn in *; lia.
Qed.

Lemma wrap_0 (k : int_kind) : wrap k 0 = 0.
Proof. apply wrap_in_range, int_range. Qed.

Lemma int_hi_le_pow2_32 (k : int_kind) : (IZR (int_hi k) <= 2 ^ 32)%R.
Proof.
  replace (2 ^ 32)%R with (IZR (2 ^ 32)) by (rewrite pow_IZR; reflexivity).
  apply IZR_le. destruct k; vm_compute; discriminate.
Qed.

End Ranges.

(** ** Minimum and maximum of an array *)

Section Extremes.

Import Np.

Lemma foldl_Zmin_lower (xs : list Z) (x : Z) :
  (foldl Z.min x xs <= x)%Z /\ (forall y, y ∈ xs -> (foldl Z.min x xs <= y)%Z).
Proof.
  revert x; induction xs as [|z xs IH]; intros x; simpl.
  - split; [lia | intros y Hy; inversion Hy].
  - destruct (IH (Z.min x z)) as [Hx Hall]. split; [lia|].
    intros y Hy. apply elem_of_cons in Hy as [->|Hy]; [lia | by apply Hall].
Qed.

Lemma foldl_Zmin_elem (xs : list Z) (x : Z) : foldl Z.min x xs ∈ x :: xs.
Proof.
  revert x; induction xs as [|z xs IH]; intros x; simpl.
  - apply list_elem_of_here.
  - specialize (IH (Z.min x z)). apply elem_of_cons in IH as [Heq|Hin].
    + rewrite Heq. destruct (Z.min_spec x z) as [[_ ->]|[_ ->]].
      * apply list_elem_of_here.
      * apply list_elem_of_further, list_elem_of_here.
    + by do 2 apply list_elem_of_further.
Qed.

Lemma foldl_Zmax_upper (xs : list Z) (x : Z) :
  (x <= foldl Z.max x xs)%Z /\ (forall y, y ∈ xs -> (y <= foldl Z.max x xs)%Z).
Proof.
  revert x; induction xs as [|z xs IH]; intros x; simpl.
  - split; [lia | intros y Hy; inversion Hy].
  - destruct (IH (Z.max x z)) as [Hx Hall]. split; [lia|].
    intros y Hy. apply elem_of_cons in Hy as [->|Hy]; [lia | by apply Hall].
Qed.

Lemma foldl_Zmax_elem (xs : list Z) (x : Z) : foldl Z.max x xs ∈ x :: xs.
Proof.
  revert x; induction xs as [|z xs IH]; intros x; simpl.
  - apply list_elem_of_here.
  - specialize (IH (Z.max x z)). apply elem_of_cons in IH as [Heq|Hin].
    + rewrite Heq. destruct (Z.max_spec x z) as [[_ ->]|[_ ->]].
      * apply list_elem_of_further, list_elem_of_here.
      * apply list_elem_of_here.
    + by do 2 apply list_elem_of_further.
Qed.

(** [a.min()] on integers returns an element of the array below all
    others. *)
Lemma amin_int_spec (k : int_kind) (B : ndarray Z) (m : Z) :
  @amin Z (int_dtype k) B = Ok m ->
  m ∈ data B /\ (forall y, y ∈ data B -> (m <= y)%Z).
Proof.
  unfold amin. destruct (data B) as [|x xs]; [discriminate|].
  intros [= <-]. split; [apply foldl_Zmin_elem|].
  intros y Hy. destruct (foldl_Zmin_lower xs x) as [Hx Hall].
  apply elem_of_cons in Hy as [->|Hy]; [exact Hx | by apply Hall].
Qed.

Lemma amax_int_spec (k : int_kind) (B : ndarray Z) (m : Z) :
  @amax Z (int_dtype k) B = Ok m ->
  m ∈ data B /\ (forall y, y ∈ data B -> (y <= m)%Z).
Proof.
  unfold amax. destruct (data B) as [|x xs]; [discriminate|].
  intros [= <-]. split; [apply foldl_Zmax_elem|].
  intros y Hy. destruct (foldl_Zmax_upper xs x) as [Hx Hall].
  apply elem_of_cons in Hy as [->|Hy]; [exact Hx | by apply Hall].
Qed.

Local Open Scope R_scope.

Lemma minimum_cases (a b : npfloat) : minimum a b = a \/ minimum a b = b.
Proof.
  destruct a as [x|[]|], b as [y|[]|]; simpl; auto.
  unfold Rmin. destruct (Rle_dec x y); auto.
Qed.

Lemma maximum_cases (a b : npfloat) : maximum a b = a \/ maximum a b = b.
Proof.
  destruct a as [x|[]|], b as [y|[]|]; simpl; auto.
  unfold Rmax. destruct (Rle_dec x y); auto.
Qed.

Lemma foldl_minimum_elem (l : list npfloat) (a : npfloat) : foldl minimum a l ∈ a :: l.
Proof.
  revert a; induction l as [|z l IH]; intros a; simpl.
  - apply list_elem_of_here.
  - specialize (IH (minimum a z)). apply elem_of_cons in IH as [Heq|Hin].
    + rewrite Heq. destruct (minimum_cases a z) as [->| ->].
      * apply list_elem_of_here.
      * apply list_elem_of_further, list_elem_of_here.
    + by do 2 apply list_elem_of_further.
Qed.

Lemma foldl_maximum_elem (l : list npfloat) (a : npfloat) : foldl maximum a l ∈ a :: l.
Proof.
  revert a; induction l as [|z l IH]; intros a; simpl.
  - apply list_elem_of_here.
  - specialize (IH (maximum a z)). apply elem_of_cons in IH as [Heq|Hin].
    + rewrite Heq. destruct (maximum_cases a z) as [->| ->].
      * apply list_elem_of_here.
      * apply list_elem_of_further, list_elem_of_here.
    + by do 2 apply list_elem_of_further.
Qed.

Lemma foldl_minimum_lower (l : list npfloat) (a : npfloat) (m : R) :
  foldl minimum a l = Fin m -> Forall (not_below m) (a :: l).
Proof.
  revert a; induction l as [|z l IH]; intros a; simpl.
  - intros ->. constructor; [simpl; lra | constructor].
  - intros Hm. specialize (IH _ Hm).
    apply Forall_cons in IH as [Haz Hl].
    assert (not_below m a /\ not_below m z) as [Ha Hz].
    { destruct a as [x|[]|], z as [y|[]|]; simpl in *; try tauto.
      pose proof (Rmin_l x y). pose proof (Rmin_r x y). lra. }
    by repeat constructor.
Qed.

Lemma foldl_maximum_upper (l : list npfloat) (a : npfloat) (m : R) :
  foldl maximum a l = Fin m -> Forall (not_above m) (a :: l).
Proof.
  revert a; induction l as [|z l IH]; intros a; simpl.
  - intros ->. constructor; [simpl; lra | constructor].
  - intros Hm. specialize (IH _ Hm).
    apply Forall_cons in IH as [Haz Hl].
    assert (not_above m a /\ not_above m z) as [Ha Hz].
    { destruct a as [x|[]|], z as [y|[]|]; simpl in *; try tauto.
      pose proof (Rmax_l x y). pose proof (Rmax_r x y). lra. }
    by repeat constructor.
Qed.

(** A float array with a finite minimum and a finite maximum holds numbers
    between the two, and both occur. *)
Lemma float_extremes_spec (b : ndarray npfloat) (lo hi : R) :
  amin b = Ok (Fin lo) -> amax b = Ok (Fin hi) ->
  Fin lo ∈ data b /\ Fin hi ∈ data b /\
  forall y, y ∈ data b -> exists r, y = Fin r /\ lo <= r <= hi.
Proof.
  unfold amin, amax. destruct (data b) as [|a l]; [discriminate|].
  intros [= Hlo] [= Hhi].
  split; [rewrite <- Hlo; apply foldl_minimum_elem|].
  split; [rewrite <- Hhi; apply foldl_maximum_elem|].
  intros y Hy.
  apply foldl_minimum_lower in Hlo. apply foldl_maximum_upper in Hhi.
  rewrite Forall_forall in Hlo, Hhi.
  specialize (Hlo _ Hy). specialize (Hhi _ Hy).
  destruct y as [r|[]|]; simpl in *; try tauto. by exists r.
Qed.

Lemma finite_extremes_finite (b : ndarray npfloat) (lo hi : R) :
  amin b = Ok (Fin lo) -> amax b = Ok (Fin hi) ->
  forall y, y ∈ data b -> exists r, y = Fin r.
Proof.
  intros Hlo Hhi y Hy.
  destruct (float_extremes_spec b lo hi Hlo Hhi) as (_ & _ & H).
  destruct (H y Hy) as (r & -> & _). by exists r.
Qed.

(** The extremes of an array of any number type, when they are numbers:
    both occur in the array, and every sample is a number between them. *)
Lemma extremes_spec (d : numtype) (B : ndarray (sample d)) (mn mx : sample d) (a b : R) :
  amin B = Ok mn -> amax B = Ok mx -> number mn a -> number mx b ->
  mn ∈ data B /\ mx ∈ data B /\
  forall x, x ∈ data B -> exists v, number x v /\ a <= v <= b.
Proof.
  destruct d as [k|]; unfold number; cbn [to_float sample numtype_ops] in *.
  - intros Hmin Hmax [= <-] [= <-].
    destruct (amin_int_spec k B mn Hmin) as [Hmn Hlow].
    destruct (amax_int_spec k B mx Hmax) as [Hmx Hup].
    split; [exact Hmn|]. split; [exact Hmx|].
    intros x Hx. exists (IZR x). split; [reflexivity|].
    split; apply IZR_le; auto.
  - intros Hmin Hmax -> ->.
    destruct (float_extremes_spec B a b Hmin Hmax) as (Hmn & Hmx & Hall).
    split; [exact Hmn|]. split; [exact Hmx|].
    intros x Hx. destruct (Hall x Hx) as (r & -> & Hr). by exists r.
Qed.

Lemma number_inj {d : numtype} (x y : sample d) (v : R) :
  number x v -> number y v -> x = y.
Proof.
  destruct d as [k|]; unfold number; cbn [to_float sample].
  - intros [= Hx] [= Hy]. apply eq_IZR. congruence.
  - congruence.
Qed.

Lemma number_real_of {d : numtype} (x : sample d) (v : R) :
  number x v -> real_of x = v.
Proof. unfold number, real_of. by intros ->. Qed.

End Extremes.

(** ** Normalisation of a band *)

Section Normalisation.

Import Np.
Local Open Scope R_scope.

Lemma normalize_band_copies_agree {A : Type} `{Dtype A} (band : ndarray A) :
  FalseColor.normalize_band band = TrueColor.normalize_band band.
Proof. reflexivity. Qed.

Lemma unit_quotient (x mn mx : R) :
  mn <= x <= mx -> mn < mx -> 0 <= (x - mn) / (mx - mn) <= 1.
Proof.
  intros [Hlo Hhi] Hlt.
  assert (Hd : 0 < / (mx - mn)) by (apply Rinv_0_lt_compat; lra).
  assert (Hone : (mx - mn) * / (mx - mn) = 1) by (apply Rinv_r; lra).
  unfold Rdiv. split; nra.
Qed.

Lemma elementwise_ext {A B : Type} (f g : A -> B) (a : ndarray A) :
  (forall i x, data a !! i = Some x -> f x = g x) ->
  elementwise f a = elementwise g a.
Proof.
  intros Hfg. unfold elementwise. f_equal. by apply list_fmap_ext.
Qed.

(** [normalize_band] in terms of the extremes, whatever they are. *)
Lemma normalize_band_of_extremes {A : Type} `{Dtype A} (B : ndarray A) (mn mx : A) :
  amin B = Ok mn -> amax B = Ok mx ->
  TrueColor.normalize_band B
  = Ok (elementwise (fun x => dt_div (dt_sub x mn) (dt_sub mx mn)) B).
Proof. intros Hmin Hmax. unfold TrueColor.normalize_band. by rewrite Hmin, Hmax. Qed.

(** A difference inside a representable span is exact. *)
Lemma dt_sub_exact (d : numtype) (x y : sample d) (v u span : R) :
  number x v -> number y u -> 0 <= v - u <= span -> representable d span ->
  number (dt_sub x y) (v - u).
Proof.
  destruct d as [k|]; unfold number, representable; cbn [to_float sample largest].
  - intros [= <-] [= <-] [H0 H1] Hs. cbn [numtype_ops dt_sub int_dtype].
    rewrite <- minus_IZR in H0, H1.
    apply le_IZR in H0. assert (H2 : (x - y <= int_hi k)%Z) by (apply le_IZR; lra).
    rewrite wrap_in_range by (pose proof (int_range k); lia).
    by rewrite minus_IZR.
  - intros -> -> [H0 H1] Hs. cbn [numtype_ops dt_sub float_dtype sub].
    apply of_real_span. lra.
Qed.

Lemma dt_div_numbers (d : numtype) (x y : sample d) (v u : R) :
  number x v -> number y u ->
  dt_div x y = true_divide (Fin v) (Fin u).
Proof.
  destruct d as [k|]; unfold number; cbn [to_float sample].
  - by intros [= <-] [= <-].
  - by intros -> ->.
Qed.

Lemma true_divide_scaled (mn mx x : R) :
  mn <= x <= mx -> mn < mx ->
  true_divide (Fin (x - mn)) (Fin (mx - mn)) = Fin (min_max_scaled mn mx x).
Proof.
  intros Hx Hlt. unfold true_divide, min_max_scaled.
  destruct (Req_dec_T (mx - mn) 0) as [Hz|_]; [lra|].
  apply of_real_unit. by apply unit_quotient.
Qed.

(** The quotient computed for one sample of a band with distinct extremes
    and a representable span. *)
Lemma scaled_sample (d : numtype) (x mn mx : sample d) (v a b : R) :
  number x v -> number mn a -> number mx b ->
  a <= v <= b -> a < b -> representable d (b - a) ->
  dt_div (dt_sub x mn) (dt_sub mx mn) = Fin (min_max_scaled a b v).
Proof.
  intros Hx Hmn Hmx Hv Hlt Hrep.
  rewrite (dt_div_numbers d _ _ (v - a) (b - a)).
  - by apply true_divide_scaled.
  - apply (dt_sub_exact d x mn v a (b - a)); auto. lra.
  - apply (dt_sub_exact d mx mn b a (b - a)); auto. lra.
Qed.

(** With distinct extremes and a representable span the result is the
    min-max scaling. *)
Lemma normalize_band_scaled (d : numtype) (B : ndarray (sample d)) (mn mx : sample d)
    (a b : R) :
  amin B = Ok mn -> amax B = Ok mx -> number mn a -> number mx b ->
  a < b -> representable d (b - a) ->
  TrueColor.normalize_band B
  = Ok (elementwise (fun x => Fin (min_max_scaled a b (real_of x))) B).
Proof.
  intros Hmin Hmax Hmn Hmx Hlt Hrep.
  rewrite (normalize_band_of_extremes B mn mx Hmin Hmax). f_equal.
  apply elementwise_ext. intros i x Hx.
  destruct (extremes_spec d B mn mx a b Hmin Hmax Hmn Hmx) as (_ & _ & Hall).
  destruct (Hall x (list_elem_of_lookup_2 _ _ _ Hx)) as (v & Hxv & Hv).
  rewrite (number_real_of x v Hxv). by apply scaled_sample.
Qed.

(** With equal extremes every sample is the extreme, every difference is
    zero and every quotient is [0 / 0]. *)
Lemma constant_sample (d : numtype) (x m : sample d) (v : R) :
  number x v -> number m v ->
  dt_sub x m = zero d /\ dt_div (dt_sub x m) (dt_sub m m) = NaN.
Proof.
  intros Hx Hm. rewrite (number_inj x m v Hx Hm).
  assert (Hz : dt_sub m m = zero d).
  { destruct d as [k|]; unfold number in Hm; cbn [to_float sample] in *.
    - cbn [numtype_ops dt_sub int_dtype zero]. rewrite Z.sub_diag. apply wrap_0.
    - subst m. cbn [numtype_ops dt_sub float_dtype sub zero].
      rewrite Rminus_diag. apply of_real_unit. lra. }
  split; [exact Hz|]. rewrite Hz.
  destruct d as [k|]; cbn [numtype_ops dt_div int_dtype float_dtype zero true_divide].
  - destruct (Req_dec_T 0 0) as [_|Hn]; [reflexivity | lra].
  - destruct (Req_dec_T 0 0) as [_|Hn]; [reflexivity | lra].
Qed.

Lemma normalize_band_constant (d : numtype) (B : ndarray (sample d)) (m : sample d) (v : R) :
  amin B = Ok m -> amax B = Ok m -> number m v ->
  TrueColor.normalize_band B = Ok (elementwise (fun _ => NaN) B).
Proof.
  intros Hmin Hmax Hm.
  rewrite (normalize_band_of_extremes B m m Hmin Hmax). f_equal.
  apply elementwise_ext. intros i x Hx.
  destruct (extremes_spec d B m m v v Hmin Hmax Hm Hm) as (_ & _ & Hall).
  destruct (Hall x (list_elem_of_lookup_2 _ _ _ Hx)) as (u & Hxu & Hu).
  assert (u = v) by lra. subst u.
  by destruct (constant_sample d x m v Hxu Hm).
Qed.

End Normalisation.

(** ** Float arrays whose extremes are 0 and 1 *)

Section FloatArrays.

Import Np.
Local Open Scope R_scope.

Lemma elementwise_compose {A B C : Type} (f : A -> B) (g : B -> C) (a : ndarray A) :
  elementwise g (elementwise f a) = elementwise (g ∘ f) a.
Proof. unfold elementwise; simpl. f_equal. symmetry. apply list_fmap_compose. Qed.



(** The extremes of a min-max scaled band are 0 and 1. *)
Lemma scaled_extremes (d : numtype) (B : ndarray (sample d)) (mn mx : sample d) (a b : R) :
  amin B = Ok mn -> amax B = Ok mx -> number mn a -> number mx b -> a < b ->
  let N := elementwise (fun x => Fin (min_max_scaled a b (real_of x))) B in
  amin N = Ok (Fin 0) /\ amax N = Ok (Fin 1) /\
  (forall y, y ∈ data N -> in_unit y).
Proof.
  intros Hmin Hmax Hmn Hmx Hlt N.
  destruct (extremes_spec d B mn mx a b Hmin Hmax Hmn Hmx) as (Imn & Imx & Hall).
  assert (Hunit : forall y, y ∈ data N -> exists r, y = Fin r /\ 0 <= r <= 1).
  { intros y Hy. subst N. cbn [data elementwise] in Hy.
    apply list_elem_of_fmap in Hy as (x & -> & Hx).
    destruct (Hall x Hx) as (v & Hxv & Hv). rewrite (number_real_of x v Hxv).
    eexists. split; [reflexivity|]. by apply unit_quotient. }
  assert (H0 : Fin 0 ∈ data N).
  { subst N. cbn [data elementwise]. apply list_elem_of_fmap. exists mn.
    split; [|exact Imn]. rewrite (number_real_of mn a Hmn).
    unfold min_max_scaled, Rdiv. f_equal. lra. }
  assert (H1 : Fin 1 ∈ data N).
  { subst N. cbn [data elementwise]. apply list_elem_of_fmap. exists mx.
    split; [|exact Imx]. rewrite (number_real_of mx b Hmx).
    unfold min_max_scaled. f_equal. field. lra. }
  split; [|split].
  - unfold amin. destruct (data N) as [|y l] eqn:E; [inversion H0|]. f_equal.
    change (foldl minimum y l = Fin 0).
    pose proof (foldl_minimum_elem l y) as Hel.
    destruct (Hunit _ Hel) as (r & Hr & Hr01).
    assert (Hlow : Forall (not_below r) (y :: l)) by (by apply foldl_minimum_lower).
    rewrite Forall_forall in Hlow. specialize (Hlow _ H0). simpl in Hlow.
    rewrite Hr. f_equal. lra.
  - unfold amax. destruct (data N) as [|y l] eqn:E; [inversion H1|]. f_equal.
    change (foldl maximum y l = Fin 1).
    pose proof (foldl_maximum_elem l y) as Hel.
    destruct (Hunit _ Hel) as (r & Hr & Hr01).
    assert (Hup : Forall (not_above r) (y :: l)) by (by apply foldl_maximum_upper).
    rewrite Forall_forall in Hup. specialize (Hup _ H1). simpl in Hup.
    rewrite Hr. f_equal. lra.
  - intros y Hy. by destruct (Hunit y Hy) as (r & -> & Hr).
Qed.

End FloatArrays.

(** ** Tone mapping of finite values *)

Section ToneMapping.

Import Np.
Local Open Scope R_scope.

Lemma Rpower_one (p : R) : Rpower 1 p = 1.
Proof. unfold Rpower. rewrite ln_1, Rmult_0_r. apply exp_0. Qed.

Lemma Rpower_unit (c p : R) : 0 < c <= 1 -> 0 < p -> 0 < Rpower c p <= 1.
Proof.
  intros Hc Hp. split.
  - unfold Rpower. apply exp_pos.
  - rewrite <- (Rpower_one p). apply Rle_Rpower_l; lra.
Qed.

Lemma clip1_Fin (v : R) : clip1 0 1 (Fin v) = Fin (Rmin 1 (Rmax v 0)).
Proof. reflexivity. Qed.


Lemma clip_bounds (v : R) : 0 <= Rmin 1 (Rmax v 0) <= 1.
Proof.
  unfold Rmin, Rmax.
  destruct (Rle_dec v 0); destruct (Rle_dec 1 _); lra.
Qed.

(** Clipping undoes an overflow: an infinity is clipped to the bound on its
    side. *)
Lemma clip1_of_real (x : R) : clip1 0 1 (of_real x) = Fin (Rmin 1 (Rmax x 0)).
Proof.
  pose proof max_float_lt_overflow as Hb. pose proof max_float_ge_1 as Hm.
  unfold of_real. destruct (Rlt_dec (Rabs x) overflow_bound) as [_|Hbig];
    [apply clip1_Fin|].
  assert (Habs : overflow_bound <= Rabs x) by lra.
  unfold Rneg. destruct (Rlt_dec x 0) as [Hneg|Hpos].
  - cbn. f_equal. unfold Rmin, Rmax.
    destruct (Rle_dec x 0); [|lra]. destruct (Rle_dec 1 0); lra.
  - rewrite Rabs_pos_eq in Habs by lra. cbn. f_equal. unfold Rmin, Rmax.
    destruct (Rle_dec x 0); [lra|]. destruct (Rle_dec 1 x); lra.
Qed.

Lemma clip1_mul (v brightness_factor : R) :
  clip1 0 1 (mul (Fin v) (Fin brightness_factor))
  = Fin (Rmin 1 (Rmax (v * brightness_factor) 0)).
Proof. apply clip1_of_real. Qed.

(** A positive power of a number of the unit interval. *)
Lemma power1_value (p c : R) :
  0 < p -> 0 <= c <= 1 ->
  power1 p (Fin c) = Fin (if Rlt_dec 0 c then Rpower c p else 0).
Proof.
  intros Hp Hc. unfold power1.
  destruct (Req_dec_T p 0) as [Hz|_]; [lra|].
  destruct (Rlt_dec 0 c) as [Hpos|Hnpos].
  - apply of_real_unit. pose proof (Rpower_unit c p). lra.
  - destruct (Req_dec_T c 0) as [_|Hne]; [|lra].
    destruct (Rlt_dec 0 p); [reflexivity | lra].
Qed.

(** A positive exponent keeps the unit interval. *)
Lemma power1_unit (p c : R) : 0 < p -> 0 <= c <= 1 -> in_unit (power1 p (Fin c)).
Proof.
  intros Hp Hc. rewrite power1_value by assumption. simpl.
  destruct (Rlt_dec 0 c); [|lra]. pose proof (Rpower_unit c p). lra.
Qed.


(** Brightness scaling, clipping and gamma correction of one finite value:
    whatever the brightness factor, a positive gamma leaves a number of the
    unit interval. *)
Lemma tone_unit (brightness_factor gamma v : R) :
  0 < gamma ->
  in_unit (power1 (1 / gamma) (clip1 0 1 (mul (Fin v) (Fin brightness_factor)))).
Proof.
  intros Hg. rewrite clip1_mul. apply power1_unit.
  - apply Rdiv_pos_pos; lra.
  - apply clip_bounds.
Qed.

Lemma apply_brightness_gamma_elementwise (rgb_image : ndarray npfloat)
    (brightness_factor gamma : R) :
  gamma <> 0 ->
  TrueColor.apply_brightness_gamma rgb_image (Some brightness_factor) (Some gamma)
  = Ok (elementwise
          (fun x => power1 (1 / gamma) (clip1 0 1 (mul x (Fin brightness_factor))))
          rgb_image).
Proof.
  intros Hg. unfold TrueColor.apply_brightness_gamma. simpl.
  destruct (Req_dec_T gamma 0) as [Hz|_]; [contradiction|].
  f_equal. unfold power, clip. by rewrite !elementwise_compose.
Qed.

End ToneMapping.

(** ** Stacking three bands along the last axis *)

Section Stack.

Import Np.


Lemma elem_of_interleave3 {A : Type} (a b c : list A) (v : A) :
  v ∈ interleave3 a b c -> v ∈ a \/ v ∈ b \/ v ∈ c.
Proof.
  revert b c; induction a as [|x a IH]; intros [|y b] [|z c]; simpl;
    try (intros Hv; by inversion Hv).
  rewrite !elem_of_cons. intros [->|[->|[->|Hv]]]; auto.
  destruct (IH _ _ Hv) as [?|[?|?]]; auto.
Qed.

(** Position [k] of the three bands is positions [3k], [3k+1], [3k+2] of
    the stack. *)
Lemma interleave3_lookup {A : Type} (a b c : list A) (k : nat) (x y z : A) :
  a !! k = Some x -> b !! k = Some y -> c !! k = Some z ->
  interleave3 a b c !! (3 * k)%nat = Some x /\
  interleave3 a b c !! (3 * k + 1)%nat = Some y /\
  interleave3 a b c !! (3 * k + 2)%nat = Some z.
Proof.
  revert a b c; induction k as [|k IH];
    intros [|x' a] [|y' b] [|z' c] Ha Hb Hc; try discriminate.
  - simpl in *. by simplify_eq.
  - destruct (IH a b c Ha Hb Hc) as (H0 & H1 & H2).
    replace (3 * S k)%nat with (S (S (S (3 * k)))) by lia.
    repeat split; [exact H0 | exact H1 | exact H2].
Qed.

Lemma interleave3_length {A : Type} (a b c : list A) (n : nat) :
  length a = n -> length b = n -> length c = n ->
  length (interleave3 a b c) = (3 * n)%nat.
Proof.
  revert a b c; induction n as [|n IH]; intros [|x a] [|y b] [|z c]; simpl;
    try discriminate; try done.
  intros [= Ha] [= Hb] [= Hc]. rewrite (IH _ _ _ Ha Hb Hc). lia.
Qed.

Lemma read_inv (src : raster) (i : nat) (a : ndarray (sample (dtype src))) :
  Rasterio.read src i = Ok a ->
  shape a = [height src; width src] /\ bands_of src !! (i - 1)%nat = Some (data a)
  /\ (1 <= i)%nat.
Proof.
  unfold Rasterio.read. destruct i as [|k]; [discriminate|].
  replace (S k - 1)%nat with k by lia.
  destruct (bands_of src !! k) as [samples|]; [|discriminate].
  intros [= <-]. simpl. repeat split. lia.
Qed.

Lemma read_intro (src : raster) (k : nat) (samples : list (sample (dtype src))) :
  bands_of src !! k = Some samples ->
  Rasterio.read src (S k) = Ok (mk_ndarray [height src; width src] samples).
Proof. intros Hk. unfold Rasterio.read. by rewrite Hk. Qed.

(** What [normalize_band] returns when it returns. *)
Lemma normalize_band_inv {A : Type} `{Dtype A} (band : ndarray A) (N : ndarray npfloat) :
  TrueColor.normalize_band band = Ok N <->
  exists mn mx, amin band = Ok mn /\ amax band = Ok mx /\
    N = elementwise (fun x => dt_div (dt_sub x mn) (dt_sub mx mn)) band.
Proof.
  unfold TrueColor.normalize_band. split.
  - destruct (amin band) as [mn|]; [|discriminate].
    destruct (amax band) as [mx|]; [|discriminate].
    simpl. intros [= <-]. by exists mn, mx.
  - intros (mn & mx & -> & -> & ->). reflexivity.
Qed.

End Stack.

(** ** The two rendering paths *)

Section Rendering.

Import Np.
Local Open Scope R_scope.

Lemma normalize_band_shape {A : Type} `{Dtype A} (band : ndarray A) (N : ndarray npfloat) :
  TrueColor.normalize_band band = Ok N -> shape N = shape band.
Proof.
  intros HN. apply normalize_band_inv in HN as (mn & mx & _ & _ & ->). reflexivity.
Qed.

Lemma stack3_same_shape {A : Type} (a b c : ndarray A) (sh : list nat) :
  shape a = sh -> shape b = sh -> shape c = sh ->
  stack3 a b c = Ok (mk_ndarray (sh ++ [3%nat]) (interleave3 (data a) (data b) (data c))).
Proof.
  intros Ha Hb Hc. unfold stack3.
  destruct (decide (shape a = shape b /\ shape b = shape c)) as [_|Hn].
  - by rewrite Ha.
  - exfalso. apply Hn. by rewrite Ha, Hb, Hc.
Qed.

(** The true-color image in terms of the three normalised bands. *)
Lemma true_color_image_of_bands (src : raster)
    (red green blue : ndarray (sample (dtype src))) (rn gn bn : ndarray npfloat) :
  Rasterio.read src 3 = Ok red ->
  Rasterio.read src 2 = Ok green ->
  Rasterio.read src 1 = Ok blue ->
  TrueColor.normalize_band red = Ok rn ->
  TrueColor.normalize_band green = Ok gn ->
  TrueColor.normalize_band blue = Ok bn ->
  TrueColor.true_color_image src
  = Ok (mk_ndarray [height src; width src; 3%nat]
          (tone_mapped 1.2 2.2 <$> interleave3 (data rn) (data gn) (data bn))).
Proof.
  intros Hr Hg Hb Hrn Hgn Hbn. unfold TrueColor.true_color_image.
  rewrite Hr, Hg, Hb. simpl. rewrite Hrn, Hgn, Hbn. simpl.
  apply read_inv in Hr as (Sr & _ & _), Hg as (Sg & _ & _), Hb as (Sb & _ & _).
  apply normalize_band_shape in Hrn, Hgn, Hbn.
  rewrite (stack3_same_shape rn gn bn [height src; width src]) by congruence.
  simpl. rewrite apply_brightness_gamma_elementwise by lra. reflexivity.
Qed.

(** The false-color image in terms of the three normalised bands. *)
Lemma false_color_image_of_bands (src : raster)
    (nir red green : ndarray (sample (dtype src))) (nn rn gn : ndarray npfloat) :
  Rasterio.read src 4 = Ok nir ->
  Rasterio.read src 3 = Ok red ->
  Rasterio.read src 2 = Ok green ->
  FalseColor.normalize_band nir = Ok nn ->
  FalseColor.normalize_band red = Ok rn ->
  FalseColor.normalize_band green = Ok gn ->
  FalseColor.false_color_image src
  = Ok (mk_ndarray [height src; width src; 3%nat]
          (interleave3 (data nn) (data rn) (data gn))).
Proof.
  intros Hn Hr Hg Hnn Hrn Hgn. unfold FalseColor.false_color_image.
  rewrite Hn, Hr, Hg. simpl. rewrite Hnn, Hrn, Hgn. simpl.
  apply read_inv in Hn as (Sn & _ & _), Hr as (Sr & _ & _), Hg as (Sg & _ & _).
  rewrite normalize_band_copies_agree in Hnn, Hrn, Hgn.
  apply normalize_band_shape in Hnn, Hrn, Hgn.
  rewrite (stack3_same_shape nn rn gn [height src; width src]) by congruence.
  reflexivity.
Qed.

Lemma true_color_render_ok (e : env) (w : world) (tiff_file : string)
    (src : raster) (img : image) (saved : png) :
  Py.endswith tiff_file ".tif" = true ->
  results w !! tiff_file = Some (RasterFile src) ->
  TrueColor.true_color_image src = Ok img ->
  Plt.imsave e img = Ok saved ->
  TrueColor.render e tiff_file w
  = Ok (print ("Saved SatMapper-like RGB image: "
               +:+ path_join e TrueColor.output_dir (TrueColor.output_name tiff_file))
          {| results := results w;
             rgb_dir := <[TrueColor.output_name tiff_file := saved]> (rgb_dir w);
             false_color_dir := false_color_dir w;
             stdout := stdout w |}).
Proof.
  intros He Hf Hi Hs. unfold TrueColor.render, Rasterio.open.
  rewrite He, Hf. simpl. rewrite Hi. simpl. rewrite Hs. reflexivity.
Qed.

Lemma false_color_render_ok (e : env) (w : world) (tiff_file : string)
    (src : raster) (img : image) (saved : png) :
  Py.endswith tiff_file ".tif" = true ->
  results w !! tiff_file = Some (RasterFile src) ->
  FalseColor.false_color_image src = Ok img ->
  Plt.imsave e img = Ok saved ->
  FalseColor.render e tiff_file w
  = Ok (print ("Saved SatMapper-like RGB image: "
               +:+ path_join e FalseColor.output_dir (FalseColor.output_name tiff_file))
          {| results := results w;
             rgb_dir := rgb_dir w;
             false_color_dir := <[FalseColor.output_name tiff_file := saved]> (false_color_dir w);
             stdout := stdout w |}).
Proof.
  intros He Hf Hi Hs. unfold FalseColor.render, Rasterio.open.
  rewrite He, Hf. simpl. rewrite Hi. simpl. rewrite Hs. reflexivity.
Qed.

(** Saving an array of the unit interval. *)
Lemma forallb_unit_value (l : list npfloat) :
  forallb Plt.unit_value l = true <-> forall v, v ∈ l -> in_unit v.
Proof.
  rewrite forallb_forall. split.
  - intros H v Hv. apply list_elem_of_In in Hv. specialize (H v Hv).
    destruct v as [x| |]; simpl in *; try discriminate.
    destruct (Rle_dec 0 x); [|discriminate]. destruct (Rle_dec x 1); [lra | discriminate].
  - intros H v Hv. apply list_elem_of_In in Hv. specialize (H v Hv).
    destruct v as [x| |]; simpl in *; try tauto.
    destruct (Rle_dec 0 x); [|lra]. destruct (Rle_dec x 1); [reflexivity | lra].
Qed.

Lemma imsave_unit (e : env) (h w : nat) (values : list npfloat) :
  (forall v, v ∈ values -> in_unit v) ->
  Plt.imsave e (mk_ndarray [h; w; 3%nat] values)
  = Ok (mk_ndarray [h; w; 4%nat] (Plt.rgba e values)).
Proof.
  intros Hunit. unfold Plt.imsave. cbn [shape data].
  by rewrite (proj2 (forallb_unit_value values) Hunit).
Qed.

End Rendering.

(** ** Claims about [normalize_band] *)

Section NormalisationClaims.

Import Np.
Local Open Scope R_scope.







(** C3.  For a band of any number type whose maximum equals its minimum,
    the divisor [band_max - band_min] is zero, every quotient is [0 / 0],
    and both copies of [normalize_band] return normally with NaN at every
    position: nothing guards the division. *)
Theorem normalize_band_zero_division (d : numtype) (B : ndarray (sample d))
    (m : sample d) (v : R) :
  amin B = Ok m -> amax B = Ok m -> number m v ->
  dt_sub m m = zero d /\
  (forall i x, data B !! i = Some x ->
     dt_sub x m = zero d /\ dt_div (dt_sub x m) (dt_sub m m) = NaN) /\
  TrueColor.normalize_band B = Ok (elementwise (fun _ => NaN) B) /\
  FalseColor.normalize_band B = Ok (elementwise (fun _ => NaN) B) /\
  (exists i, data B !! i = Some m).
Proof.
  intros Hmin Hmax Hm.
  destruct (extremes_spec d B m m v v Hmin Hmax Hm Hm) as (Im & _ & Hall).
  split; [by destruct (constant_sample d m m v Hm Hm)|]. split.
  - intros i x Hx.
    destruct (Hall x (list_elem_of_lookup_2 _ _ _ Hx)) as (u & Hxu & Hu).
    assert (u = v) by lra. subst u. by apply (constant_sample d x m v).
  - split; [by apply (normalize_band_constant d B m v)|].
    split; [rewrite normalize_band_copies_agree; by apply (normalize_band_constant d B m v)|].
    by apply list_elem_of_lookup_1.
Qed.

Lemma normalize_band_zero_division_witness :
  TrueColor.normalize_band
    (mk_ndarray [2%nat; 2%nat] [7; 7; 7; 7]%Z : ndarray (sample (Int UInt16)))
  = Ok (mk_ndarray [2%nat; 2%nat] [NaN; NaN; NaN; NaN]).
Proof.
  apply (normalize_band_zero_division (Int UInt16)
           (mk_ndarray [2%nat; 2%nat] [7; 7; 7; 7]%Z) 7%Z 7); reflexivity.
Defined.




End NormalisationClaims.

(** ** Claims about the rendering paths *)

Section RenderingClaims.

Import Np.
Local Open Scope R_scope.
















End RenderingClaims.

Section MoreRenderingClaims.

Import Np.
Local Open Scope R_scope.






Lemma bind_Ok_inv {A B : Type} (m : result A) (f : A -> result B) (b : B) :
  m ≫= f = Ok b -> exists a, m = Ok a /\ f a = Ok b.
Proof. destruct m as [a|]; [|discriminate]. intros Hb. by exists a. Qed.

Lemma tone_default_sqrt (v : R) :
  tone_mapped 1 2 (Fin v) = Fin (sqrt (Rmin 1 (Rmax v 0))).
Proof.
  unfold tone_mapped. rewrite clip1_mul, Rmult_1_r.
  pose proof (clip_bounds v) as Hc. set (c := Rmin 1 (Rmax v 0)) in *.
  rewrite power1_value by lra. f_equal.
  destruct (Rlt_dec 0 c) as [Hpos|Hnpos].
  - replace (1 / 2) with (/ 2) by lra. by apply Rpower_sqrt.
  - assert (c = 0) as -> by lra. by rewrite sqrt_0.
Qed.

Lemma tone_differs_at_half :
  tone_mapped 1 2 (Fin 0.5) <> tone_mapped 1.2 2.2 (Fin 0.5).
Proof.
  unfold tone_mapped. rewrite !clip1_mul.
  replace (Rmin 1 (Rmax (0.5 * 1) 0)) with 0.5 by extreme.
  replace (Rmin 1 (Rmax (0.5 * 1.2) 0)) with 0.6 by extreme.
  rewrite !power1_value by lra.
  destruct (Rlt_dec 0 0.5) as [_|Hn]; [|lra].
  destruct (Rlt_dec 0 0.6) as [_|Hn]; [|lra].
  intros [= Heq].
  assert (Hlt : Rpower 0.5 (1 / 2) < Rpower 0.6 (1 / 2.2)); [|lra].
  unfold Rpower. apply exp_increasing.
  assert (Ha : ln 0.5 < ln 0.6) by (apply ln_increasing; lra).
  assert (Hb : ln 0.6 < 0) by (rewrite <- ln_1; apply ln_increasing; lra).
  nra.
Qed.

(** The true-color path is the stack of the normalised bands handed to
    [apply_brightness_gamma] with both arguments given. *)
Lemma true_color_image_call (src : raster) :
  TrueColor.true_color_image src
  = (rgb_image ← true_color_stack src;
     TrueColor.apply_brightness_gamma rgb_image (Some 1.2) (Some 2.2)).
Proof.
  unfold TrueColor.true_color_image, true_color_stack.
  destruct (Rasterio.read src 3) as [red|]; [|reflexivity].
  destruct (Rasterio.read src 2) as [green|]; [|reflexivity].
  destruct (Rasterio.read src 1) as [blue|]; [|reflexivity]. cbn [mbind result_bind].
  destruct (TrueColor.normalize_band red) as [rn|]; [|reflexivity].
  destruct (TrueColor.normalize_band green) as [gn|]; [|reflexivity].
  destruct (TrueColor.normalize_band blue) as [bn|]; reflexivity.
Qed.

Lemma true_color_stack_of_bands (src : raster)
    (red green blue : ndarray (sample (dtype src))) (rn gn bn : ndarray npfloat) :
  Rasterio.read src 3 = Ok red ->
  Rasterio.read src 2 = Ok green ->
  Rasterio.read src 1 = Ok blue ->
  TrueColor.normalize_band red = Ok rn ->
  TrueColor.normalize_band green = Ok gn ->
  TrueColor.normalize_band blue = Ok bn ->
  true_color_stack src
  = Ok (mk_ndarray [height src; width src; 3%nat]
          (interleave3 (data rn) (data gn) (data bn))).
Proof.
  intros Hr Hg Hb Hrn Hgn Hbn. unfold true_color_stack.
  rewrite Hr, Hg, Hb. simpl. rewrite Hrn, Hgn, Hbn. simpl.
  apply read_inv in Hr as (Sr & _ & _), Hg as (Sg & _ & _), Hb as (Sb & _ & _).
  apply normalize_band_shape in Hrn, Hgn, Hbn.
  by rewrite (stack3_same_shape rn gn bn [height src; width src]) by congruence.
Qed.

(** The stack of the normalised bands of the graded raster. *)
Lemma graded_stack :
  true_color_stack graded_raster
  = Ok (mk_ndarray [1%nat; 3%nat; 3%nat]
          [Fin (min_max_scaled 0 4 0); Fin (min_max_scaled 0 4 0); Fin (min_max_scaled 0 4 0);
           Fin (min_max_scaled 0 4 3); Fin (min_max_scaled 0 4 2); Fin (min_max_scaled 0 4 1);
           Fin (min_max_scaled 0 4 4); Fin (min_max_scaled 0 4 4); Fin (min_max_scaled 0 4 4)]).
Proof.
  assert (Hrep : representable (dtype graded_raster) (4 - 0))
    by (change (4 - 0 <= IZR 65535); lra).
  assert (Hnorm : forall B : ndarray (sample (dtype graded_raster)),
            amin B = Ok 0%Z -> amax B = Ok 4%Z ->
            TrueColor.normalize_band B
            = Ok (elementwise (fun x => Fin (min_max_scaled 0 4 (real_of x))) B)).
  { intros B Hmin Hmax.
    apply (normalize_band_scaled (dtype graded_raster) B 0%Z 4%Z 0 4);
      (assumption || reflexivity || lra). }
  rewrite (true_color_stack_of_bands graded_raster
             (mk_ndarray [1%nat; 3%nat] [0; 3; 4]%Z)
             (mk_ndarray [1%nat; 3%nat] [0; 2; 4]%Z)
             (mk_ndarray [1%nat; 3%nat] [0; 1; 4]%Z) _ _ _ eq_refl eq_refl eq_refl
             (Hnorm (mk_ndarray [1%nat; 3%nat] [0; 3; 4]%Z) eq_refl eq_refl)
             (Hnorm (mk_ndarray [1%nat; 3%nat] [0; 2; 4]%Z) eq_refl eq_refl)
             (Hnorm (mk_ndarray [1%nat; 3%nat] [0; 1; 4]%Z) eq_refl eq_refl)).
  reflexivity.
Qed.

(** C10.  Called without the two optional arguments,
    [apply_brightness_gamma] multiplies by 1, clips to [0, 1] and raises to
    the power 1 / 2, which on a finite value is the square root of the
    clipped value; this differs from what the constants 1.2 and 2.2 give
    (already at the value 0.5).  The true-color path hands the stack of its
    normalised bands to the call with both constants given, and for the
    graded raster the call without them would return another array. *)
Theorem apply_brightness_gamma_defaults :
  (forall rgb_image : ndarray npfloat,
     TrueColor.apply_brightness_gamma rgb_image None None
     = Ok (power (clip (elementwise (fun x => mul x (Fin 1)) rgb_image) 0 1) (1 / 2))) /\
  (forall rgb_image : ndarray npfloat,
     TrueColor.apply_brightness_gamma rgb_image None None
     = TrueColor.apply_brightness_gamma rgb_image (Some 1) (Some 2)) /\
  (forall (sh : list nat) (vs : list R),
     TrueColor.apply_brightness_gamma (mk_ndarray sh (Fin <$> vs)) None None
     = Ok (mk_ndarray sh ((fun v => Fin (sqrt (Rmin 1 (Rmax v 0)))) <$> vs))) /\
  TrueColor.apply_brightness_gamma (mk_ndarray [1%nat] [Fin 0.5]) None None
  <> TrueColor.apply_brightness_gamma (mk_ndarray [1%nat] [Fin 0.5]) (Some 1.2) (Some 2.2) /\
  (forall src : raster,
     TrueColor.true_color_image src
     = (rgb_image ← true_color_stack src;
        TrueColor.apply_brightness_gamma rgb_image (Some 1.2) (Some 2.2))) /\
  (forall (src : raster) (img : image),
     TrueColor.true_color_image src = Ok img ->
     exists rgb_image : ndarray npfloat,
       true_color_stack src = Ok rgb_image /\
       TrueColor.apply_brightness_gamma rgb_image (Some 1.2) (Some 2.2) = Ok img /\
       img = elementwise (tone_mapped 1.2 2.2) rgb_image) /\
  (exists rgb_image : ndarray npfloat,
     true_color_stack graded_raster = Ok rgb_image /\
     TrueColor.apply_brightness_gamma rgb_image None None
     <> TrueColor.true_color_image graded_raster).
Proof.
  assert (Hdef : forall rgb_image : ndarray npfloat,
     TrueColor.apply_brightness_gamma rgb_image None None
     = Ok (power (clip (elementwise (fun x => mul x (Fin 1)) rgb_image) 0 1) (1 / 2))).
  { intros rgb_image. unfold TrueColor.apply_brightness_gamma. simpl.
    destruct (Req_dec_T 2 0) as [Hz|_]; [lra | reflexivity]. }
  split; [exact Hdef|]. split; [reflexivity|]. split; [|split; [|split; [|split]]].
  - intros sh vs. rewrite Hdef. f_equal. unfold power, clip, elementwise. simpl.
    f_equal. rewrite <- !list_fmap_compose. apply list_fmap_ext.
    intros i v _. apply tone_default_sqrt.
  - change (TrueColor.apply_brightness_gamma (mk_ndarray [1%nat] [Fin 0.5]) None None)
      with (TrueColor.apply_brightness_gamma (mk_ndarray [1%nat] [Fin 0.5]) (Some 1) (Some 2)).
    rewrite !apply_brightness_gamma_elementwise by lra.
    unfold elementwise. simpl. intros [= Heq]. by apply tone_differs_at_half.
  - exact true_color_image_call.
  - intros src img Himg. rewrite true_color_image_call in Himg.
    apply bind_Ok_inv in Himg as (rgb_image & Hstack & Himg).
    exists rgb_image. split; [exact Hstack|]. split; [exact Himg|].
    rewrite apply_brightness_gamma_elementwise in Himg by lra. by injection Himg.
  - eexists. split; [exact graded_stack|].
    rewrite true_color_image_call, graded_stack. cbn [mbind result_bind].
    change (TrueColor.apply_brightness_gamma ?a None None)
      with (TrueColor.apply_brightness_gamma a (Some 1) (Some 2)).
    rewrite !apply_brightness_gamma_elementwise by lra.
    unfold elementwise. cbn [data shape fmap list_fmap]. intros [= _ _ _ _ Heq _].
    apply tone_differs_at_half.
    replace 0.5 with (min_max_scaled 0 4 2) by (unfold min_max_scaled; lra).
    exact Heq.
Qed.

End MoreRenderingClaims.

(** ** Output names *)

Section OutputNames.

Lemma append_String (c : ascii) (s t : string) :
  String c s +:+ t = String c (s +:+ t).
Proof. reflexivity. Qed.

Lemma append_Empty (t : string) : "" +:+ t = t.
Proof. reflexivity. Qed.

Lemma endswith_suffix (stem suffix : string) :
  Py.endswith (stem +:+ suffix) suffix = true.
Proof.
  induction stem as [|c stem IH].
  - rewrite append_Empty. destruct suffix; simpl; [done|].
    by rewrite Ascii.eqb_refl, String.eqb_refl.
  - rewrite append_String. cbn [Py.endswith]. rewrite IH. apply orb_true_r.
Qed.

(** No occurrence of [".tif"] starts inside [stem] and runs into the
    extension. *)
Lemma prefix_tif_app (stem : string) :
  String.prefix ".tif" stem = false ->
  stem <> EmptyString ->
  String.prefix ".tif" (stem +:+ ".tif") = false.
Proof.
  intros Hp Hne.
  destruct stem as [|c1 [|c2 [|c3 [|c4 stem]]]]; [done|..];
    rewrite !append_String, ?append_Empty; cbn [String.prefix] in *;
    repeat (match goal with
            | |- context [ascii_dec ?a ?b] => destruct (ascii_dec a b); subst
            | H : context [ascii_dec ?a ?b] |- _ => destruct (ascii_dec a b); subst
            end; try discriminate; try done).
  destruct stem; discriminate Hp.
Qed.

(** The extension of a raster file whose stem holds no [".tif"] is replaced
    and nothing else. *)
Lemma replace_extension (stem new : string) :
  Py.occurs ".tif" stem = false ->
  Py.replace (stem +:+ ".tif") ".tif" new = stem +:+ new.
Proof.
  unfold Py.replace. induction stem as [|c stem IH]; intros Hocc.
  - clear Hocc. rewrite !append_Empty.
    change (Py.replace_from ".tif" new ".tif" 0) with (new +:+ "").
    induction new as [|d new IHn]; [done|]. rewrite append_String. by f_equal.
  - cbn [Py.occurs] in Hocc. apply orb_false_elim in Hocc as [Hp Hocc].
    pose proof (prefix_tif_app (String c stem) Hp ltac:(done)) as Hq.
    rewrite !append_String in *.
    cbn [Py.replace_from]. rewrite Hq. f_equal. by apply IH.
Qed.

Lemma output_name_of_stem (stem : string) :
  Py.occurs ".tif" stem = false ->
  TrueColor.output_name (stem +:+ ".tif") = stem +:+ "_RGB.png" /\
  FalseColor.output_name (stem +:+ ".tif") = stem +:+ "_FalseColor.png".
Proof.
  intros Hocc. unfold TrueColor.output_name, FalseColor.output_name.
  by rewrite !replace_extension.
Qed.

End OutputNames.

(** ** Rasters whose bands are regular *)

Section RegularBands.

Import Np.
Local Open Scope R_scope.

Lemma regular_band_normalised (src : raster) (i : nat) :
  regular_band src i ->
  exists (B : ndarray (sample (dtype src))) (N : ndarray npfloat),
    Rasterio.read src i = Ok B /\ TrueColor.normalize_band B = Ok N /\
    forall v, v ∈ data N -> in_unit v.
Proof.
  intros (B & mn & mx & a & b & Hread & Hmin & Hmax & Hmn & Hmx & Hlt & Hrep).
  exists B, (elementwise (fun x => Fin (min_max_scaled a b (real_of x))) B).
  split; [exact Hread|]. split; [by apply (normalize_band_scaled _ B mn mx)|].
  by destruct (scaled_extremes _ B mn mx a b Hmin Hmax Hmn Hmx Hlt) as (_ & _ & Hunit).
Qed.

(** With regular bands 3, 2, 1 the true-color path returns an array of
    numbers of [0, 1], which [plt.imsave] stores. *)
Lemma true_color_regular (e : env) (src : raster) :
  regular_band src 3 -> regular_band src 2 -> regular_band src 1 ->
  exists (img : image) (saved : png),
    TrueColor.true_color_image src = Ok img /\
    shape img = [height src; width src; 3%nat] /\
    (forall v, v ∈ data img -> in_unit v) /\
    Plt.imsave e img = Ok saved /\
    saved = mk_ndarray [height src; width src; 4%nat] (Plt.rgba e (data img)).
Proof.
  intros H3 H2 H1.
  destruct (regular_band_normalised src 3 H3) as (red & rn & Hr & Hrn & Ur).
  destruct (regular_band_normalised src 2 H2) as (green & gn & Hg & Hgn & Ug).
  destruct (regular_band_normalised src 1 H1) as (blue & bn & Hb & Hbn & Ub).
  pose proof (true_color_image_of_bands src _ _ _ _ _ _ Hr Hg Hb Hrn Hgn Hbn) as Himg.
  assert (Hunit : forall v, v ∈ tone_mapped 1.2 2.2 <$> interleave3 (data rn) (data gn) (data bn)
                            -> in_unit v).
  { intros v Hv. apply list_elem_of_fmap in Hv as (u & -> & Hu).
    assert (Hin : in_unit u).
    { apply elem_of_interleave3 in Hu as [Hu|[Hu|Hu]]; auto. }
    destruct u as [x| |]; simpl in Hin; try tauto. apply tone_unit. lra. }
  eexists _, _. split; [exact Himg|]. split; [reflexivity|].
  split; [exact Hunit|]. split; [by apply imsave_unit | reflexivity].
Qed.

(** With regular bands 4, 3, 2 so does the false-color path. *)
Lemma false_color_regular (e : env) (src : raster) :
  regular_band src 4 -> regular_band src 3 -> regular_band src 2 ->
  exists (img : image) (saved : png),
    FalseColor.false_color_image src = Ok img /\
    shape img = [height src; width src; 3%nat] /\
    (forall v, v ∈ data img -> in_unit v) /\
    Plt.imsave e img = Ok saved /\
    saved = mk_ndarray [height src; width src; 4%nat] (Plt.rgba e (data img)).
Proof.
  intros H4 H3 H2.
  destruct (regular_band_normalised src 4 H4) as (nir & nn & Hn & Hnn & Un).
  destruct (regular_band_normalised src 3 H3) as (red & rn & Hr & Hrn & Ur).
  destruct (regular_band_normalised src 2 H2) as (green & gn & Hg & Hgn & Ug).
  pose proof (false_color_image_of_bands src _ _ _ _ _ _ Hn Hr Hg Hnn Hrn Hgn) as Himg.
  assert (Hunit : forall v, v ∈ interleave3 (data nn) (data rn) (data gn) -> in_unit v).
  { intros v Hv. apply elem_of_interleave3 in Hv as [Hv|[Hv|Hv]]; auto. }
  eexists _, _. split; [exact Himg|]. split; [reflexivity|].
  split; [exact Hunit|]. split; [by apply imsave_unit | reflexivity].
Qed.

Lemma varied_raster_regular (i : nat) :
  (1 <= i <= 4)%nat -> regular_band varied_raster i.
Proof.
  intros Hi.
  assert (Hrep : forall a b : R, 0 <= a -> a < b -> b <= 9 ->
            representable (dtype varied_raster) (b - a)).
  { intros a b H0 Hlt H9. change (b - a <= IZR 65535). lra. }
  destruct i as [|[|[|[|[|i]]]]]; try lia.
  - exists (mk_ndarray [1%nat; 2%nat] [1; 3]%Z), 1%Z, 3%Z, 1, 3.
    repeat split; try reflexivity; try lra. apply Hrep; lra.
  - exists (mk_ndarray [1%nat; 2%nat] [2; 6]%Z), 2%Z, 6%Z, 2, 6.
    repeat split; try reflexivity; try lra. apply Hrep; lra.
  - exists (mk_ndarray [1%nat; 2%nat] [0; 4]%Z), 0%Z, 4%Z, 0, 4.
    repeat split; try reflexivity; try lra. apply Hrep; lra.
  - exists (mk_ndarray [1%nat; 2%nat] [5; 9]%Z), 5%Z, 9%Z, 5, 9.
    repeat split; try reflexivity; try lra. apply Hrep; lra.
Qed.

Lemma varied_raster_renders (e : env) :
  exists (img1 img2 : image) (saved1 saved2 : png),
    TrueColor.true_color_image varied_raster = Ok img1 /\
    FalseColor.false_color_image varied_raster = Ok img2 /\
    Plt.imsave e img1 = Ok saved1 /\ Plt.imsave e img2 = Ok saved2.
Proof.
  destruct (true_color_regular e varied_raster) as (img1 & saved1 & H1 & _ & _ & S1 & _);
    try (apply varied_raster_regular; lia).
  destruct (false_color_regular e varied_raster) as (img2 & saved2 & H2 & _ & _ & S2 & _);
    try (apply varied_raster_regular; lia).
  by exists img1, img2, saved1, saved2.
Qed.

End RegularBands.

(** ** The viewer *)

Section ViewerClaims.

Local Open Scope Z_scope.

(** The directories of the two rendering cells, as path components. *)
Lemma output_dir_parts :
  Viewer.dir_parts TrueColor.output_dir = ["Results"; "RGB"] /\
  Viewer.dir_parts FalseColor.output_dir = ["Results"; "FalseColor"].
Proof. split; reflexivity. Qed.

Lemma lookup_image_windows (e : env) (w : world) (path top kind name : string) :
  sep e = "\" ->
  Viewer.split_on "\" path = [top; kind; name] ->
  Viewer.lookup_image e w path
  = (if decide ([top; kind] = ["Results"; "RGB"]) then rgb_dir w !! name
     else if decide ([top; kind] = ["Results"; "FalseColor"]) then false_color_dir w !! name
     else None).
Proof.
  intros Hsep Hparts. unfold Viewer.lookup_image, Viewer.path_parts.
  destruct output_dir_parts as [-> ->]. by rewrite Hsep, Hparts.
Qed.

Lemma lookup_image_posix (e : env) (w : world) (path : string) :
  sep e = "/" ->
  Viewer.split_on "/" path = [path] ->
  Viewer.lookup_image e w path = None.
Proof.
  intros Hsep Hparts. unfold Viewer.lookup_image, Viewer.path_parts.
  by rewrite Hsep, Hparts.
Qed.

(** The outcome of [main] for one month name. *)
Lemma main_of_month (e : env) (w : world) (month : Z) (month_name : string) :
  Py.getitem Viewer.month_names (month - 1) = Ok month_name ->
  Viewer.split_on "\" ("Results\RGB\" +:+ month_name +:+ "_RGB.png")
    = ["Results"; "RGB"; month_name +:+ "_RGB.png"] ->
  Viewer.split_on "\" ("Results\FalseColor\" +:+ month_name +:+ "_FalseColor.png")
    = ["Results"; "FalseColor"; month_name +:+ "_FalseColor.png"] ->
  Viewer.split_on "/" ("Results\RGB\" +:+ month_name +:+ "_RGB.png")
    = ["Results\RGB\" +:+ month_name +:+ "_RGB.png"] ->
  (sep e = "\" ->
   forall rgb false_color : png,
     rgb_dir w !! (month_name +:+ "_RGB.png") = Some rgb ->
     false_color_dir w !! (month_name +:+ "_FalseColor.png") = Some false_color ->
     Viewer.main e w month = Ok
       [ (Viewer.Sidebar, Viewer.Title "Evolution of snow in 2024 in the South-West Alps: Piedmont, Italy");
         (Viewer.Sidebar, Viewer.Write "This program visualizes the evolution of snow in the South-West Alps near Piedmont Italy during 2024 using Sentinel-2 satellite imagery. It consists of an image per month of the year");
         (Viewer.Sidebar, Viewer.Slider "Choose a month" 1 12 1 "%d");
         (Viewer.Page, Viewer.Write ("You selected: " +:+ month_name));
         (Viewer.Column 0 2, Viewer.Write "RGB or True Color Image");
         (Viewer.Column 0 2,
            Viewer.Image ("Results\RGB\" +:+ month_name +:+ "_RGB.png") rgb true);
         (Viewer.Column 1 2, Viewer.Write "False Color Image");
         (Viewer.Column 1 2,
            Viewer.Image ("Results\FalseColor\" +:+ month_name +:+ "_FalseColor.png")
              false_color true) ]) /\
  (sep e = "\" ->
   rgb_dir w !! (month_name +:+ "_RGB.png") = None \/
   false_color_dir w !! (month_name +:+ "_FalseColor.png") = None ->
   exists x : exn, Viewer.main e w month = Raise x) /\
  (sep e = "/" -> Viewer.main e w month = Raise FileNotFoundError).
Proof.
  intros Hname Hrgb Hfc Hposix. unfold Viewer.main. rewrite Hname.
  cbn [mbind result_bind]. unfold Viewer.st_image. split; [|split].
  - intros Hsep rgb false_color Hr Hf.
    rewrite (lookup_image_windows e w _ _ _ _ Hsep Hrgb),
            (lookup_image_windows e w _ _ _ _ Hsep Hfc).
    rewrite (decide_True (P := ["Results"; "RGB"] = ["Results"; "RGB"])) by reflexivity.
    rewrite (decide_False (P := ["Results"; "FalseColor"] = ["Results"; "RGB"]))
      by (intros [=]).
    rewrite (decide_True (P := ["Results"; "FalseColor"] = ["Results"; "FalseColor"]))
      by reflexivity. by rewrite Hr, Hf.
  - intros Hsep Hmiss.
    rewrite (lookup_image_windows e w _ _ _ _ Hsep Hrgb),
            (lookup_image_windows e w _ _ _ _ Hsep Hfc).
    rewrite (decide_True (P := ["Results"; "RGB"] = ["Results"; "RGB"])) by reflexivity.
    rewrite (decide_False (P := ["Results"; "FalseColor"] = ["Results"; "RGB"]))
      by (intros [=]).
    rewrite (decide_True (P := ["Results"; "FalseColor"] = ["Results"; "FalseColor"]))
      by reflexivity.
    destruct (rgb_dir w !! _) as [rgb|]; [|by eexists].
    destruct Hmiss as [[=]|Hf]. rewrite Hf. by eexists.
  - intros Hsep. by rewrite (lookup_image_posix e w _ Hsep Hposix).
Qed.

(** C8.  For a slider value [month] from 1 to 12 the viewer takes the
    calendar month name at position [month] and asks for two image files,
    [Results\RGB\<name>_RGB.png] and [Results\FalseColor\<name>_FalseColor.png],
    named as the two rendering paths name the images of the raster
    [<name>.tif].  Where the backslash separates the components of a path,
    these are the files the rendering paths wrote: if both exist, [main]
    draws them in the two columns of one row, as the files hold them, and
    if one is missing, [main] raises.  Where the slash separates them, the
    two paths name no file of Results, and [main] raises whatever the
    rendering paths wrote. *)
Theorem viewer_shows_month (e : env) (w : world) (month : Z) :
  1 <= month <= 12 ->
  exists month_name : string,
    calendar month = Some month_name /\
    TrueColor.output_name (month_name +:+ ".tif") = month_name +:+ "_RGB.png" /\
    FalseColor.output_name (month_name +:+ ".tif") = month_name +:+ "_FalseColor.png" /\
    (sep e = "\" ->
     forall rgb false_color : png,
       rgb_dir w !! TrueColor.output_name (month_name +:+ ".tif") = Some rgb ->
       false_color_dir w !! FalseColor.output_name (month_name +:+ ".tif")
         = Some false_color ->
       Viewer.main e w month = Ok
         [ (Viewer.Sidebar, Viewer.Title "Evolution of snow in 2024 in the South-West Alps: Piedmont, Italy");
           (Viewer.Sidebar, Viewer.Write "This program visualizes the evolution of snow in the South-West Alps near Piedmont Italy during 2024 using Sentinel-2 satellite imagery. It consists of an image per month of the year");
           (Viewer.Sidebar, Viewer.Slider "Choose a month" 1 12 1 "%d");
           (Viewer.Page, Viewer.Write ("You selected: " +:+ month_name));
           (Viewer.Column 0 2, Viewer.Write "RGB or True Color Image");
           (Viewer.Column 0 2,
              Viewer.Image ("Results\RGB\" +:+ month_name +:+ "_RGB.png") rgb true);
           (Viewer.Column 1 2, Viewer.Write "False Color Image");
           (Viewer.Column 1 2,
              Viewer.Image ("Results\FalseColor\" +:+ month_name +:+ "_FalseColor.png")
                false_color true) ]) /\
    (sep e = "\" ->
     rgb_dir w !! TrueColor.output_name (month_name +:+ ".tif") = None \/
     false_color_dir w !! FalseColor.output_name (month_name +:+ ".tif") = None ->
     exists x : exn, Viewer.main e w month = Raise x) /\
    (sep e = "/" -> Viewer.main e w month = Raise FileNotFoundError).
Proof.
  intros Hm.
  assert (Hcases : month = 1 \/ month = 2 \/ month = 3 \/ month = 4 \/ month = 5 \/
                   month = 6 \/ month = 7 \/ month = 8 \/ month = 9 \/ month = 10 \/
                   month = 11 \/ month = 12) by lia.
  repeat (destruct Hcases as [->|Hcases]); [..|subst month];
    (eexists; split; [reflexivity|];
     split; [reflexivity|]; split; [reflexivity|];
     match goal with
     | |- context [TrueColor.output_name (?n +:+ ".tif")] =>
         change (TrueColor.output_name (n +:+ ".tif")) with (n +:+ "_RGB.png");
         change (FalseColor.output_name (n +:+ ".tif")) with (n +:+ "_FalseColor.png");
         apply (main_of_month e w _ n); reflexivity
     end).
Qed.

Lemma viewer_shows_month_witness :
  exists elements : list (Viewer.container * Viewer.element),
    Viewer.main windows april_images 4 = Ok elements /\
    elements !! 5%nat
    = Some (Viewer.Column 0 2,
            Viewer.Image "Results\RGB\April_RGB.png"
              (Np.mk_ndarray [1; 1; 4]%nat [10; 20; 30; 255]) true) /\
    Viewer.main posix april_images 4 = Raise FileNotFoundError.
Proof.
  destruct (viewer_shows_month windows april_images 4 ltac:(lia))
    as (name & Hname & _ & _ & Hwin & _ & _).
  destruct (viewer_shows_month posix april_images 4 ltac:(lia))
    as (name' & _ & _ & _ & _ & _ & Hposix).
  injection Hname as <-.
  eexists. split; [apply Hwin; reflexivity|]. split; [reflexivity|].
  by apply Hposix.
Defined.

End ViewerClaims.

(** ** Band stacking *)

Section StackingClaims.

Lemma print_emit (line : string) (lines : list string) (w : world) :
  print line (emit lines w) = emit (lines ++ [line]) w.
Proof. unfold print, emit; simpl. by rewrite <- app_assoc. Qed.

Lemma emit_nil (w : world) : emit [] w = w.
Proof. destruct w; unfold emit; simpl. by rewrite app_nil_r. Qed.

Lemma emit_emit (l1 l2 : list string) (w : world) :
  emit l2 (emit l1 w) = emit (l1 ++ l2) w.
Proof. unfold emit; simpl. by rewrite <- app_assoc. Qed.

(** The inner loop keeps the band files that exist, in order, and prints one
    warning for each one that does not. *)
Lemma find_bands_spec (month : gmap string file) (month_folder : string)
    (todo band_paths : list string) (w : world) :
  Stacking.find_bands month month_folder todo band_paths w
  = (band_paths ++ filter (fun b => is_Some (month !! b)) todo,
     emit (warning month_folder <$> filter (fun b => ~ is_Some (month !! b)) todo) w).
Proof.
  revert band_paths w. induction todo as [|b todo IH]; intros band_paths w.
  - simpl. by rewrite app_nil_r, emit_nil.
  - cbn [Stacking.find_bands]. destruct (decide (is_Some (month !! b))) as [Hb|Hb].
    + rewrite IH, filter_cons_True by done.
      rewrite filter_cons_False by (intros Hn; by apply Hn).
      by rewrite <- app_assoc.
    + rewrite IH, filter_cons_False, filter_cons_True by done.
      change (print _ w) with (emit [warning month_folder b] w).
      by rewrite emit_emit.
Qed.

(** C4.  When a month directory lacks at least one of the five band files,
    its iteration of the stacking loop writes nothing, prints one warning
    naming each absent band file and then the line that the month is
    skipped, raises nothing, and the loop goes on with the remaining month
    folders. *)
Theorem missing_band_skips_month (e : env) (base_dir : gmap string entry)
    (month_folder : string) (month : gmap string file)
    (rest : list string) (w : world) :
  base_dir !! month_folder = Some (Directory month) ->
  (exists band_file, band_file ∈ Stacking.bands /\ month !! band_file = None) ->
  let w' := emit ((warning month_folder <$> missing_bands month)
                  ++ ["Skipping " +:+ month_folder +:+ " due to missing bands"]) w in
  Stacking.stack_month e base_dir month_folder w = Ok w' /\
  Py.for_each (Stacking.stack_month e base_dir) (month_folder :: rest) w
  = Py.for_each (Stacking.stack_month e base_dir) rest w' /\
  results w' = results w /\
  (forall band_file, band_file ∈ Stacking.bands -> month !! band_file = None ->
     warning month_folder band_file ∈ stdout w').
Proof.
  intros Hdir (b & Hb & Hnone) w'.
  assert (Hstep : Stacking.stack_month e base_dir month_folder w = Ok w').
  { unfold Stacking.stack_month. rewrite Hdir, find_bands_spec.
    rewrite app_nil_l.
    destruct (decide (length (filter (fun b0 => is_Some (month !! b0)) Stacking.bands)
                      ≠ length Stacking.bands)) as [_|Heq].
    - by rewrite print_emit.
    - exfalso. apply Heq.
      assert (length (filter (fun b0 => is_Some (month !! b0)) Stacking.bands)
              < length Stacking.bands)%nat; [|lia].
      apply (length_filter_lt _ _ b); [exact Hb|].
      rewrite Hnone. by intros [? ?]. }
  split; [exact Hstep|]. split; [|split; [reflexivity|]].
  - cbn [Py.for_each]. by rewrite Hstep.
  - intros band_file Hin Hmiss. unfold w', emit. cbn [stdout].
    apply elem_of_app. right. apply elem_of_app. left.
    apply list_elem_of_fmap. exists band_file. split; [done|].
    unfold missing_bands. apply list_elem_of_filter. split; [|exact Hin].
    rewrite Hmiss. by intros [? ?].
Qed.

End StackingClaims.

Section StackingWitness.

Lemma missing_band_skips_month_witness :
  exists w' : world,
    Stacking.stack_month posix march_only "March" varied_world = Ok w' /\
    results w' = results varied_world.
Proof.
  destruct (missing_band_skips_month posix march_only "March"
              {[ "B2.jp2" := RasterFile varied_raster ]} [] varied_world)
    as (Hstep & _ & Hres & _).
  - apply lookup_singleton_eq.
  - exists "B3.jp2". split.
    + apply list_elem_of_further, list_elem_of_here.
    + by apply lookup_singleton_ne.
  - eexists. split; [exact Hstep | exact Hres].
Defined.

End StackingWitness.

(** ** Order of the directory listing *)

Section Determinism.

Lemma compare_not_Gt_trans (s1 s2 s3 : string) :
  String.compare s1 s2 <> Gt -> String.compare s2 s3 <> Gt ->
  String.compare s1 s3 <> Gt.
Proof.
  revert s2 s3. induction s1 as [|a s1 IH]; intros [|b s2] [|c s3]; simpl;
    try congruence.
  unfold Ascii.compare.
  destruct (N.compare_spec (N_of_ascii a) (N_of_ascii b)) as [Hab|Hab|Hab];
    destruct (N.compare_spec (N_of_ascii b) (N_of_ascii c)) as [Hbc|Hbc|Hbc];
    destruct (N.compare_spec (N_of_ascii a) (N_of_ascii c)) as [Hac|Hac|Hac];
    try congruence; try lia.
  apply IH.
Qed.

#[local] Instance str_le_trans : Transitive Py.str_le.
Proof.
  intros s1 s2 s3. unfold Py.str_le, String.leb. intros H12 H23.
  pose proof (compare_not_Gt_trans s1 s2 s3) as Ht.
  destruct (String.compare s1 s2); try discriminate;
    destruct (String.compare s2 s3); try discriminate;
    destruct (String.compare s1 s3); try reflexivity;
    exfalso; apply Ht; congruence.
Qed.

#[local] Instance str_le_total : Total Py.str_le.
Proof. intros s1 s2. apply String.leb_total. Qed.

#[local] Instance str_le_antisym : AntiSymm eq Py.str_le.
Proof. intros s1 s2. apply String.leb_antisym. Qed.

(** [sorted] returns the ascending arrangement of its argument, which does
    not depend on the order the argument came in. *)
Lemma sorted_spec (l : list string) :
  StronglySorted Py.str_le (Py.sorted l) /\ Py.sorted l ≡ₚ l.
Proof.
  split; [apply StronglySorted_merge_sort; apply _ | apply merge_sort_Permutation].
Qed.

Lemma sorted_Permutation (l1 l2 : list string) :
  l1 ≡ₚ l2 -> Py.sorted l1 = Py.sorted l2.
Proof.
  intros Hp. destruct (sorted_spec l1) as [S1 P1], (sorted_spec l2) as [S2 P2].
  apply (StronglySorted_unique Py.str_le); auto.
  by rewrite P1, P2.
Qed.

Lemma for_each_ext {S : Type} (f g : string -> S -> result S) (l : list string) (s : S) :
  (forall x s', f x s' = g x s') -> Py.for_each f l s = Py.for_each g l s.
Proof.
  intros Hfg. revert s. induction l as [|x l IH]; intros s; cbn [Py.for_each]; [done|].
  rewrite Hfg. destruct (g x s) as [s'|]; [|done]. apply IH.
Qed.

(** Only the listings depend on the order of [os.listdir]. *)
Lemma write_bands_order (e : env) (order : list string -> list string)
    (month : gmap string file) (band_paths : list string) (idx : nat) (dst : raster) :
  Stacking.write_bands (with_order e order) month band_paths idx dst
  = Stacking.write_bands e month band_paths idx dst.
Proof.
  revert idx dst. induction band_paths as [|p l IH]; intros idx dst; [done|].
  cbn [Stacking.write_bands].
  destruct (Rasterio.open month p) as [src|]; [|done]. cbn [mbind result_bind].
  destruct (Rasterio.read src 1) as [arr|]; [|done]. cbn [mbind result_bind].
  change (Rasterio.write (with_order e order) dst arr idx)
    with (Rasterio.write e dst arr idx).
  destruct (Rasterio.write e dst arr idx) as [dst'|]; [|done]. apply IH.
Qed.

Lemma stack_month_order (e : env) (order : list string -> list string)
    (base_dir : gmap string entry) (month_folder : string) (w : world) :
  Stacking.stack_month (with_order e order) base_dir month_folder w
  = Stacking.stack_month e base_dir month_folder w.
Proof.
  unfold Stacking.stack_month.
  destruct (base_dir !! month_folder) as [[|month]|]; [done| |done].
  destruct (Stacking.find_bands _ _ _ _ _) as [band_paths w1].
  destruct (decide _); [done|].
  destruct (Py.getitem band_paths 0 ≫= _) as [src0|]; [|done]. cbn [mbind result_bind].
  change (Rasterio.create (with_order e order)) with (Rasterio.create e).
  destruct (Rasterio.create e _ _ _ _ _ _) as [dst0|]; [|done]. cbn [mbind result_bind].
  rewrite write_bands_order. reflexivity.
Qed.

Lemma rgba_order (e : env) (order : list string -> list string) (values : list Np.npfloat) :
  Plt.rgba (with_order e order) values = Plt.rgba e values.
Proof.
  revert values. fix IH 1. intros [|[r| |] [|[g| |] [|[b| |] rest]]]; try reflexivity.
  cbn [Plt.rgba]. by rewrite IH.
Qed.

Lemma imsave_order (e : env) (order : list string -> list string) (arr : image) :
  Plt.imsave (with_order e order) arr = Plt.imsave e arr.
Proof.
  unfold Plt.imsave. rewrite rgba_order. reflexivity.
Qed.

Lemma true_color_render_order (e : env) (order : list string -> list string)
    (tiff_file : string) (w : world) :
  TrueColor.render (with_order e order) tiff_file w = TrueColor.render e tiff_file w.
Proof.
  unfold TrueColor.render. destruct (Py.endswith tiff_file ".tif"); [|done].
  destruct (Rasterio.open (results w) tiff_file) as [src|]; [|done].
  cbn [mbind result_bind].
  destruct (TrueColor.true_color_image src) as [img|]; [|done].
  cbn [mbind result_bind]. by rewrite imsave_order.
Qed.

Lemma false_color_render_order (e : env) (order : list string -> list string)
    (tiff_file : string) (w : world) :
  FalseColor.render (with_order e order) tiff_file w = FalseColor.render e tiff_file w.
Proof.
  unfold FalseColor.render. destruct (Py.endswith tiff_file ".tif"); [|done].
  destruct (Rasterio.open (results w) tiff_file) as [src|]; [|done].
  cbn [mbind result_bind].
  destruct (FalseColor.false_color_image src) as [img|]; [|done].
  cbn [mbind result_bind]. by rewrite imsave_order.
Qed.

Lemma stacking_run_order (e : env) (order1 order2 : list string -> list string)
    (base_dir : gmap string entry) (w : world) :
  (forall l, order1 l ≡ₚ l) -> (forall l, order2 l ≡ₚ l) ->
  Stacking.run (with_order e order1) base_dir w
  = Stacking.run (with_order e order2) base_dir w.
Proof.
  intros H1 H2. unfold Stacking.run, listdir. cbn [listdir_order with_order].
  rewrite (sorted_Permutation (order1 _) (order2 (elements (dom base_dir))))
    by (by rewrite H1, H2).
  f_equal. apply for_each_ext. intros x s. by rewrite !stack_month_order.
Qed.

Lemma true_color_run_order (e : env) (order1 order2 : list string -> list string)
    (w : world) :
  (forall l, order1 l ≡ₚ l) -> (forall l, order2 l ≡ₚ l) ->
  TrueColor.run (with_order e order1) w = TrueColor.run (with_order e order2) w.
Proof.
  intros H1 H2. unfold TrueColor.run, listdir. cbn [listdir_order with_order].
  rewrite (sorted_Permutation (order1 _) (order2 (elements (dom (results w)))))
    by (by rewrite H1, H2).
  f_equal. apply for_each_ext. intros x s. by rewrite !true_color_render_order.
Qed.

Lemma false_color_run_order (e : env) (order1 order2 : list string -> list string)
    (w : world) :
  (forall l, order1 l ≡ₚ l) -> (forall l, order2 l ≡ₚ l) ->
  FalseColor.run (with_order e order1) w = FalseColor.run (with_order e order2) w.
Proof.
  intros H1 H2. unfold FalseColor.run, listdir. cbn [listdir_order with_order].
  rewrite (sorted_Permutation (order1 _) (order2 (elements (dom (results w)))))
    by (by rewrite H1, H2).
  f_equal. apply for_each_ext. intros x s. by rewrite !false_color_render_order.
Qed.

(** The order in which [os.listdir] returns the names has no effect on a
    run, because every listing is sorted before it is used. *)
Lemma script_order_independent (e : env)
    (order1 order2 : list string -> list string)
    (base_dir : gmap string entry) (w : world) :
  (forall l, order1 l ≡ₚ l) -> (forall l, order2 l ≡ₚ l) ->
  script (with_order e order1) base_dir w = script (with_order e order2) base_dir w.
Proof.
  intros H1 H2. unfold script.
  rewrite (stacking_run_order e order1 order2) by done.
  destruct (Stacking.run (with_order e order2) base_dir w) as [w1|]; [|done].
  cbn [mbind result_bind].
  rewrite (true_color_run_order e order1 order2) by done.
  destruct (TrueColor.run (with_order e order2) w1) as [w2|]; [|done].
  cbn [mbind result_bind].
  by apply false_color_run_order.
Qed.

End Determinism.

(** ** Running the script again *)

Section Rerun.

Lemma store_store (L1 L2 : gmap string file) (G1 G2 F1 F2 : gmap string png)
    (l1 l2 : list string) (w : world) :
  store L2 G2 F2 l2 (store L1 G1 F1 l1 w)
  = store (L2 ∪ L1) (G2 ∪ G1) (F2 ∪ F1) (l1 ++ l2) w.
Proof.
  unfold store; simpl. by rewrite !(assoc_L (∪)), <- app_assoc.
Qed.

Lemma print_store (line : string) (L : gmap string file) (G F : gmap string png)
    (lines : list string) (w : world) :
  print line (store L G F lines w) = store L G F (lines ++ [line]) w.
Proof. unfold print, store; simpl. by rewrite <- app_assoc. Qed.

Lemma emit_store (lines : list string) (w : world) :
  emit lines w = store ∅ ∅ ∅ lines w.
Proof. unfold emit, store. by rewrite !(left_id_L ∅ (∪)). Qed.

Lemma close_union (e : env) (dst : raster) (name : string) (dir : gmap string file) :
  Rasterio.close e dst name dir = Rasterio.close e dst name ∅ ∪ dir.
Proof.
  unfold Rasterio.close. destruct (gdal_aux_xml e dst).
  - by rewrite !insert_union_singleton_l, (right_id_L ∅ (∪)), (assoc_L (∪)).
  - by rewrite !insert_union_singleton_l, (right_id_L ∅ (∪)).
Qed.

Lemma print_close_emit (e : env) (line k : string) (dst : raster) (ws : list string)
    (w : world) :
  print line {| results := Rasterio.close e dst k (results (emit ws w));
                rgb_dir := rgb_dir (emit ws w);
                false_color_dir := false_color_dir (emit ws w);
                stdout := stdout (emit ws w) |}
  = store (Rasterio.close e dst k ∅) ∅ ∅ (ws ++ [line]) w.
Proof.
  unfold print, store, emit; cbn [results rgb_dir false_color_dir stdout].
  by rewrite close_union, !(left_id_L ∅ (∪)), <- app_assoc.
Qed.

(** What an iteration of the stacking loop does to a state does not depend
    on the state: it raises, or it stores one raster at most and prints. *)
Lemma stack_month_uniform (e : env) (base_dir : gmap string entry)
    (month_folder : string) (w0 w : world) :
  match Stacking.stack_month e base_dir month_folder w0 with
  | Raise x => Stacking.stack_month e base_dir month_folder w = Raise x
  | Ok w0' =>
      exists L lines, w0' = store L ∅ ∅ lines w0 /\
        Stacking.stack_month e base_dir month_folder w = Ok (store L ∅ ∅ lines w)
  end.
Proof.
  unfold Stacking.stack_month.
  destruct (base_dir !! month_folder) as [[|month]|].
  1,3: exists ∅, []; rewrite <- !emit_store, !emit_nil; split; reflexivity.
  rewrite !find_bands_spec, !app_nil_l.
  destruct (decide _) as [_|_].
  - eexists ∅, _. rewrite !print_emit, <- !emit_store. split; reflexivity.
  - destruct (Py.getitem _ 0 ≫= _) as [src0|x]; [|done]. cbn [mbind result_bind].
    destruct (Rasterio.create _ _ _ _ _ _ _) as [dst0|x]; [|done]. cbn [mbind result_bind].
    destruct (Stacking.write_bands _ _ _ _ _) as [dst|x]; [|done]. cbn [mbind result_bind].
    eexists _, _. rewrite !print_close_emit. split; reflexivity.
Qed.

Lemma stacking_loop_uniform (e : env) (base_dir : gmap string entry)
    (l : list string) (w0 w : world) :
  match Py.for_each (Stacking.stack_month e base_dir) l w0 with
  | Raise x => Py.for_each (Stacking.stack_month e base_dir) l w = Raise x
  | Ok w0' =>
      exists L lines, w0' = store L ∅ ∅ lines w0 /\
        Py.for_each (Stacking.stack_month e base_dir) l w = Ok (store L ∅ ∅ lines w)
  end.
Proof.
  revert w0 w. induction l as [|m l IH]; intros w0 w; cbn [Py.for_each].
  - exists ∅, []. by rewrite <- !emit_store, !emit_nil.
  - pose proof (stack_month_uniform e base_dir m w0 w) as Hstep.
    destruct (Stacking.stack_month e base_dir m w0) as [w0a|x].
    + destruct Hstep as (L1 & l1 & -> & ->). cbn [mbind result_bind].
      specialize (IH (store L1 ∅ ∅ l1 w0) (store L1 ∅ ∅ l1 w)).
      destruct (Py.for_each _ l (store L1 ∅ ∅ l1 w0)) as [w0'|x]; [|done].
      destruct IH as (L2 & l2 & -> & ->).
      exists (L2 ∪ L1), (l1 ++ l2). by rewrite !store_store, !(left_id_L ∅ (∪)).
    + by rewrite Hstep.
Qed.

Lemma stacking_run_uniform (e : env) (base_dir : gmap string entry) (w0 w : world) :
  match Stacking.run e base_dir w0 with
  | Raise x => Stacking.run e base_dir w = Raise x
  | Ok w0' =>
      exists L lines, w0' = store L ∅ ∅ lines w0 /\
        Stacking.run e base_dir w = Ok (store L ∅ ∅ lines w)
  end.
Proof.
  unfold Stacking.run.
  pose proof (stacking_loop_uniform e base_dir
                (Py.sorted (listdir e base_dir)) w0 w) as Hloop.
  destruct (Py.for_each _ _ w0) as [w0'|x].
  - destruct Hloop as (L & lines & -> & ->). cbn [mbind result_bind].
    exists L, (lines ++ ["Processing complete!"]). by rewrite !print_store.
  - by rewrite Hloop.
Qed.

Lemma print_insert_rgb (line k : string) (img : png) (w : world) :
  print line {| results := results w;
                rgb_dir := <[k := img]> (rgb_dir w);
                false_color_dir := false_color_dir w;
                stdout := stdout w |}
  = store ∅ {[ k := img ]} ∅ [line] w.
Proof.
  unfold print, store; simpl.
  by rewrite insert_union_singleton_l, !(left_id_L ∅ (∪)).
Qed.

Lemma print_insert_false_color (line k : string) (img : png) (w : world) :
  print line {| results := results w;
                rgb_dir := rgb_dir w;
                false_color_dir := <[k := img]> (false_color_dir w);
                stdout := stdout w |}
  = store ∅ ∅ {[ k := img ]} [line] w.
Proof.
  unfold print, store; simpl.
  by rewrite insert_union_singleton_l, !(left_id_L ∅ (∪)).
Qed.

Lemma store_results (G F : gmap string png) (lines : list string) (w : world) :
  results (store ∅ G F lines w) = results w.
Proof. unfold store; simpl. apply (left_id_L ∅ (∪)). Qed.

(** What an iteration of a rendering loop does depends on the state through
    the results directory only, which it leaves as it is. *)
Lemma true_color_render_uniform (e : env) (tiff_file : string) (w0 w : world) :
  results w = results w0 ->
  match TrueColor.render e tiff_file w0 with
  | Raise x => TrueColor.render e tiff_file w = Raise x
  | Ok w0' =>
      exists G lines, w0' = store ∅ G ∅ lines w0 /\
        TrueColor.render e tiff_file w = Ok (store ∅ G ∅ lines w)
  end.
Proof.
  intros Hres. unfold TrueColor.render.
  destruct (Py.endswith tiff_file ".tif").
  2:{ exists ∅, []. rewrite <- !emit_store, !emit_nil. split; reflexivity. }
  replace (Rasterio.open (results w) tiff_file)
    with (Rasterio.open (results w0) tiff_file) by (by rewrite Hres).
  destruct (Rasterio.open (results w0) tiff_file) as [src|x]; [|done].
  cbn [mbind result_bind].
  destruct (TrueColor.true_color_image src) as [img|x]; [|done].
  cbn [mbind result_bind].
  destruct (Plt.imsave e img) as [saved|x]; [|done].
  cbn [mbind result_bind]. rewrite !print_insert_rgb.
  eexists _, _. split; reflexivity.
Qed.

Lemma false_color_render_uniform (e : env) (tiff_file : string) (w0 w : world) :
  results w = results w0 ->
  match FalseColor.render e tiff_file w0 with
  | Raise x => FalseColor.render e tiff_file w = Raise x
  | Ok w0' =>
      exists F lines, w0' = store ∅ ∅ F lines w0 /\
        FalseColor.render e tiff_file w = Ok (store ∅ ∅ F lines w)
  end.
Proof.
  intros Hres. unfold FalseColor.render.
  destruct (Py.endswith tiff_file ".tif").
  2:{ exists ∅, []. rewrite <- !emit_store, !emit_nil. split; reflexivity. }
  replace (Rasterio.open (results w) tiff_file)
    with (Rasterio.open (results w0) tiff_file) by (by rewrite Hres).
  destruct (Rasterio.open (results w0) tiff_file) as [src|x]; [|done].
  cbn [mbind result_bind].
  destruct (FalseColor.false_color_image src) as [img|x]; [|done].
  cbn [mbind result_bind].
  destruct (Plt.imsave e img) as [saved|x]; [|done].
  cbn [mbind result_bind]. rewrite !print_insert_false_color.
  eexists _, _. split; reflexivity.
Qed.

Lemma true_color_loop_uniform (e : env) (l : list string) (w0 w : world) :
  results w = results w0 ->
  match Py.for_each (TrueColor.render e) l w0 with
  | Raise x => Py.for_each (TrueColor.render e) l w = Raise x
  | Ok w0' =>
      exists G lines, w0' = store ∅ G ∅ lines w0 /\
        Py.for_each (TrueColor.render e) l w = Ok (store ∅ G ∅ lines w)
  end.
Proof.
  revert w0 w. induction l as [|f l IH]; intros w0 w Hres; cbn [Py.for_each].
  - exists ∅, []. by rewrite <- !emit_store, !emit_nil.
  - pose proof (true_color_render_uniform e f w0 w Hres) as Hstep.
    destruct (TrueColor.render e f w0) as [w0a|x].
    + destruct Hstep as (G1 & l1 & -> & ->). cbn [mbind result_bind].
      specialize (IH (store ∅ G1 ∅ l1 w0) (store ∅ G1 ∅ l1 w)
                    ltac:(by rewrite !store_results)).
      destruct (Py.for_each _ l (store ∅ G1 ∅ l1 w0)) as [w0'|x]; [|done].
      destruct IH as (G2 & l2 & -> & ->).
      exists (G2 ∪ G1), (l1 ++ l2). by rewrite !store_store, !(left_id_L ∅ (∪)).
    + by rewrite Hstep.
Qed.

Lemma false_color_loop_uniform (e : env) (l : list string) (w0 w : world) :
  results w = results w0 ->
  match Py.for_each (FalseColor.render e) l w0 with
  | Raise x => Py.for_each (FalseColor.render e) l w = Raise x
  | Ok w0' =>
      exists F lines, w0' = store ∅ ∅ F lines w0 /\
        Py.for_each (FalseColor.render e) l w = Ok (store ∅ ∅ F lines w)
  end.
Proof.
  revert w0 w. induction l as [|f l IH]; intros w0 w Hres; cbn [Py.for_each].
  - exists ∅, []. by rewrite <- !emit_store, !emit_nil.
  - pose proof (false_color_render_uniform e f w0 w Hres) as Hstep.
    destruct (FalseColor.render e f w0) as [w0a|x].
    + destruct Hstep as (F1 & l1 & -> & ->). cbn [mbind result_bind].
      specialize (IH (store ∅ ∅ F1 l1 w0) (store ∅ ∅ F1 l1 w)
                    ltac:(by rewrite !store_results)).
      destruct (Py.for_each _ l (store ∅ ∅ F1 l1 w0)) as [w0'|x]; [|done].
      destruct IH as (F2 & l2 & -> & ->).
      exists (F2 ∪ F1), (l1 ++ l2). by rewrite !store_store, !(left_id_L ∅ (∪)).
    + by rewrite Hstep.
Qed.

Lemma true_color_run_uniform (e : env) (w0 w : world) :
  results w = results w0 ->
  match TrueColor.run e w0 with
  | Raise x => TrueColor.run e w = Raise x
  | Ok w0' =>
      exists G lines, w0' = store ∅ G ∅ lines w0 /\
        TrueColor.run e w = Ok (store ∅ G ∅ lines w)
  end.
Proof.
  intros Hres. unfold TrueColor.run. rewrite Hres.
  pose proof (true_color_loop_uniform e
                (Py.sorted (listdir e (results w0))) w0 w Hres) as Hloop.
  destruct (Py.for_each _ _ w0) as [w0'|x].
  - destruct Hloop as (G & lines & -> & ->). cbn [mbind result_bind].
    exists G, (lines ++ ["Processing complete!"]). by rewrite !print_store.
  - by rewrite Hloop.
Qed.

Lemma false_color_run_uniform (e : env) (w0 w : world) :
  results w = results w0 ->
  match FalseColor.run e w0 with
  | Raise x => FalseColor.run e w = Raise x
  | Ok w0' =>
      exists F lines, w0' = store ∅ ∅ F lines w0 /\
        FalseColor.run e w = Ok (store ∅ ∅ F lines w)
  end.
Proof.
  intros Hres. unfold FalseColor.run. rewrite Hres.
  pose proof (false_color_loop_uniform e
                (Py.sorted (listdir e (results w0))) w0 w Hres) as Hloop.
  destruct (Py.for_each _ _ w0) as [w0'|x].
  - destruct Hloop as (F & lines & -> & ->). cbn [mbind result_bind].
    exists F, (lines ++ ["Processing complete!"]). by rewrite !print_store.
  - by rewrite Hloop.
Qed.

Lemma union_twice {A : Type} (L R : gmap string A) : L ∪ (L ∪ R) = L ∪ R.
Proof. by rewrite (assoc_L (∪)), (idemp_L (∪)). Qed.

(** A second run of the script, started on the directories the first run
    left, succeeds, leaves every raster and every image as the first run
    wrote it, and prints the same lines again. *)
Lemma script_rerun (e : env) (base_dir : gmap string entry) (w w3 : world) :
  script e base_dir w = Ok w3 ->
  exists lines,
    stdout w3 = stdout w ++ lines /\
    script e base_dir w3
    = Ok {| results := results w3; rgb_dir := rgb_dir w3;
            false_color_dir := false_color_dir w3;
            stdout := stdout w3 ++ lines |}.
Proof.
  unfold script. intros Hrun.
  pose proof (stacking_run_uniform e base_dir w w3) as H1.
  destruct (Stacking.run e base_dir w) as [w1|]; [|discriminate].
  destruct H1 as (L & l1 & -> & H1). cbn [mbind result_bind] in Hrun.
  rewrite H1. cbn [mbind result_bind].
  set (w1 := store L ∅ ∅ l1 w) in *.
  assert (Hres3 : results w3 = results w1).
  { pose proof (true_color_run_uniform e w1 w1 eq_refl) as H2.
    destruct (TrueColor.run e w1) as [w2|]; [|discriminate].
    destruct H2 as (G & l2 & -> & _). cbn [mbind result_bind] in Hrun.
    pose proof (false_color_run_uniform e _ _ (eq_refl (results (store ∅ G ∅ l2 w1)))) as H3.
    rewrite Hrun in H3. destruct H3 as (F & l3 & -> & _).
    by rewrite !store_results. }
  assert (Hres1 : results (store L ∅ ∅ l1 w3) = results w1).
  { unfold store at 1. cbn [results]. rewrite Hres3. unfold w1, store. cbn [results].
    apply union_twice. }
  pose proof (true_color_run_uniform e w1 _ Hres1) as H2.
  destruct (TrueColor.run e w1) as [w2|]; [|discriminate].
  destruct H2 as (G & l2 & -> & H2). cbn [mbind result_bind] in Hrun.
  rewrite H2. cbn [mbind result_bind].
  assert (Hres2 : results (store ∅ G ∅ l2 (store L ∅ ∅ l1 w3))
                  = results (store ∅ G ∅ l2 w1)) by (by rewrite !store_results).
  pose proof (false_color_run_uniform e _ _ Hres2) as H3.
  rewrite Hrun in H3. destruct H3 as (F & l3 & Hw3 & H3).
  rewrite H3. exists (l1 ++ l2 ++ l3). split.
  - rewrite Hw3. unfold w1, store. cbn [stdout]. by rewrite <- !app_assoc.
  - f_equal. rewrite !store_store. unfold store. rewrite !(left_id_L ∅ (∪)),
      !(right_id_L ∅ (∪)). f_equal.
    + rewrite Hres3. unfold w1, store. cbn [results]. apply union_twice.
    + rewrite Hw3. unfold w1, store. cbn [rgb_dir].
      rewrite !(left_id_L ∅ (∪)). apply union_twice.
    + rewrite Hw3. unfold w1, store. cbn [false_color_dir].
      rewrite !(left_id_L ∅ (∪)). apply union_twice.
Qed.

End Rerun.

(** ** One month, end to end *)

Section EndToEnd.

(** Runs the three cells on an input tree with one complete month, given the
    state [w1] that cell 1 leaves and the name [tif] of its raster. *)
Ltac one_month w1 tif :=
  let img1 := fresh "img" in
  let img2 := fresh "img" in
  let saved1 := fresh "saved" in
  let saved2 := fresh "saved" in
  let Hi1 := fresh "Hi" in
  let Hi2 := fresh "Hi" in
  let Hp1 := fresh "Hp" in
  let Hp2 := fresh "Hp" in
  let Hs := fresh "Hs" in
  let Hl := fresh "Hl" in
  destruct (varied_raster_renders posix) as (img1 & img2 & saved1 & saved2 & Hi1 & Hi2 & Hp1 & Hp2);
  match goal with
  | |- exists _, script ?e ?tree ?w0 = _ /\ _ =>
      assert (Hs : Stacking.run e tree w0 = Ok w1) by (vm_compute; reflexivity);
      assert (Hl : Py.sorted (listdir e (results w1)) = [tif]) by (vm_compute; reflexivity);
      cbn [results] in Hl;
      unfold script; rewrite Hs; cbn [mbind result_bind];
      unfold TrueColor.run; cbn [results]; rewrite Hl; cbn [Py.for_each];
      rewrite (true_color_render_ok e w1 tif varied_raster img1 saved1)
        by (done || apply lookup_singleton_eq);
      cbn [mbind result_bind];
      unfold FalseColor.run; cbn [results print]; rewrite Hl; cbn [Py.for_each];
      rewrite (false_color_render_ok e _ tif varied_raster img2 saved2)
        by (done || apply lookup_singleton_eq);
      cbn [mbind result_bind];
      eexists; split; [reflexivity|];
      cbn [results rgb_dir false_color_dir stdout print];
      repeat split;
      try reflexivity;
      try (by rewrite dom_insert_L, dom_empty_L, (right_id_L ∅ (∪)))
  end.

(** The script on [july_tree]: the stray file is passed over, the five
    bands of July are stacked in the order B2, B3, B4, B8, B11, and one image
    of each kind is stored under the name of the month. *)
Lemma script_july :
  exists w' : world,
    script posix july_tree empty_world = Ok w' /\
    results w' = {[ "July.tif" := RasterFile varied_raster ]} /\
    dom (rgb_dir w') = {[ "July_RGB.png" ]} /\
    dom (false_color_dir w') = {[ "July_FalseColor.png" ]} /\
    stdout w' =
      [ "Created /home/user/project/Results/July.tif";
        "Processing complete!";
        "Saved SatMapper-like RGB image: ./Results/RGB/July_RGB.png";
        "Processing complete!";
        "Saved SatMapper-like RGB image: ./Results/FalseColor/July_FalseColor.png";
        "Processing complete!" ].
Proof.
  one_month
    {| results := {[ "July.tif" := RasterFile varied_raster ]};
       rgb_dir := ∅; false_color_dir := ∅;
       stdout := [ "Created /home/user/project/Results/July.tif";
                   "Processing complete!" ] |}
    "July.tif".
Qed.

(** C9 fails for a month directory whose name holds [".tif"].  The script on
    a complete month directory named [April.tif] writes the raster
    [April.tif.tif] and stores its two images as [April_RGB.png_RGB.png] and
    [April_FalseColor.png_FalseColor.png], not under the month name followed
    by the kind: [replace] rewrites every occurrence of [".tif"]. *)
Theorem output_name_replaces_every_occurrence :
  (exists w' : world,
     script posix april_tif_tree empty_world = Ok w' /\
     results w' = {[ "April.tif.tif" := RasterFile varied_raster ]} /\
     dom (rgb_dir w') = {[ "April_RGB.png_RGB.png" ]} /\
     dom (false_color_dir w') = {[ "April_FalseColor.png_FalseColor.png" ]}) /\
  TrueColor.output_name ("April.tif" +:+ ".tif") <> "April.tif" +:+ "_RGB.png" /\
  FalseColor.output_name ("April.tif" +:+ ".tif") <> "April.tif" +:+ "_FalseColor.png".
Proof.
  split; [|split; discriminate].
  one_month
    {| results := {[ "April.tif.tif" := RasterFile varied_raster ]};
       rgb_dir := ∅; false_color_dir := ∅;
       stdout := [ "Created /home/user/project/Results/April.tif.tif";
                   "Processing complete!" ] |}
    "April.tif.tif".
Qed.

End EndToEnd.

(** ** Two runs *)

Section TwoRuns.

(** C7.  Two runs of the whole script on the same input tree give the same
    outcome.  Started on the same directories, they return the same state
    (the same rasters, true-color and false-color images and printed lines)
    or raise the same exception, although [os.listdir] may return the names
    in another order in the second run.  Started on the directories the
    first run left, the second run succeeds and leaves every raster and
    every image exactly as the first run wrote it. *)
Theorem script_deterministic (e : env)
    (order1 order2 : list string -> list string)
    (base_dir : gmap string entry) (w : world) :
  (forall l, order1 l ≡ₚ l) -> (forall l, order2 l ≡ₚ l) ->
  script (with_order e order1) base_dir w = script (with_order e order2) base_dir w /\
  (forall w1 : world,
     script (with_order e order1) base_dir w = Ok w1 ->
     exists w2 : world,
       script (with_order e order2) base_dir w1 = Ok w2 /\
       results w2 = results w1 /\
       rgb_dir w2 = rgb_dir w1 /\
       false_color_dir w2 = false_color_dir w1).
Proof.
  intros H1 H2. split; [by apply script_order_independent|].
  intros w1 Hrun.
  rewrite (script_order_independent e order1 order2) in Hrun by done.
  destruct (script_rerun _ _ _ _ Hrun) as (lines & _ & Hagain).
  eexists. split; [exact Hagain|]. done.
Qed.

Lemma script_deterministic_witness :
  script (with_order posix (fun names => names)) july_tree empty_world
  = script (with_order posix (@rev string)) july_tree empty_world.
Proof.
  apply script_deterministic.
  - intros l. reflexivity.
  - intros l. symmetry. apply Permutation_rev.
Defined.

End TwoRuns.

(** * Further properties of the code *)

(** ** [normalize_band] beyond the unit range *)

Section NormalisationMore.

Import Np.
Local Open Scope R_scope.

(** [normalize_band] raises on a zero-size band and on nothing else, and the
    exception is the [ValueError] of [band.min()]; when it returns, the
    result has the shape and the number of samples of the band. *)
Theorem normalize_band_raises_on_zero_size {A : Type} `{Dtype A} (band : ndarray A) :
  (forall x, TrueColor.normalize_band band = Raise x <->
             x = ValueError /\ data band = []) /\
  (forall N, TrueColor.normalize_band band = Ok N ->
             data band <> [] /\ shape N = shape band /\
             length (data N) = length (data band)).
Proof.
  unfold TrueColor.normalize_band, amin, amax.
  destruct (data band) as [|a l] eqn:Hd; simpl.
  - split; [|discriminate]. intros x. split; [by intros [= <-] | by intros [-> _]].
  - split; [intros x; split; [discriminate | by intros [_ ?]]|].
    intros N [= <-]. simpl. rewrite Hd, length_fmap. done.
Qed.

Lemma foldl_minimum_NaN_l (l : list npfloat) : foldl minimum NaN l = NaN.
Proof. induction l as [|z l IH]; simpl; [done | exact IH]. Qed.

Lemma foldl_maximum_NaN_l (l : list npfloat) : foldl maximum NaN l = NaN.
Proof. induction l as [|z l IH]; simpl; [done | exact IH]. Qed.

Lemma minimum_NaN_r (a : npfloat) : minimum a NaN = NaN.
Proof. by destruct a as [x|[]|]. Qed.

Lemma maximum_NaN_r (a : npfloat) : maximum a NaN = NaN.
Proof. by destruct a as [x|[]|]. Qed.

Lemma foldl_minimum_NaN (l : list npfloat) (a : npfloat) :
  NaN ∈ a :: l -> foldl minimum a l = NaN.
Proof.
  revert a. induction l as [|z l IH]; intros a Hin.
  - apply list_elem_of_singleton in Hin as <-. reflexivity.
  - simpl. apply elem_of_cons in Hin as [<-|Hin].
    + apply foldl_minimum_NaN_l.
    + apply IH. apply elem_of_cons in Hin as [<-|Hin].
      * rewrite minimum_NaN_r. apply list_elem_of_here.
      * by apply list_elem_of_further.
Qed.

Lemma sub_NaN_r (a : npfloat) : sub a NaN = NaN.
Proof. by destruct a as [x|[]|]. Qed.

(** One NaN sample in a float band turns the whole normalised band into
    NaN: the minimum of the band is then NaN, and so is every difference. *)
Theorem normalize_band_nan_spreads (band : ndarray npfloat) :
  NaN ∈ data band ->
  TrueColor.normalize_band band = Ok (elementwise (fun _ => NaN) band).
Proof.
  intros Hin. unfold TrueColor.normalize_band, amin, amax.
  destruct (data band) as [|a l] eqn:Hd; [inversion Hin|].
  simpl. rewrite (foldl_minimum_NaN l a Hin). f_equal.
  apply elementwise_ext. intros i x _. by rewrite sub_NaN_r.
Qed.

Lemma normalize_band_nan_spreads_witness :
  TrueColor.normalize_band (mk_ndarray [3%nat] [Fin 2; NaN; Fin 5])
  = Ok (mk_ndarray [3%nat] [NaN; NaN; NaN]).
Proof.
  apply (normalize_band_nan_spreads (mk_ndarray [3%nat] [Fin 2; NaN; Fin 5])).
  simpl. apply list_elem_of_further, list_elem_of_here.
Defined.





(** Normalisation keeps the order of the samples of a band with distinct
    extremes and a representable span: of two positions, the one with the
    smaller sample does not get the larger value. *)
Theorem normalize_band_keeps_order (d : numtype) (B : ndarray (sample d))
    (mn mx : sample d) (a b : R) (i j : nat) (x y : sample d) (u v : R) :
  amin B = Ok mn -> amax B = Ok mx -> number mn a -> number mx b ->
  a < b -> representable d (b - a) ->
  data B !! i = Some x -> data B !! j = Some y ->
  number x u -> number y v -> u <= v ->
  exists (N : ndarray npfloat) (s t : R),
    TrueColor.normalize_band B = Ok N /\
    data N !! i = Some (Fin s) /\ data N !! j = Some (Fin t) /\
    0 <= s /\ s <= t /\ t <= 1.
Proof.
  intros Hmin Hmax Hmn Hmx Hlt Hrep Hi Hj Hx Hy Huv.
  exists (elementwise (fun x => Fin (min_max_scaled a b (real_of x))) B),
    (min_max_scaled a b u), (min_max_scaled a b v).
  destruct (extremes_spec d B mn mx a b Hmin Hmax Hmn Hmx) as (_ & _ & Hall).
  destruct (Hall x (list_elem_of_lookup_2 _ _ _ Hi)) as (u' & Hx' & Hu).
  destruct (Hall y (list_elem_of_lookup_2 _ _ _ Hj)) as (v' & Hy' & Hv).
  assert (u' = u) by (unfold number in *; congruence).
  assert (v' = v) by (unfold number in *; congruence). subst u' v'.
  split; [by apply (normalize_band_scaled d B mn mx)|].
  split; [cbn [data elementwise]; rewrite list_lookup_fmap, Hi; simpl;
          by rewrite (number_real_of x u)|].
  split; [cbn [data elementwise]; rewrite list_lookup_fmap, Hj; simpl;
          by rewrite (number_real_of y v)|].
  pose proof (unit_quotient u a b Hu Hlt) as [H0 _].
  pose proof (unit_quotient v a b Hv Hlt) as [_ H1].
  split; [exact H0|]. split; [|exact H1].
  unfold min_max_scaled, Rdiv.
  apply Rmult_le_compat_r; [|lra].
  apply Rlt_le, Rinv_0_lt_compat. lra.
Qed.

Lemma normalize_band_keeps_order_witness :
  exists (N : ndarray npfloat) (s t : R),
    TrueColor.normalize_band
      (mk_ndarray [1%nat; 3%nat] [2; 4; 6]%Z : ndarray (sample (Int UInt16))) = Ok N /\
    data N !! 1%nat = Some (Fin s) /\ data N !! 2%nat = Some (Fin t) /\ s <= t.
Proof.
  destruct (normalize_band_keeps_order (Int UInt16)
              (mk_ndarray [1%nat; 3%nat] [2; 4; 6]%Z) 2%Z 6%Z 2 6 1 2 4%Z 6%Z 4 6)
    as (N & s & t & HN & Hs & Ht & _ & Hst & _);
    try reflexivity; try lra.
  { change (6 - 2 <= IZR 65535). lra. }
  by exists N, s, t.
Defined.

End NormalisationMore.

(** ** [apply_brightness_gamma] for any brightness factor and gamma *)

Section ToneMappingMore.

Import Np.
Local Open Scope R_scope.











End ToneMappingMore.

(** ** What the two rendering paths return or raise *)

Section ImageOutcome.

Import Np.
Local Open Scope R_scope.

Lemma read_out_of_range (src : raster) (i : nat) :
  (length (bands_of src) < i)%nat -> Rasterio.read src i = Raise IndexError.
Proof.
  intros Hlen. unfold Rasterio.read. destruct i as [|k]; [reflexivity|].
  rewrite (lookup_ge_None_2 (bands_of src) k) by lia. reflexivity.
Qed.

Lemma normalize_band_nonempty {A : Type} `{Dtype A} (B : ndarray A) :
  data B <> [] ->
  exists N, TrueColor.normalize_band B = Ok N /\ shape N = shape B /\
            length (data N) = length (data B).
Proof.
  intros Hne. unfold TrueColor.normalize_band, amin, amax.
  destruct (data B) as [|x xs] eqn:E; [done|]. simpl.
  eexists. split; [reflexivity|]. split; [reflexivity|].
  cbn [data elementwise]. by rewrite length_fmap, E.
Qed.

(** The true-color path on one raster raises [IndexError] when the raster
    has fewer than three bands, raises [ValueError] when one of the bands 3,
    2, 1 is of zero size, and otherwise returns an image of shape
    height x width x 3, with three values for every pixel the three bands
    have. *)
Theorem true_color_image_outcome (src : raster) :
  ((length (bands_of src) < 3)%nat ->
   TrueColor.true_color_image src = Raise IndexError) /\
  (forall red green blue : list (sample (dtype src)),
     bands_of src !! 2%nat = Some red ->
     bands_of src !! 1%nat = Some green ->
     bands_of src !! 0%nat = Some blue ->
     (red = [] \/ green = [] \/ blue = [] ->
      TrueColor.true_color_image src = Raise ValueError) /\
     (red <> [] -> green <> [] -> blue <> [] ->
      exists img : image,
        TrueColor.true_color_image src = Ok img /\
        shape img = [height src; width src; 3%nat] /\
        (forall n, length red = n -> length green = n -> length blue = n ->
                   length (data img) = (3 * n)%nat))).
Proof.
  split.
  - intros Hlen. unfold TrueColor.true_color_image.
    by rewrite (read_out_of_range src 3 Hlen).
  - intros red green blue Hr Hg Hb.
    pose proof (read_intro src 2 red Hr) as Rr.
    pose proof (read_intro src 1 green Hg) as Rg.
    pose proof (read_intro src 0 blue Hb) as Rb.
    split.
    + intros Hempty. unfold TrueColor.true_color_image.
      rewrite Rr, Rg, Rb. cbn [mbind result_bind].
      destruct red as [|r0 red]; [reflexivity|].
      destruct (normalize_band_nonempty (mk_ndarray [height src; width src] (r0 :: red)))
        as (rn & -> & _); [done|]. cbn [mbind result_bind].
      destruct green as [|g0 green]; [reflexivity|].
      destruct (normalize_band_nonempty (mk_ndarray [height src; width src] (g0 :: green)))
        as (gn & -> & _); [done|]. cbn [mbind result_bind].
      destruct blue as [|b0 blue]; [reflexivity|].
      destruct Hempty as [?|[?|?]]; discriminate.
    + intros Hrne Hgne Hbne.
      destruct (normalize_band_nonempty (mk_ndarray [height src; width src] red))
        as (rn & Hrn & _ & Lr); [done|].
      destruct (normalize_band_nonempty (mk_ndarray [height src; width src] green))
        as (gn & Hgn & _ & Lg); [done|].
      destruct (normalize_band_nonempty (mk_ndarray [height src; width src] blue))
        as (bn & Hbn & _ & Lb); [done|].
      eexists. split; [exact (true_color_image_of_bands src _ _ _ _ _ _ Rr Rg Rb Hrn Hgn Hbn)|].
      split; [reflexivity|]. intros n Ln1 Ln2 Ln3. cbn [data] in *.
      rewrite length_fmap. apply interleave3_length; congruence.
Qed.

(** The false-color path on one raster raises [IndexError] when the raster
    has fewer than four bands (three bands are enough for the true-color
    path, not for this one), raises [ValueError] when one of the bands 4, 3,
    2 is of zero size, and otherwise returns an image of shape
    height x width x 3. *)
Theorem false_color_image_outcome (src : raster) :
  ((length (bands_of src) < 4)%nat ->
   FalseColor.false_color_image src = Raise IndexError) /\
  (forall nir red green : list (sample (dtype src)),
     bands_of src !! 3%nat = Some nir ->
     bands_of src !! 2%nat = Some red ->
     bands_of src !! 1%nat = Some green ->
     (nir = [] \/ red = [] \/ green = [] ->
      FalseColor.false_color_image src = Raise ValueError) /\
     (nir <> [] -> red <> [] -> green <> [] ->
      exists img : image,
        FalseColor.false_color_image src = Ok img /\
        shape img = [height src; width src; 3%nat] /\
        (forall n, length nir = n -> length red = n -> length green = n ->
                   length (data img) = (3 * n)%nat))).
Proof.
  split.
  - intros Hlen. unfold FalseColor.false_color_image.
    by rewrite (read_out_of_range src 4 Hlen).
  - intros nir red green Hn Hr Hg.
    pose proof (read_intro src 3 nir Hn) as Rn.
    pose proof (read_intro src 2 red Hr) as Rr.
    pose proof (read_intro src 1 green Hg) as Rg.
    split.
    + intros Hempty. unfold FalseColor.false_color_image.
      rewrite Rn, Rr, Rg. cbn [mbind result_bind].
      change (@FalseColor.normalize_band) with (@TrueColor.normalize_band).
      destruct nir as [|n0 nir]; [reflexivity|].
      destruct (normalize_band_nonempty (mk_ndarray [height src; width src] (n0 :: nir)))
        as (nn & -> & _); [done|]. cbn [mbind result_bind].
      destruct red as [|r0 red]; [reflexivity|].
      destruct (normalize_band_nonempty (mk_ndarray [height src; width src] (r0 :: red)))
        as (rn & -> & _); [done|]. cbn [mbind result_bind].
      destruct green as [|g0 green]; [reflexivity|].
      destruct Hempty as [?|[?|?]]; discriminate.
    + intros Hnne Hrne Hgne.
      destruct (normalize_band_nonempty (mk_ndarray [height src; width src] nir))
        as (nn & Hnn & _ & Ln); [done|].
      destruct (normalize_band_nonempty (mk_ndarray [height src; width src] red))
        as (rn & Hrn & _ & Lr); [done|].
      destruct (normalize_band_nonempty (mk_ndarray [height src; width src] green))
        as (gn & Hgn & _ & Lg); [done|].
      eexists. split; [exact (false_color_image_of_bands src _ _ _ _ _ _ Rn Rr Rg Hnn Hrn Hgn)|].
      split; [reflexivity|]. intros n Ln1 Ln2 Ln3. cbn [data] in *.
      apply interleave3_length; congruence.
Qed.

End ImageOutcome.

(** ** Stacking a month that has its five band files *)

Section StackingMore.

Import Np.

Lemma filter_neg_nil {A : Type} (P : A -> Prop) `{forall x, Decision (P x)} (l : list A) :
  filter (fun x => ~ P x) l = [] -> filter P l = l.
Proof.
  induction l as [|x l IH]; [done|]. destruct (decide (P x)) as [Hx|Hx].
  - rewrite filter_cons_False by (intros Hn; by apply Hn).
    rewrite filter_cons_True by done. intros Hl. by rewrite IH.
  - by rewrite filter_cons_True.
Qed.

Lemma filter_neg_not_nil {A : Type} (P : A -> Prop) `{forall x, Decision (P x)} (l : list A) :
  filter (fun x => ~ P x) l <> [] -> length (filter P l) <> length l.
Proof.
  intros Hne. destruct (filter (fun x => ~ P x) l) as [|x k] eqn:Hf; [done|].
  assert (Hx : x ∈ filter (fun x => ~ P x) l) by (rewrite Hf; apply list_elem_of_here).
  apply list_elem_of_filter in Hx as [Hnx Hin].
  pose proof (length_filter_lt P l x Hin Hnx). lia.
Qed.

(** The iteration for a month directory with its five band files, after the
    inner loop: open [B2.jp2], create the stack with its metadata, write the
    five bands, close the stack, print. *)
Lemma stack_month_complete_form (e : env) (base_dir : gmap string entry)
    (month_folder : string) (month : gmap string file) (w : world) :
  base_dir !! month_folder = Some (Directory month) ->
  missing_bands month = [] ->
  Stacking.stack_month e base_dir month_folder w
  = (src0 ← Rasterio.open month "B2.jp2";
     dst0 ← Rasterio.create e (height src0) (width src0) (georef src0)
              (driver src0) (dtype src0) 5;
     dst ← Stacking.write_bands e month Stacking.bands 1 dst0;
     Ok (print ("Created " +:+ path_join e (Stacking.output_dir e) (month_folder +:+ ".tif"))
           {| results := Rasterio.close e dst (month_folder +:+ ".tif") (results w);
              rgb_dir := rgb_dir w;
              false_color_dir := false_color_dir w;
              stdout := stdout w |})).
Proof.
  intros Hdir Hmiss. unfold Stacking.stack_month. rewrite Hdir, find_bands_spec.
  change (filter (fun b => ~ is_Some (month !! b)) Stacking.bands)
    with (missing_bands month).
  rewrite Hmiss, (filter_neg_nil _ _ Hmiss), app_nil_l, emit_nil.
  destruct (decide (length Stacking.bands ≠ length Stacking.bands)) as [Hn|_]; [done|].
  reflexivity.
Qed.

(** The iteration for a month directory that lacks a band file. *)
Lemma stack_month_incomplete_form (e : env) (base_dir : gmap string entry)
    (month_folder : string) (month : gmap string file) (w : world) :
  base_dir !! month_folder = Some (Directory month) ->
  missing_bands month <> [] ->
  Stacking.stack_month e base_dir month_folder w
  = Ok (emit ((warning month_folder <$> missing_bands month)
              ++ ["Skipping " +:+ month_folder +:+ " due to missing bands"]) w).
Proof.
  intros Hdir Hmiss. unfold Stacking.stack_month. rewrite Hdir, find_bands_spec.
  change (filter (fun b => ~ is_Some (month !! b)) Stacking.bands)
    with (missing_bands month).
  rewrite app_nil_l.
  destruct (decide _) as [_|Hn]; [by rewrite print_emit|].
  exfalso. apply Hn. by apply filter_neg_not_nil.
Qed.

(** One pass of the writing loop: the band goes into the stack as it is when
    it has the size and the number type of the stack, and through GDAL
    otherwise. *)
Lemma write_step (e : env) (month : gmap string file) (band_path : string)
    (rest : list string) (k : nat) (dst r : raster) (samples : list (sample (dtype r))) :
  month !! band_path = Some (RasterFile r) ->
  bands_of r !! 0%nat = Some samples ->
  (k < length (bands_of dst))%nat ->
  Stacking.write_bands e month (band_path :: rest) (S k) dst
  = (layer ← (if decide ([height r; width r] = [height dst; width dst])
              then match same_dtype (dtype r) (dtype dst) samples with
                   | Some same => Ok same
                   | None => gdal_rasterio e (dtype r) (dtype dst) (height dst) (width dst)
                               (mk_ndarray [height r; width r] samples)
                   end
              else gdal_rasterio e (dtype r) (dtype dst) (height dst) (width dst)
                     (mk_ndarray [height r; width r] samples));
     Stacking.write_bands e month rest (S (S k))
       {| height := height dst; width := width dst; georef := georef dst;
          driver := driver dst; dtype := dtype dst;
          bands_of := <[k := layer]> (bands_of dst) |}).
Proof.
  intros Hp Hl Hk. cbn [Stacking.write_bands]. unfold Rasterio.open, Rasterio.read.
  rewrite Hp. cbn [mbind result_bind]. rewrite Hl. cbn [mbind result_bind].
  unfold Rasterio.write.
  destruct (decide (length (bands_of dst) <= k)%nat) as [Hle|_]; [lia|].
  cbn [shape data].
  destruct (decide ([height r; width r] = [height dst; width dst]));
    [destruct (same_dtype _ _ _)|]; try reflexivity;
    by destruct (gdal_rasterio _ _ _ _ _ _).
Qed.

Lemma layers_insert {A : Type} (l : list A) (k n : nat) (x : A) (xs : list A) :
  (k + S n <= length l)%nat -> length xs = n ->
  take (S k) (<[k := x]> l) ++ xs ++ drop (S k + n) (<[k := x]> l)
  = take k l ++ (x :: xs) ++ drop (k + S n) l.
Proof.
  intros Hlen Hxs.
  rewrite (take_S_r _ k x) by (apply list_lookup_insert_eq; lia).
  rewrite take_insert_ge by lia. rewrite drop_insert_lt by lia.
  rewrite <- app_assoc. cbn [app].
  by replace (S k + n)%nat with (k + S n)%nat by lia.
Qed.

(** Writing band files fills the bands of [dst] from position [idx] on with
    what [dst.write] stores for each of them. *)
Lemma write_bands_layers (e : env) (month : gmap string file) (band_paths : list string)
    (k : nat) (dst : raster) (layers : list (list (sample (dtype dst)))) :
  Forall2 (written_layer e month (height dst) (width dst) (dtype dst)) band_paths layers ->
  (k + length band_paths <= length (bands_of dst))%nat ->
  Stacking.write_bands e month band_paths (S k) dst
  = Ok {| height := height dst; width := width dst; georef := georef dst;
          driver := driver dst; dtype := dtype dst;
          bands_of := take k (bands_of dst) ++ layers
                      ++ drop (k + length band_paths) (bands_of dst) |}.
Proof.
  revert k dst layers.
  induction band_paths as [|p band_paths IH]; intros k dst layers Hall Hlen.
  - apply Forall2_nil_inv_l in Hall as ->. cbn [Stacking.write_bands length].
    rewrite Nat.add_0_r, app_nil_l, take_drop. by destruct dst.
  - apply Forall2_cons_inv_l in Hall as (layer & layers' & Hlayer & Hall & ->).
    cbn [length] in Hlen.
    assert (Hstep : Stacking.write_bands e month (p :: band_paths) (S k) dst
                    = Stacking.write_bands e month band_paths (S (S k))
                        {| height := height dst; width := width dst; georef := georef dst;
                           driver := driver dst; dtype := dtype dst;
                           bands_of := <[k := layer]> (bands_of dst) |}).
    { destruct Hlayer as [(r & samples & Hp & Hl & Hsame & Hh & Hw)
                         |(r & samples & Hp & Hl & Hne & Hgdal)];
        rewrite (write_step e month p band_paths k dst r samples Hp Hl) by lia.
      - destruct (decide ([height r; width r] = [height dst; width dst])) as [_|Hn];
          [|by rewrite Hh, Hw in Hn].
        by rewrite Hsame.
      - destruct (decide ([height r; width r] = [height dst; width dst])) as [Heq|_].
        + injection Heq as Hh Hw. destruct Hne as [Hne|[Hne|Hne]]; [done|done|].
          by rewrite Hne, Hgdal.
        + by rewrite Hgdal. }
    rewrite Hstep.
    rewrite (IH (S k)
               {| height := height dst; width := width dst; georef := georef dst;
                  driver := driver dst; dtype := dtype dst;
                  bands_of := <[k := layer]> (bands_of dst) |} layers');
      cbn [height width georef driver dtype bands_of].
    + f_equal. f_equal. apply layers_insert; [lia|].
      apply Forall2_length in Hall. by rewrite <- Hall.
    + exact Hall.
    + rewrite length_insert. lia.
Qed.

(** Conversely, when the writing loop returns, every band file was a raster
    and the bands were filled as above. *)
Lemma write_bands_inv (e : env) (month : gmap string file) (band_paths : list string)
    (k : nat) (dst dst' : raster) :
  (k + length band_paths <= length (bands_of dst))%nat ->
  Stacking.write_bands e month band_paths (S k) dst = Ok dst' ->
  exists layers : list (list (sample (dtype dst))),
    Forall2 (written_layer e month (height dst) (width dst) (dtype dst)) band_paths layers /\
    dst' = {| height := height dst; width := width dst; georef := georef dst;
              driver := driver dst; dtype := dtype dst;
              bands_of := take k (bands_of dst) ++ layers
                          ++ drop (k + length band_paths) (bands_of dst) |}.
Proof.
  revert k dst. induction band_paths as [|p band_paths IH]; intros k dst Hlen Hw.
  - exists []. split; [constructor|].
    cbn [Stacking.write_bands] in Hw. injection Hw as <-.
    cbn [length]. rewrite Nat.add_0_r, app_nil_l, take_drop. by destruct dst.
  - cbn [length] in Hlen.
    destruct (month !! p) as [[r|]|] eqn:Hp;
      [|cbn [Stacking.write_bands] in Hw; unfold Rasterio.open in Hw;
        rewrite Hp in Hw; discriminate..].
    destruct (bands_of r !! 0%nat) as [samples|] eqn:Hl;
      [|cbn [Stacking.write_bands] in Hw; unfold Rasterio.open, Rasterio.read in Hw;
        rewrite Hp in Hw; cbn [mbind result_bind] in Hw; rewrite Hl in Hw; discriminate].
    rewrite (write_step e month p band_paths k dst r samples Hp Hl) in Hw by lia.
    apply bind_Ok_inv in Hw as (layer & Hlayer & Hw).
    destruct (IH (S k)
                {| height := height dst; width := width dst; georef := georef dst;
                   driver := driver dst; dtype := dtype dst;
                   bands_of := <[k := layer]> (bands_of dst) |})
      as (layers & Hall & ->);
      [cbn [bands_of dtype]; rewrite length_insert; lia | exact Hw |].
    cbn [height width georef driver dtype bands_of] in *.
    exists (layer :: layers). split.
    + constructor; [|exact Hall].
      destruct (decide ([height r; width r] = [height dst; width dst])) as [Heq|Hne].
      * injection Heq as Hh Hwd.
        destruct (same_dtype (dtype r) (dtype dst) samples) as [same|] eqn:Hsame.
        -- injection Hlayer as <-. left. by exists r, samples.
        -- right. exists r, samples. do 2 (split; [done|]). split; [|done].
           by right; right.
      * right. exists r, samples. do 2 (split; [done|]). split; [|done].
        destruct (decide (height r = height dst)) as [Hh|Hh]; [|by left].
        right; left. intros Hwd. apply Hne. by rewrite Hh, Hwd.
    + f_equal. apply layers_insert; [lia|].
      apply Forall2_length in Hall. by rewrite <- Hall.
Qed.

Lemma filter_neg_Forall {A : Type} (P : A -> Prop) `{forall x, Decision (P x)} (l : list A) :
  Forall P l -> filter (fun x => ~ P x) l = [].
Proof.
  induction 1 as [|x l Hx _ IH]; [done|].
  rewrite filter_cons_False by (intros Hn; by apply Hn). exact IH.
Qed.

Lemma missing_bands_nil (month : gmap string file) :
  missing_bands month = [] <->
  forall band_file, band_file ∈ Stacking.bands -> is_Some (month !! band_file).
Proof.
  split.
  - intros Hmiss b Hb. destruct (decide (is_Some (month !! b))) as [|Hn]; [done|].
    assert (b ∈ missing_bands month) by (by apply list_elem_of_filter).
    rewrite Hmiss in *. by apply elem_of_nil in H.
  - intros Hall. apply filter_neg_Forall. by apply Forall_forall.
Qed.

(** A band that [dst.write] stores comes from a raster file. *)
Lemma written_layer_file (e : env) (month : gmap string file) (h w : nat) (d : numtype)
    (band_path : string) (layer : list (sample d)) :
  written_layer e month h w d band_path layer ->
  exists r, month !! band_path = Some (RasterFile r).
Proof. intros [(r & ? & Hr & _)|(r & ? & Hr & _)]; by exists r. Qed.

Lemma written_layers_complete (e : env) (month : gmap string file) (h w : nat)
    (d : numtype) (layers : list (list (sample d))) :
  Forall2 (written_layer e month h w d) Stacking.bands layers ->
  missing_bands month = [].
Proof.
  intros Hall. apply missing_bands_nil. intros b Hb.
  apply list_elem_of_lookup_1 in Hb as [i Hi].
  destruct (Forall2_lookup_l _ _ _ _ _ Hall Hi) as (layer & _ & Hlayer).
  apply written_layer_file in Hlayer as [r ->]. done.
Qed.

(** What a successful iteration over a complete month leaves. *)
Lemma stack_month_ok_inv (e : env) (base_dir : gmap string entry)
    (month_folder : string) (month : gmap string file) (w w' : world) :
  base_dir !! month_folder = Some (Directory month) ->
  missing_bands month = [] ->
  Stacking.stack_month e base_dir month_folder w = Ok w' ->
  exists dst : raster,
    stacked_from e base_dir month_folder dst /\
    w' = print ("Created " +:+ path_join e (Stacking.output_dir e) (month_folder +:+ ".tif"))
           {| results := Rasterio.close e dst (month_folder +:+ ".tif") (results w);
              rgb_dir := rgb_dir w;
              false_color_dir := false_color_dir w;
              stdout := stdout w |}.
Proof.
  intros Hdir Hmiss. rewrite (stack_month_complete_form e _ _ _ _ Hdir Hmiss).
  unfold Rasterio.open.
  destruct (month !! "B2.jp2") as [[src0|]|] eqn:H0; try discriminate.
  cbn [mbind result_bind]. unfold Rasterio.create.
  destruct (gdal_writable e (driver src0)); [|discriminate].
  cbn [mbind result_bind].
  destruct (Stacking.write_bands _ _ _ _ _) as [dst|] eqn:Hw; [|discriminate].
  cbn [mbind result_bind]. intros [= <-]. exists dst. split; [|reflexivity].
  apply (write_bands_inv e month Stacking.bands 0) in Hw as (layers & Hall & ->);
    [|cbn; lia].
  cbn [height width georef driver dtype bands_of] in *.
  exists month, src0. cbn [height width georef driver dtype bands_of].
  do 7 (split; [done|]).
  cbn [take drop replicate length Stacking.bands Nat.add app]. by rewrite app_nil_r.
Qed.

(** The iteration of a month whose five bands are written as [layers]. *)
Lemma stack_month_of_layers (e : env) (base_dir : gmap string entry)
    (month_folder : string) (month : gmap string file) (src0 : raster)
    (layers : list (list (sample (dtype src0)))) (w : world) :
  base_dir !! month_folder = Some (Directory month) ->
  month !! "B2.jp2" = Some (RasterFile src0) ->
  gdal_writable e (driver src0) = true ->
  Forall2 (written_layer e month (height src0) (width src0) (dtype src0))
    Stacking.bands layers ->
  Stacking.stack_month e base_dir month_folder w
  = Ok {| results :=
            Rasterio.close e
              {| height := height src0; width := width src0; georef := georef src0;
                 driver := driver src0; dtype := dtype src0; bands_of := layers |}
              (month_folder +:+ ".tif") (results w);
          rgb_dir := rgb_dir w;
          false_color_dir := false_color_dir w;
          stdout := stdout w ++
            ["Created " +:+ path_join e (Stacking.output_dir e) (month_folder +:+ ".tif")] |}.
Proof.
  intros Hdir H0 Hwritable Hall.
  rewrite (stack_month_complete_form e _ _ _ _ Hdir
             (written_layers_complete e month _ _ _ layers Hall)).
  unfold Rasterio.open. rewrite H0. cbn [mbind result_bind].
  unfold Rasterio.create. rewrite Hwritable. cbn [mbind result_bind].
  rewrite (write_bands_layers e month Stacking.bands 0
             {| height := height src0; width := width src0; georef := georef src0;
                driver := driver src0; dtype := dtype src0;
                bands_of := replicate 5 (replicate (height src0 * width src0)
                                           (zero (dtype src0))) |} layers);
    [|exact Hall|cbn; lia].
  cbn [mbind result_bind height width georef driver dtype bands_of].
  cbn [take drop replicate length Stacking.bands Nat.add app]. by rewrite app_nil_r.
Qed.

(** A month directory whose five band files are rasters of one size and one
    number type is stacked, provided that the driver of [B2.jp2] can create
    a dataset: the iteration writes, under the name of the month followed by
    [".tif"], the dataset that has the size, the spatial metadata, the number
    type and also the driver of [B2.jp2] and, as its bands 1 to 5, the first
    bands of [B2.jp2], [B3.jp2], [B4.jp2], [B8.jp2], [B11.jp2]; it prints
    one line and no warning.  What Results holds afterwards is what GDAL
    stores for that dataset, with a side-car file if GDAL makes one. *)
Theorem stack_month_writes_stack (e : env) (base_dir : gmap string entry)
    (month_folder : string) (month : gmap string file) (src0 : raster)
    (layers : list (list (sample (dtype src0)))) (w : world) :
  base_dir !! month_folder = Some (Directory month) ->
  month !! "B2.jp2" = Some (RasterFile src0) ->
  gdal_writable e (driver src0) = true ->
  Forall2 (band_layer month (height src0) (width src0) (dtype src0)) Stacking.bands layers ->
  Stacking.stack_month e base_dir month_folder w
  = Ok {| results :=
            Rasterio.close e
              {| height := height src0; width := width src0; georef := georef src0;
                 driver := driver src0; dtype := dtype src0; bands_of := layers |}
              (month_folder +:+ ".tif") (results w);
          rgb_dir := rgb_dir w;
          false_color_dir := false_color_dir w;
          stdout := stdout w ++
            ["Created " +:+ path_join e (Stacking.output_dir e) (month_folder +:+ ".tif")] |}.
Proof.
  intros Hdir H0 Hwritable Hall.
  apply (stack_month_of_layers e base_dir month_folder month src0 layers w Hdir H0 Hwritable).
  eapply Forall2_impl; [exact Hall|]. intros p layer Hlayer. by left.
Qed.

Lemma stack_month_writes_stack_witness :
  Stacking.stack_month posix august_tree "August" empty_world
  = Ok {| results :=
            <["August.tif" :=
                RasterFile {| height := 1; width := 2; georef := "EPSG:32632";
                              driver := "JP2OpenJPEG"; dtype := Int UInt16;
                              bands_of := [[0; 2]; [2; 6]; [0; 4]; [4; 8]; [8; 6]]%Z |}]>
              (<["August.tif.aux.xml" := OtherFile]> ∅);
          rgb_dir := ∅; false_color_dir := ∅;
          stdout := ["Created /home/user/project/Results/August.tif"] |}.
Proof.
  apply (stack_month_writes_stack posix august_tree "August" five_jp2_bands
           {| height := 1; width := 2; georef := "EPSG:32632"; driver := "JP2OpenJPEG";
              dtype := Int UInt16; bands_of := [[1; 3]%Z] |}
           [[1; 3]; [2; 6]; [0; 4]; [5; 9]; [8; 7]]%Z empty_world).
  - reflexivity.
  - reflexivity.
  - reflexivity.
  - repeat (constructor; [eexists _, _; split_and!; reflexivity|]).
    constructor.
Defined.

(** A band file that has not the size of [B2.jp2] does not stop the
    iteration: its band is handed to GDAL, and when GDAL returns a band of
    the size of the stack, as it does by resampling, the stack is written
    with it, the line is printed and the loop goes on with the next month
    folder. *)
Theorem stack_month_size_mismatch (e : env) (base_dir : gmap string entry)
    (month_folder : string) (month : gmap string file) (src0 : raster)
    (layers : list (list (sample (dtype src0)))) (i : nat) (band_path : string)
    (r : raster) (samples : list (sample (dtype r))) (rest : list string) (w : world) :
  base_dir !! month_folder = Some (Directory month) ->
  month !! "B2.jp2" = Some (RasterFile src0) ->
  gdal_writable e (driver src0) = true ->
  Forall2 (written_layer e month (height src0) (width src0) (dtype src0))
    Stacking.bands layers ->
  Stacking.bands !! i = Some band_path ->
  month !! band_path = Some (RasterFile r) ->
  bands_of r !! 0%nat = Some samples ->
  height r <> height src0 \/ width r <> width src0 ->
  let w' :=
    {| results :=
         Rasterio.close e
           {| height := height src0; width := width src0; georef := georef src0;
              driver := driver src0; dtype := dtype src0; bands_of := layers |}
           (month_folder +:+ ".tif") (results w);
       rgb_dir := rgb_dir w;
       false_color_dir := false_color_dir w;
       stdout := stdout w ++
         ["Created " +:+ path_join e (Stacking.output_dir e) (month_folder +:+ ".tif")] |} in
  Stacking.stack_month e base_dir month_folder w = Ok w' /\
  Py.for_each (Stacking.stack_month e base_dir) (month_folder :: rest) w
  = Py.for_each (Stacking.stack_month e base_dir) rest w' /\
  exists layer : list (sample (dtype src0)),
    layers !! i = Some layer /\
    gdal_rasterio e (dtype r) (dtype src0) (height src0) (width src0)
      (mk_ndarray [height r; width r] samples) = Ok layer.
Proof.
  intros Hdir H0 Hwritable Hall Hi Hp Hl Hsize w'.
  pose proof (stack_month_of_layers e base_dir month_folder month src0 layers w
                Hdir H0 Hwritable Hall) as Hstep.
  split; [exact Hstep|]. split; [cbn [Py.for_each]; by rewrite Hstep|].
  destruct (Forall2_lookup_l _ _ _ _ _ Hall Hi) as (layer & Hlayer & Hwritten).
  exists layer. split; [exact Hlayer|].
  destruct Hwritten as [(r' & samples' & Hp' & Hl' & _ & Hh & Hw)
                       |(r' & samples' & Hp' & Hl' & _ & Hgdal)].
  - assert (r' = r) by congruence. subst r'. destruct Hsize; done.
  - assert (r' = r) by congruence. subst r'.
    assert (samples' = samples) by congruence. by subst samples'.
Qed.

Lemma stack_month_size_mismatch_witness :
  Stacking.stack_month posix mismatched_tree "May" empty_world
  = Ok {| results := <["May.tif" := RasterFile varied_raster]> ∅;
          rgb_dir := ∅; false_color_dir := ∅;
          stdout := ["Created /home/user/project/Results/May.tif"] |}.
Proof.
  apply (stack_month_size_mismatch posix mismatched_tree "May"
           (<["B4.jp2" := wide_band_file]> five_bands)
           (uint16_raster 1 2 [[1; 3]%Z])
           [[1; 3]; [2; 6]; [0; 4]; [5; 9]; [8; 7]]%Z
           2 "B4.jp2" (uint16_raster 1 3 [[0; 4; 5]%Z]) [0; 4; 5]%Z [] empty_world).
  - reflexivity.
  - reflexivity.
  - reflexivity.
  - constructor; [left; eexists _, _; split_and!; reflexivity|].
    constructor; [left; eexists _, _; split_and!; reflexivity|].
    constructor.
    { right. exists (uint16_raster 1 3 [[0; 4; 5]%Z]), [0; 4; 5]%Z.
      split_and!; [reflexivity | reflexivity | right; left; cbn; lia | reflexivity]. }
    constructor; [left; eexists _, _; split_and!; reflexivity|].
    constructor; [left; eexists _, _; split_and!; reflexivity|].
    constructor.
  - reflexivity.
  - reflexivity.
  - reflexivity.
  - right. cbn. lia.
Defined.

(** A band file that is there but is no raster is not skipped like a missing
    one: the iteration raises, and the loop ends there. *)
Theorem stack_month_unreadable_band (e : env) (base_dir : gmap string entry)
    (month_folder : string) (month : gmap string file)
    (rest : list string) (w : world) :
  base_dir !! month_folder = Some (Directory month) ->
  missing_bands month = [] ->
  (exists band_file, band_file ∈ Stacking.bands /\ month !! band_file = Some OtherFile) ->
  exists x : exn,
    Stacking.stack_month e base_dir month_folder w = Raise x /\
    Py.for_each (Stacking.stack_month e base_dir) (month_folder :: rest) w = Raise x.
Proof.
  intros Hdir Hmiss (b & Hb & Hother).
  destruct (Stacking.stack_month e base_dir month_folder w) as [w'|x] eqn:Hstep.
  - exfalso.
    destruct (stack_month_ok_inv e _ _ _ _ _ Hdir Hmiss Hstep)
      as (dst & (month' & src0 & Hdir' & _ & _ & _ & _ & _ & _ & Hall) & _).
    rewrite Hdir in Hdir'. injection Hdir' as <-.
    apply list_elem_of_lookup_1 in Hb as [i Hi].
    destruct (Forall2_lookup_l _ _ _ _ _ Hall Hi) as (layer & _ & Hlayer).
    apply written_layer_file in Hlayer as [r Hr].
    rewrite Hother in Hr. discriminate.
  - exists x. split; [reflexivity|]. cbn [Py.for_each]. by rewrite Hstep.
Qed.

Lemma stack_month_unreadable_band_witness :
  exists x : exn,
    Stacking.stack_month posix corrupt_tree "June" empty_world = Raise x.
Proof.
  destruct (stack_month_unreadable_band posix corrupt_tree "June"
              (<["B8.jp2" := OtherFile]> five_bands) [] empty_world)
    as (x & Hx & _).
  - reflexivity.
  - vm_compute. reflexivity.
  - exists "B8.jp2". split; [|reflexivity].
    by do 3 apply list_elem_of_further; apply list_elem_of_here.
  - by exists x.
Defined.

End StackingMore.

(** ** What a run of the stacking cell leaves in Results *)

Section StackingRun.

Lemma length_append (s t : string) :
  String.length (s +:+ t) = (String.length s + String.length t)%nat.
Proof. induction s as [|c s IH]; [done|]. rewrite append_String. simpl. by rewrite IH. Qed.

Lemma append_cancel_r (s1 s2 t : string) : s1 +:+ t = s2 +:+ t -> s1 = s2.
Proof.
  revert s2. induction s1 as [|c1 s1 IH]; intros [|c2 s2] Heq.
  - reflexivity.
  - apply (f_equal String.length) in Heq.
    rewrite append_Empty, append_String in Heq. simpl in Heq.
    rewrite length_append in Heq. lia.
  - apply (f_equal String.length) in Heq.
    rewrite append_Empty, append_String in Heq. simpl in Heq.
    rewrite length_append in Heq. lia.
  - rewrite !append_String in Heq. injection Heq as -> Heq. f_equal. by apply IH.
Qed.

Lemma append_assoc (s t u : string) : (s +:+ t) +:+ u = s +:+ (t +:+ u).
Proof. induction s as [|c s IH]; [done|]. rewrite !append_String. by rewrite IH. Qed.

(** The name of a side-car file does not end with [".tif"]. *)
Lemma aux_xml_not_tif (name : string) :
  Py.endswith (name +:+ ".aux.xml") ".tif" = false.
Proof.
  induction name as [|c name IH]; [reflexivity|].
  rewrite append_String. cbn [Py.endswith]. rewrite IH, orb_false_r.
  apply String.eqb_neq. intros Heq. apply (f_equal String.length) in Heq.
  simpl in Heq. rewrite length_append in Heq. simpl in Heq. lia.
Qed.

Lemma tif_not_aux_xml (stem name : string) : stem +:+ ".tif" <> name +:+ ".aux.xml".
Proof.
  intros Heq. pose proof (endswith_suffix stem ".tif") as Ht.
  rewrite Heq, aux_xml_not_tif in Ht. discriminate.
Qed.

Lemma name_not_aux_xml (name : string) : name <> name +:+ ".aux.xml".
Proof.
  intros Heq. apply (f_equal String.length) in Heq.
  rewrite length_append in Heq. simpl in Heq. lia.
Qed.

(** What closing a dataset leaves under each name. *)
Lemma close_lookup_name (e : env) (dst : raster) (name : string) (dir : gmap string file) :
  Rasterio.close e dst name dir !! name = Some (RasterFile (gdal_stored e dst)).
Proof. unfold Rasterio.close. apply lookup_insert_eq. Qed.

Lemma close_lookup_aux_xml (e : env) (dst : raster) (name : string)
    (dir : gmap string file) :
  gdal_aux_xml e dst = true ->
  Rasterio.close e dst name dir !! (name +:+ ".aux.xml") = Some OtherFile.
Proof.
  intros Haux. unfold Rasterio.close. rewrite Haux.
  rewrite lookup_insert_ne by apply name_not_aux_xml. apply lookup_insert_eq.
Qed.

Lemma close_lookup_other (e : env) (dst : raster) (name k : string)
    (dir : gmap string file) :
  k <> name -> k <> name +:+ ".aux.xml" ->
  Rasterio.close e dst name dir !! k = dir !! k.
Proof.
  intros Hname Haux. unfold Rasterio.close.
  rewrite lookup_insert_ne by done.
  destruct (gdal_aux_xml e dst); [by rewrite lookup_insert_ne|done].
Qed.

Lemma complete_month_dec (base_dir : gmap string entry) (month_folder : string) :
  complete_month base_dir month_folder \/ ~ complete_month base_dir month_folder.
Proof.
  unfold complete_month. destruct (base_dir !! month_folder) as [[|month]|] eqn:Hdir.
  - right. by intros (m & [=] & _).
  - destruct (decide (missing_bands month = [])) as [Hm|Hm].
    + left. by exists month.
    + right. intros (m & [= <-] & Hm'). done.
  - right. by intros (m & [=] & _).
Qed.

(** One iteration: the image directories are left alone, and Results either
    is left alone, the month not being complete, or gets the stack of the
    month, closed. *)
Lemma stack_month_results (e : env) (base_dir : gmap string entry)
    (month_folder : string) (w w' : world) :
  Stacking.stack_month e base_dir month_folder w = Ok w' ->
  rgb_dir w' = rgb_dir w /\ false_color_dir w' = false_color_dir w /\
  ((~ complete_month base_dir month_folder /\ results w' = results w) \/
   (complete_month base_dir month_folder /\
    exists dst, stacked_from e base_dir month_folder dst /\
      results w' = Rasterio.close e dst (month_folder +:+ ".tif") (results w))).
Proof.
  intros Hstep. destruct (base_dir !! month_folder) as [[|month]|] eqn:Hdir.
  1,3: unfold Stacking.stack_month in Hstep; rewrite Hdir in Hstep;
       injection Hstep as <-; do 2 (split; [done|]); left;
       split; [by intros (m & Hm & _); rewrite Hdir in Hm | done].
  destruct (decide (missing_bands month = [])) as [Hm|Hm].
  - destruct (stack_month_ok_inv e _ _ _ _ _ Hdir Hm Hstep) as (dst & Hdst & ->).
    do 2 (split; [done|]). right. split; [by exists month|]. by exists dst.
  - rewrite (stack_month_incomplete_form e _ _ _ _ Hdir Hm) in Hstep.
    injection Hstep as <-. do 2 (split; [done|]). left.
    split; [|done]. intros (m & Hd & Hm'). rewrite Hdir in Hd. by injection Hd as <-.
Qed.

(** The loop changes an entry of Results only under the name of the stack
    of a complete month of its list, or of the side-car file of that
    stack. *)
Lemma stacking_loop_frame (e : env) (base_dir : gmap string entry)
    (l : list string) (w w' : world) :
  Py.for_each (Stacking.stack_month e base_dir) l w = Ok w' ->
  rgb_dir w' = rgb_dir w /\ false_color_dir w' = false_color_dir w /\
  forall k, (forall m, m ∈ l -> complete_month base_dir m ->
                       k <> m +:+ ".tif" /\ k <> (m +:+ ".tif") +:+ ".aux.xml") ->
            results w' !! k = results w !! k.
Proof.
  revert w. induction l as [|m0 l IH]; intros w Hrun; cbn [Py.for_each] in Hrun.
  - by injection Hrun as <-.
  - apply bind_Ok_inv in Hrun as (w1 & Hstep & Hrun).
    destruct (IH _ Hrun) as (Hg & Hf & Hk).
    destruct (stack_month_results _ _ _ _ _ Hstep) as (Hg1 & Hf1 & Hres).
    split; [congruence|]. split; [congruence|].
    intros k Hfree. rewrite Hk by (intros m Hm; apply Hfree; by apply list_elem_of_further).
    destruct Hres as [[_ ->]|(Hc & dst & Hdst & ->)]; [done|].
    destruct (Hfree m0 (list_elem_of_here _ _) Hc) as [Hname Haux].
    by apply close_lookup_other.
Qed.

Lemma stacking_loop_complete (e : env) (base_dir : gmap string entry)
    (l : list string) (w w' : world) :
  Py.for_each (Stacking.stack_month e base_dir) l w = Ok w' ->
  forall m, m ∈ l -> complete_month base_dir m ->
    exists dst, stacked_from e base_dir m dst /\
      results w' !! (m +:+ ".tif") = Some (RasterFile (gdal_stored e dst)) /\
      (gdal_aux_xml e dst = true ->
       results w' !! ((m +:+ ".tif") +:+ ".aux.xml") = Some OtherFile).
Proof.
  revert w. induction l as [|m0 l IH]; intros w Hrun m Hin Hc; cbn [Py.for_each] in Hrun.
  - by apply elem_of_nil in Hin.
  - apply bind_Ok_inv in Hrun as (w1 & Hstep & Hrun).
    destruct (decide (m ∈ l)) as [Hl|Hl]; [by apply (IH _ Hrun)|].
    apply elem_of_cons in Hin as [->|Hin]; [|done].
    destruct (stack_month_results _ _ _ _ _ Hstep)
      as (_ & _ & [[Hn _]|(_ & dst & Hdst & Hres)]); [done|].
    exists dst. split; [done|].
    destruct (stacking_loop_frame _ _ _ _ _ Hrun) as (_ & _ & Hk).
    split.
    + rewrite Hk, Hres; [apply close_lookup_name|].
      intros m Hm _. split; [|apply tif_not_aux_xml].
      intros Heq. apply append_cancel_r in Heq as ->. done.
    + intros Haux. rewrite Hk, Hres; [by apply close_lookup_aux_xml|].
      intros m Hm _. split.
      * intros Heq. by apply (tif_not_aux_xml m (m0 +:+ ".tif")).
      * intros Heq. do 2 apply append_cancel_r in Heq. by subst.
Qed.

Lemma listing_elem_of {A : Type} (e : env) (dir : gmap string A) (name : string) :
  (forall l, listdir_order e l ≡ₚ l) ->
  name ∈ Py.sorted (listdir e dir) <-> is_Some (dir !! name).
Proof.
  intros Hperm. destruct (sorted_spec (listdir e dir)) as [_ ->].
  unfold listdir. rewrite Hperm. rewrite elem_of_elements. apply elem_of_dom.
Qed.

(** After a run of the stacking cell that returns, Results holds, for every
    complete month directory of the input tree, under the name of the month
    followed by [".tif"], what GDAL stores for the stack of the month: a
    dataset with the size, the spatial metadata, the number type and the
    driver of B2 and five bands, which are what [dst.write] stores for B2,
    B3, B4, B8, B11 in this order: the first band of the file as it is when
    the file has the size and the number type of B2, and what GDAL makes of
    it otherwise.  When GDAL makes a side-car file for the stack, Results
    holds it as well. *)
Theorem stacking_run_stacks_complete_months (e : env)
    (base_dir : gmap string entry) (w w' : world) (month_folder : string) :
  (forall l, listdir_order e l ≡ₚ l) ->
  Stacking.run e base_dir w = Ok w' ->
  complete_month base_dir month_folder ->
  exists dst : raster,
    stacked_from e base_dir month_folder dst /\
    results w' !! (month_folder +:+ ".tif") = Some (RasterFile (gdal_stored e dst)) /\
    length (bands_of dst) = 5%nat /\
    (gdal_aux_xml e dst = true ->
     results w' !! ((month_folder +:+ ".tif") +:+ ".aux.xml") = Some OtherFile).
Proof.
  intros Hperm Hrun Hc. unfold Stacking.run in Hrun.
  apply bind_Ok_inv in Hrun as (w1 & Hloop & [= <-]).
  assert (Hin : month_folder ∈ Py.sorted (listdir e base_dir)).
  { apply listing_elem_of; [done|]. destruct Hc as (month & -> & _). done. }
  destruct (stacking_loop_complete _ _ _ _ _ Hloop _ Hin Hc) as (dst & Hdst & Hres & Haux).
  exists dst. split; [done|]. split; [exact Hres|]. split; [|exact Haux].
  destruct Hdst as (month & src0 & _ & _ & _ & _ & _ & _ & _ & Hall).
  apply Forall2_length in Hall. by rewrite <- Hall.
Qed.


End StackingRun.

(** ** What a run of a rendering cell leaves in its image directory *)

Section RenderLoop.

(** One rendering loop: its body, what it writes for a raster, how it names
    the image, and the directory it stores the image in. *)
Variable body : string -> world -> result world.
Variable png_of : raster -> result png.
Variable name_of : string -> string.
Variable get : world -> gmap string png.

Hypothesis body_spec : forall f w w',
  body f w = Ok w' ->
  results w' = results w /\
  ((Py.endswith f ".tif" = false /\ get w' = get w) \/
   (Py.endswith f ".tif" = true /\
    exists src img, results w !! f = Some (RasterFile src) /\
                    png_of src = Ok img /\
                    get w' = <[name_of f := img]> (get w))).

Lemma render_loop_facts (l : list string) (w w' : world) :
  Py.for_each body l w = Ok w' ->
  results w' = results w /\
  (forall f, f ∈ l -> Py.endswith f ".tif" = true ->
     exists src img, results w !! f = Some (RasterFile src) /\ png_of src = Ok img) /\
  (forall k, get w' !! k = get w !! k \/
     exists img, rendered_as png_of name_of (results w) k img /\
                 get w' !! k = Some img) /\
  (forall f, f ∈ l -> Py.endswith f ".tif" = true ->
     exists img, rendered_as png_of name_of (results w) (name_of f) img /\
                 get w' !! name_of f = Some img).
Proof.
  revert w. induction l as [|f0 l IH]; intros w Hrun; cbn [Py.for_each] in Hrun.
  - injection Hrun as <-. split; [done|]. split; [intros f Hf; by apply elem_of_nil in Hf|].
    split; [by left | intros f Hf; by apply elem_of_nil in Hf].
  - apply bind_Ok_inv in Hrun as (w1 & Hstep & Hrun).
    destruct (body_spec _ _ _ Hstep) as (Hres1 & Hcase).
    destruct (IH _ Hrun) as (Hres & HA & HB & HC). rewrite Hres1 in *.
    split; [done|].
    assert (HB' : forall k, get w' !! k = get w !! k \/
       exists img, rendered_as png_of name_of (results w) k img /\
                   get w' !! k = Some img).
    { intros k. destruct (HB k) as [Hk|Hk]; [|by right].
      destruct Hcase as [[_ Hget]|(Hends & src & img & Hf & Hi & Hget)].
      - left. by rewrite Hk, Hget.
      - destruct (decide (k = name_of f0)) as [->|Hne].
        + right. exists img. split; [by exists f0, src|].
          by rewrite Hk, Hget, lookup_insert_eq.
        + left. by rewrite Hk, Hget, lookup_insert_ne. }
    split; [|split; [exact HB'|]].
    + intros f Hf Hends. apply elem_of_cons in Hf as [->|Hf]; [|by apply HA].
      destruct Hcase as [[Hn _]|(_ & src & img & Hf0 & Hi & _)]; [congruence|].
      by exists src, img.
    + intros f Hf Hends. apply elem_of_cons in Hf as [->|Hf]; [|by apply HC].
      destruct Hcase as [[Hn _]|(_ & src & img & Hf0 & Hi & Hget)]; [congruence|].
      destruct (HB (name_of f0)) as [Hk|Hk]; [|exact Hk].
      exists img. split; [by exists f0, src|].
      by rewrite Hk, Hget, lookup_insert_eq.
Qed.

End RenderLoop.

Section RenderingRun.

Lemma true_color_body_spec (e : env) (f : string) (w w' : world) :
  TrueColor.render e f w = Ok w' ->
  results w' = results w /\
  ((Py.endswith f ".tif" = false /\ rgb_dir w' = rgb_dir w) \/
   (Py.endswith f ".tif" = true /\
    exists src img, results w !! f = Some (RasterFile src) /\
                    true_color_png e src = Ok img /\
                    rgb_dir w' = <[TrueColor.output_name f := img]> (rgb_dir w))).
Proof.
  unfold TrueColor.render, Rasterio.open.
  destruct (Py.endswith f ".tif"); [|intros [= <-]; split; [done | by left]].
  destruct (results w !! f) as [[src|]|]; try discriminate. cbn [mbind result_bind].
  destruct (TrueColor.true_color_image src) as [img|] eqn:Hi; [|discriminate].
  cbn [mbind result_bind].
  destruct (Plt.imsave e img) as [saved|] eqn:Hs; [|discriminate].
  cbn [mbind result_bind]. intros [= <-]. split; [done|]. right.
  split; [done|]. exists src, saved. split; [done|]. split; [|done].
  unfold true_color_png. by rewrite Hi.
Qed.

Lemma false_color_body_spec (e : env) (f : string) (w w' : world) :
  FalseColor.render e f w = Ok w' ->
  results w' = results w /\
  ((Py.endswith f ".tif" = false /\ false_color_dir w' = false_color_dir w) \/
   (Py.endswith f ".tif" = true /\
    exists src img, results w !! f = Some (RasterFile src) /\
                    false_color_png e src = Ok img /\
                    false_color_dir w' = <[FalseColor.output_name f := img]> (false_color_dir w))).
Proof.
  unfold FalseColor.render, Rasterio.open.
  destruct (Py.endswith f ".tif"); [|intros [= <-]; split; [done | by left]].
  destruct (results w !! f) as [[src|]|]; try discriminate. cbn [mbind result_bind].
  destruct (FalseColor.false_color_image src) as [img|] eqn:Hi; [|discriminate].
  cbn [mbind result_bind].
  destruct (Plt.imsave e img) as [saved|] eqn:Hs; [|discriminate].
  cbn [mbind result_bind]. intros [= <-]. split; [done|]. right.
  split; [done|]. exists src, saved. split; [done|]. split; [|done].
  unfold false_color_png. by rewrite Hi.
Qed.

(** A run of the true-color cell that returns has rendered every entry of
    Results whose name ends with [".tif"]: each is a raster whose image
    could be computed and saved, and under its output name the image
    directory holds the file saved for a raster with that output name.  Every other name of the
    image directory holds what it held; Results and the false-color
    directory are as before. *)
Theorem true_color_run_renders_all (e : env) (w w' : world) :
  (forall l, listdir_order e l ≡ₚ l) ->
  TrueColor.run e w = Ok w' ->
  results w' = results w /\
  false_color_dir w' = false_color_dir w /\
  (forall tiff_file x, results w !! tiff_file = Some x ->
     Py.endswith tiff_file ".tif" = true ->
     (exists src img saved, x = RasterFile src /\
        TrueColor.true_color_image src = Ok img /\ Plt.imsave e img = Ok saved) /\
     (exists img, rendered_as (true_color_png e) TrueColor.output_name
                    (results w) (TrueColor.output_name tiff_file) img /\
                  rgb_dir w' !! TrueColor.output_name tiff_file = Some img)) /\
  (forall k, rgb_dir w' !! k = rgb_dir w !! k \/
     exists img, rendered_as (true_color_png e) TrueColor.output_name
                   (results w) k img /\
                 rgb_dir w' !! k = Some img).
Proof.
  intros Hperm Hrun.
  pose proof (true_color_run_uniform e w w eq_refl) as Hu. rewrite Hrun in Hu.
  destruct Hu as (G & lines & Hw' & _).
  unfold TrueColor.run in Hrun. apply bind_Ok_inv in Hrun as (w1 & Hloop & [= <-]).
  destruct (render_loop_facts _ _ _ _ (true_color_body_spec e) _ _ _ Hloop)
    as (Hres & HA & HB & HC).
  split; [exact Hres|]. split; [by rewrite Hw'; unfold store; cbn; rewrite (left_id_L ∅ (∪))|].
  split; [|exact HB].
  intros f x Hx Hends.
  assert (Hin : f ∈ Py.sorted (listdir e (results w)))
    by (apply listing_elem_of; [done | by rewrite Hx]).
  split; [|by apply HC].
  destruct (HA f Hin Hends) as (src & saved & Hf & Hi). rewrite Hx in Hf.
  injection Hf as ->. apply bind_Ok_inv in Hi as (img & Hi & Hs). by exists src, img, saved.
Qed.

(** A run of the false-color cell that returns has rendered every entry of
    Results whose name ends with [".tif"]: each is a raster with at least
    four bands whose image could be computed and saved, and under its output
    name the false-color directory holds the file saved for a raster with
    that output name.
    Every other name of that directory holds what it held; Results and the
    true-color directory are as before. *)
Theorem false_color_run_renders_all (e : env) (w w' : world) :
  (forall l, listdir_order e l ≡ₚ l) ->
  FalseColor.run e w = Ok w' ->
  results w' = results w /\
  rgb_dir w' = rgb_dir w /\
  (forall tiff_file x, results w !! tiff_file = Some x ->
     Py.endswith tiff_file ".tif" = true ->
     (exists src img saved, x = RasterFile src /\
        FalseColor.false_color_image src = Ok img /\ Plt.imsave e img = Ok saved) /\
     (exists img, rendered_as (false_color_png e) FalseColor.output_name
                    (results w) (FalseColor.output_name tiff_file) img /\
                  false_color_dir w' !! FalseColor.output_name tiff_file = Some img)) /\
  (forall k, false_color_dir w' !! k = false_color_dir w !! k \/
     exists img, rendered_as (false_color_png e) FalseColor.output_name
                   (results w) k img /\
                 false_color_dir w' !! k = Some img).
Proof.
  intros Hperm Hrun.
  pose proof (false_color_run_uniform e w w eq_refl) as Hu. rewrite Hrun in Hu.
  destruct Hu as (F & lines & Hw' & _).
  unfold FalseColor.run in Hrun. apply bind_Ok_inv in Hrun as (w1 & Hloop & [= <-]).
  destruct (render_loop_facts _ _ _ _ (false_color_body_spec e) _ _ _ Hloop)
    as (Hres & HA & HB & HC).
  split; [exact Hres|]. split; [by rewrite Hw'; unfold store; cbn; rewrite (left_id_L ∅ (∪))|].
  split; [|exact HB].
  intros f x Hx Hends.
  assert (Hin : f ∈ Py.sorted (listdir e (results w)))
    by (apply listing_elem_of; [done | by rewrite Hx]).
  split; [|by apply HC].
  destruct (HA f Hin Hends) as (src & saved & Hf & Hi). rewrite Hx in Hf.
  injection Hf as ->. apply bind_Ok_inv in Hi as (img & Hi & Hs). by exists src, img, saved.
Qed.

End RenderingRun.

(** ** Two images for every raster *)

Section TwoImages.

Lemma true_color_run_image (e : env) (w w' : world) (stem : string) (src : raster) :
  (forall l, listdir_order e l ≡ₚ l) ->
  TrueColor.run e w = Ok w' ->
  plain_names (results w) ->
  results w !! (stem +:+ ".tif") = Some (RasterFile src) ->
  Py.occurs ".tif" stem = false ->
  exists img, true_color_png e src = Ok img /\
              rgb_dir w' !! (stem +:+ "_RGB.png") = Some img.
Proof.
  intros Hperm Hrun Hplain Hsrc Hstem.
  unfold TrueColor.run in Hrun. apply bind_Ok_inv in Hrun as (w1 & Hloop & [= <-]).
  destruct (render_loop_facts _ _ _ _ (true_color_body_spec e) _ _ _ Hloop)
    as (_ & _ & _ & HC).
  destruct (HC (stem +:+ ".tif")) as (img & (f' & src' & Hf' & He' & Hname & Hi) & Hget).
  { apply listing_elem_of; [done | by rewrite Hsrc]. }
  { apply endswith_suffix. }
  destruct (Hplain f' ltac:(by rewrite Hf') He') as (stem' & -> & Hstem').
  unfold TrueColor.output_name in *. rewrite !replace_extension in * by done.
  apply append_cancel_r in Hname as ->. rewrite Hsrc in Hf'. injection Hf' as <-.
  by exists img.
Qed.

Lemma false_color_run_image (e : env) (w w' : world) (stem : string) (src : raster) :
  (forall l, listdir_order e l ≡ₚ l) ->
  FalseColor.run e w = Ok w' ->
  plain_names (results w) ->
  results w !! (stem +:+ ".tif") = Some (RasterFile src) ->
  Py.occurs ".tif" stem = false ->
  exists img, false_color_png e src = Ok img /\
              false_color_dir w' !! (stem +:+ "_FalseColor.png") = Some img.
Proof.
  intros Hperm Hrun Hplain Hsrc Hstem.
  unfold FalseColor.run in Hrun. apply bind_Ok_inv in Hrun as (w1 & Hloop & [= <-]).
  destruct (render_loop_facts _ _ _ _ (false_color_body_spec e) _ _ _ Hloop)
    as (_ & _ & _ & HC).
  destruct (HC (stem +:+ ".tif")) as (img & (f' & src' & Hf' & He' & Hname & Hi) & Hget).
  { apply listing_elem_of; [done | by rewrite Hsrc]. }
  { apply endswith_suffix. }
  destruct (Hplain f' ltac:(by rewrite Hf') He') as (stem' & -> & Hstem').
  unfold FalseColor.output_name in *. rewrite !replace_extension in * by done.
  apply append_cancel_r in Hname as ->. rewrite Hsrc in Hf'. injection Hf' as <-.
  by exists img.
Qed.

(** After a run of the whole script that returns, when no raster name in
    Results holds [".tif"] other than as its extension, every raster
    [<stem>.tif] of Results has exactly its two images: the file saved from
    its true-color image under [<stem>_RGB.png] and the file saved from its
    false-color image under [<stem>_FalseColor.png]. *)
Theorem script_two_images_per_raster (e : env) (base_dir : gmap string entry)
    (w w' : world) (stem : string) (src : raster) :
  (forall l, listdir_order e l ≡ₚ l) ->
  script e base_dir w = Ok w' ->
  plain_names (results w') ->
  results w' !! (stem +:+ ".tif") = Some (RasterFile src) ->
  Py.occurs ".tif" stem = false ->
  exists rgb fc : png,
    true_color_png e src = Ok rgb /\
    false_color_png e src = Ok fc /\
    rgb_dir w' !! (stem +:+ "_RGB.png") = Some rgb /\
    false_color_dir w' !! (stem +:+ "_FalseColor.png") = Some fc.
Proof.
  intros Hperm Hrun Hplain Hsrc Hstem. unfold script in Hrun.
  apply bind_Ok_inv in Hrun as (w1 & _ & Hrun).
  apply bind_Ok_inv in Hrun as (w2 & Ht & Hf).
  pose proof (true_color_run_uniform e w1 w1 eq_refl) as Hu2. rewrite Ht in Hu2.
  destruct Hu2 as (G & l2 & -> & _).
  pose proof (false_color_run_uniform e _ _ (eq_refl (results (store ∅ G ∅ l2 w1)))) as Hu3.
  rewrite Hf in Hu3. destruct Hu3 as (F & l3 & -> & _).
  rewrite !store_results in *.
  destruct (true_color_run_image e w1 _ stem src Hperm Ht Hplain Hsrc Hstem)
    as (rgb & Hrgb & Hget).
  destruct (false_color_run_image e _ _ stem src Hperm Hf
              ltac:(by rewrite store_results) ltac:(by rewrite store_results) Hstem)
    as (fc & Hfc & Hgetf).
  exists rgb, fc. split; [done|]. split; [done|]. split; [|exact Hgetf].
  unfold store at 1. cbn [rgb_dir]. by rewrite (left_id_L ∅ (∪)).
Qed.

(** One entry of Results that ends with [".tif"] and cannot be rendered, be
    it no raster or a raster on which the rendering path or the saving of
    its image raises, makes the whole cell raise: the run does not return. *)
Theorem rendering_run_aborts (e : env) (w : world) (tiff_file : string) :
  (forall l, listdir_order e l ≡ₚ l) ->
  Py.endswith tiff_file ".tif" = true ->
  (results w !! tiff_file = Some OtherFile \/
   exists src x, results w !! tiff_file = Some (RasterFile src) /\
                 true_color_png e src = Raise x) ->
  exists x : exn, TrueColor.run e w = Raise x.
Proof.
  intros Hperm Hends Hbad.
  destruct (TrueColor.run e w) as [w'|x] eqn:Hrun; [exfalso | by exists x].
  unfold TrueColor.run in Hrun. apply bind_Ok_inv in Hrun as (w1 & Hloop & _).
  destruct (render_loop_facts _ _ _ _ (true_color_body_spec e) _ _ _ Hloop)
    as (_ & HA & _).
  destruct (HA tiff_file) as (src & img & Hf & Hi); [|done|].
  { apply listing_elem_of; [done|].
    destruct Hbad as [->|(? & ? & -> & _)]; done. }
  destruct Hbad as [Hb|(src' & x & Hb & Hx)]; rewrite Hf in Hb; [discriminate|].
  injection Hb as <-. congruence.
Qed.


End TwoImages.

(** ** Instances of the properties above *)

Section MoreWitnesses.

Import Np.
Local Open Scope R_scope.

Lemma posix_order (l : list string) : listdir_order posix l ≡ₚ l.
Proof. reflexivity. Qed.


Lemma july_complete : complete_month july_tree "July".
Proof. exists five_bands. split; [reflexivity | vm_compute; reflexivity]. Qed.

Lemma stacking_run_august :
  Stacking.run posix august_tree empty_world
  = Ok {| results :=
            <["August.tif" :=
                RasterFile {| height := 1; width := 2; georef := "EPSG:32632";
                              driver := "JP2OpenJPEG"; dtype := Int UInt16;
                              bands_of := [[0; 2]; [2; 6]; [0; 4]; [4; 8]; [8; 6]]%Z |}]>
              (<["August.tif.aux.xml" := OtherFile]> ∅);
          rgb_dir := ∅; false_color_dir := ∅;
          stdout := [ "Created /home/user/project/Results/August.tif";
                      "Processing complete!" ] |}.
Proof. vm_compute. reflexivity. Qed.

Lemma august_complete : complete_month august_tree "August".
Proof. exists five_jp2_bands. split; [reflexivity | vm_compute; reflexivity]. Qed.

Lemma true_color_run_varied :
  exists w', TrueColor.run posix varied_world = Ok w'.
Proof.
  destruct (varied_raster_renders posix) as (img & _ & saved & _ & Hi & _ & Hs & _).
  assert (Hl : Py.sorted (listdir posix (results varied_world)) = ["April.tif"])
    by (vm_compute; reflexivity).
  unfold TrueColor.run. rewrite Hl. cbn [Py.for_each].
  rewrite (true_color_render_ok posix varied_world "April.tif" varied_raster img saved)
    by (done || apply lookup_singleton_eq).
  cbn [mbind result_bind]. by eexists.
Qed.

Lemma false_color_run_varied :
  exists w', FalseColor.run posix varied_world = Ok w'.
Proof.
  destruct (varied_raster_renders posix) as (_ & img & _ & saved & _ & Hi & _ & Hs).
  assert (Hl : Py.sorted (listdir posix (results varied_world)) = ["April.tif"])
    by (vm_compute; reflexivity).
  unfold FalseColor.run. rewrite Hl. cbn [Py.for_each].
  rewrite (false_color_render_ok posix varied_world "April.tif" varied_raster img saved)
    by (done || apply lookup_singleton_eq).
  cbn [mbind result_bind]. by eexists.
Qed.

Lemma true_color_image_outcome_witness :
  TrueColor.true_color_image two_band_raster = Raise IndexError.
Proof. apply (proj1 (true_color_image_outcome two_band_raster)). cbn. lia. Defined.

Lemma false_color_image_outcome_witness :
  FalseColor.false_color_image three_band_raster = Raise IndexError.
Proof. apply (proj1 (false_color_image_outcome three_band_raster)). cbn. lia. Defined.

Lemma stacking_run_stacks_complete_months_witness :
  exists dst : raster,
    stacked_from posix august_tree "August" dst /\ length (bands_of dst) = 5%nat /\
    gdal_stored posix dst
    = {| height := 1; width := 2; georef := "EPSG:32632";
         driver := "JP2OpenJPEG"; dtype := Int UInt16;
         bands_of := [[0; 2]; [2; 6]; [0; 4]; [4; 8]; [8; 6]]%Z |}.
Proof.
  destruct (stacking_run_stacks_complete_months posix august_tree empty_world _ "August"
              posix_order stacking_run_august august_complete)
    as (dst & Hdst & Hres & Hlen & _).
  exists dst. split; [exact Hdst|]. split; [exact Hlen|].
  cbn [results] in Hres. change ("August" +:+ ".tif") with "August.tif" in Hres.
  rewrite lookup_insert_eq in Hres. congruence.
Defined.


Lemma true_color_run_renders_all_witness :
  exists w', TrueColor.run posix varied_world = Ok w' /\
             results w' = results varied_world.
Proof.
  destruct true_color_run_varied as (w' & Hrun). exists w'. split; [exact Hrun|].
  by destruct (true_color_run_renders_all posix varied_world w' posix_order Hrun).
Defined.

Lemma false_color_run_renders_all_witness :
  exists w', FalseColor.run posix varied_world = Ok w' /\
             results w' = results varied_world.
Proof.
  destruct false_color_run_varied as (w' & Hrun). exists w'. split; [exact Hrun|].
  by destruct (false_color_run_renders_all posix varied_world w' posix_order Hrun).
Defined.

Lemma script_two_images_per_raster_witness :
  exists (w' : world) (rgb fc : png),
    script posix july_tree empty_world = Ok w' /\
    rgb_dir w' !! "July_RGB.png" = Some rgb /\
    false_color_dir w' !! "July_FalseColor.png" = Some fc.
Proof.
  destruct script_july as (w' & Hrun & Hres & _).
  assert (Hplain : plain_names (results w')).
  { intros f Hf Hends. rewrite Hres in Hf. destruct Hf as [x Hx].
    apply lookup_singleton_Some in Hx as [<- _]. exists "July". split; reflexivity. }
  assert (Hsrc : results w' !! ("July" +:+ ".tif") = Some (RasterFile varied_raster)).
  { rewrite Hres. change ("July" +:+ ".tif") with "July.tif". apply lookup_singleton_eq. }
  destruct (script_two_images_per_raster posix july_tree empty_world w' "July" varied_raster
              posix_order Hrun Hplain Hsrc eq_refl) as (rgb & fc & _ & _ & Hrgb & Hfc).
  exists w', rgb, fc. split; [exact Hrun|]. split; [exact Hrgb | exact Hfc].
Defined.

Lemma rendering_run_aborts_witness :
  exists x : exn, TrueColor.run posix junk_world = Raise x.
Proof.
  apply (rendering_run_aborts posix junk_world "notes.tif" posix_order).
  - reflexivity.
  - left. apply lookup_singleton_eq.
Defined.


End MoreWitnesses.

(** ** Image names *)

Section ImageNames.

(** For raster names whose stem holds no [".tif"], both rendering loops pick
    the raster up and name its image by the stem followed by the kind, and
    two such rasters never share an image name. *)
Theorem output_names_of_plain_stems (stem1 stem2 : string) :
  Py.occurs ".tif" stem1 = false ->
  Py.occurs ".tif" stem2 = false ->
  Py.endswith (stem1 +:+ ".tif") ".tif" = true /\
  TrueColor.output_name (stem1 +:+ ".tif") = stem1 +:+ "_RGB.png" /\
  FalseColor.output_name (stem1 +:+ ".tif") = stem1 +:+ "_FalseColor.png" /\
  (TrueColor.output_name (stem1 +:+ ".tif") = TrueColor.output_name (stem2 +:+ ".tif") ->
   stem1 = stem2) /\
  (FalseColor.output_name (stem1 +:+ ".tif") = FalseColor.output_name (stem2 +:+ ".tif") ->
   stem1 = stem2).
Proof.
  intros H1 H2. unfold TrueColor.output_name, FalseColor.output_name.
  rewrite !replace_extension by done.
  split; [apply endswith_suffix|]. do 2 (split; [reflexivity|]).
  split; apply append_cancel_r.
Qed.

Lemma output_names_of_plain_stems_witness :
  TrueColor.output_name ("April" +:+ ".tif") = "April" +:+ "_RGB.png" /\
  FalseColor.output_name ("April" +:+ ".tif") = "April" +:+ "_FalseColor.png".
Proof.
  destruct (output_names_of_plain_stems "April" "May" eq_refl eq_refl)
    as (_ & Ht & Hf & _).
  by split.
Defined.

End ImageNames.
